(** * URL connectivity diagnostics: probe, analysis dispatch, fallback reports

    A shallow embedding of the URL-analysis code of the repository:

    - [analyze_url_connectivity], the four-layer probe (DNS, port, TLS,
      HTTP), verbatim the same in devops-analyzer.py, analyze_url.py and
      web_interface.py;
    - [DevopsAnalyzer]: the prompt, the AI call, the fallback report, the
      question answering and the [url] command of devops-analyzer.py;
    - [AnalyzeUrl]: the same pipeline as written in analyze_url.py;
    - [WebInterface]: the fallback report of web_interface.py;
    - [DevopsInfra]: the commands [infrastructure] and [deploy] of
      devops-analyzer.py;
    - [WebRoutes]: the AI call and the route /analyze of web_interface.py.

    Python values are modelled as follows.  A [str] is a [string] holding
    its UTF-8 bytes; [str.lower] acts on the ASCII letters, which is exact
    for ASCII text; [str.strip] removes the white space of Python, inside
    and outside ASCII.  A [float] number of milliseconds is an exact
    rational [Q] (every finite float is one).  A dictionary with a fixed
    key set is a record; a key whose value may be [None] is an [option]
    field, so [None] below always means "key present, value None".  A
    value that comes out of a JSON body is a [json_value]: a string, or a
    value of another type.  Exceptions are values of [exn] threaded
    through the [result] monad.  Calls that leave the program (urlparse,
    sockets, TLS, HTTP, the clock) are inputs: the pure [urlparse] is a
    function parameter, the network is a [world] of answers, and the
    clock reading is the argument [now]. *)

From Stdlib Require Import String Ascii List ZArith QArith Bool Lia.
From Stdlib Require Import DecimalString.
Import ListNotations.
Open Scope string_scope.
Open Scope Z_scope.

(** ** Python strings *)

Definition nl : string := String (ascii_of_nat 10) EmptyString.

Definition lower_ascii (c : ascii) : ascii :=
  let n := nat_of_ascii c in
  if ((65 <=? n) && (n <=? 90))%nat then ascii_of_nat (n + 32) else c.

(** [s.lower()] *)
Fixpoint lower (s : string) : string :=
  match s with
  | EmptyString => EmptyString
  | String c s' => String (lower_ascii c) (lower s')
  end.

(** [sub in s] *)
Fixpoint contains (sub s : string) : bool :=
  String.prefix sub s ||
  match s with
  | EmptyString => false
  | String _ s' => contains sub s'
  end.

(** [s.startswith(p)] *)
Definition startswith (p s : string) : bool := String.prefix p s.

(** [s.endswith(p)] *)
Definition endswith (p s : string) : bool :=
  (String.length p <=? String.length s)%nat &&
  String.eqb (substring (String.length s - String.length p) (String.length p) s) p.

(** [sep.join(l)] *)
Definition join (sep : string) (l : list string) : string := String.concat sep l.

(** [str(n)] and the [{n}] of an f-string, for an [int]. *)
Definition str_of_Z (z : Z) : string := NilZero.string_of_int (Z.to_int z).

(** Truthiness of an [int], a [float], a [str], a [list]. *)
Definition truthy_Z (z : Z) : bool := negb (z =? 0).
Definition truthy_Q (q : Q) : bool := negb (Qnum q =? 0).
Definition truthy_str (s : string) : bool := negb (String.eqb s EmptyString).
Definition truthy_list {A} (l : list A) : bool :=
  match l with [] => false | _ => true end.

(** Rounding of a float to the nearest integer, ties to even: the rule of
    the [.0f] format. *)
Definition round_half_even (q : Q) : Z :=
  let n := Qnum q in
  let d := Zpos (Qden q) in
  let fl := n / d in
  let r2 := 2 * (n mod d) in
  if r2 <? d then fl
  else if d <? r2 then fl + 1
  else if Z.even fl then fl else fl + 1.

(** [f"{x:.0f}"]; a negative number that rounds to zero prints as [-0]. *)
Definition fmt0 (q : Q) : string :=
  let r := round_half_even q in
  if (r =? 0) && (Qnum q <? 0) then "-0" else str_of_Z r.

Definition Qltb (a b : Q) : bool := negb (Qle_bool b a).

(** ** Exceptions *)

(** A raised exception: the two classes of the [requests] library that the
    [except] clauses test for, and [str(e)]. *)
Record exn := mkExn {
  exn_is_timeout : bool;        (* isinstance(e, requests.exceptions.Timeout) *)
  exn_is_connection : bool;     (* isinstance(e, requests.exceptions.ConnectionError) *)
  exn_str : string              (* str(e) *)
}.

Inductive result (A : Type) : Type :=
| Ok (a : A)
| Raise (e : exn).
Arguments Ok {A} a.
Arguments Raise {A} e.

Definition bind {A B} (m : result A) (k : A -> result B) : result B :=
  match m with
  | Ok a => k a
  | Raise e => Raise e
  end.

Notation "x <- m ;; k" := (bind m (fun x => k))
  (at level 61, m at next level, right associativity).

(** [try: body / except Exception as e: handler(e)] *)
Definition try_except {A} (body : result A) (handler : exn -> result A) : result A :=
  match body with
  | Ok a => Ok a
  | Raise e => handler e
  end.

Definition plain_exn (msg : string) : exn := mkExn false false msg.

(** [None.get(...)] *)
Definition AttributeError_get : exn :=
  plain_exn "'NoneType' object has no attribute 'get'".

(** [d.get(key, {}).get(field)] where [d[key]] exists: the default [{}] is
    not used for a key that is present, so a [None] value raises. *)
Definition get_get {A B} (v : option A) (field : A -> B) : result B :=
  match v with
  | Some a => Ok (field a)
  | None => Raise AttributeError_get
  end.

(** ** The diagnostic record *)

(** [result['dns_resolution']] *)
Inductive dns_info :=
| DnsOk (ip_address : string)        (* {'success': True, 'ip_address': ..} *)
| DnsFail (error : string).          (* {'success': False, 'error': ..} *)

(** [result['connectivity_tests']['port']] *)
Inductive port_info :=
| PortResult (port_open : bool)      (* {'success': b, 'port_open': b} *)
| PortError (error : string).        (* {'success': False, 'error': ..} *)

(** The dictionary of [getpeercert()], as far as it is read. *)
Record cert := mkCert {
  subject : option string;
  issuer : option string;
  version : option Z;
  serial_number : option string;
  not_before : option string;
  not_after : option string
}.

(** [result['ssl_info']] *)
Inductive ssl_data :=
| SslOk (c : cert)                   (* {'success': True, 'subject': .., ..} *)
| SslFail (error : string).          (* {'success': False, 'error': ..} *)

(** [result['http_status']] *)
Inductive http_info :=
| HttpStatus (status_code : Z) (status_text : string)
             (redirects : nat) (final_url : string)
| HttpError (error : string).        (* {'error': ..} *)

(** The dictionary [result] of the probe.  [connectivity_tests] starts as
    [{}], so its ['port'] entry is optional; [response_time] is
    [{'milliseconds': q}] or [None]. *)
Record conn_data := mkData {
  url : string;
  hostname : option string;
  port : Z;
  scheme : string;
  connectivity_tests_port : option port_info;
  dns_resolution : option dns_info;
  ssl_info : option ssl_data;
  http_status : option http_info;
  response_time : option Q;
  errors : list string
}.

(** What the probe returns: the full dictionary, or the short one of the
    outer [except], which has only the keys url, error and errors. *)
Inductive analysis :=
| Probed (data : conn_data)
| AnalysisFailed (a_url : string) (a_error : string) (a_errors : list string).

(** ['error' in data] *)
Definition has_error_key (a : analysis) : bool :=
  match a with Probed _ => false | AnalysisFailed _ _ _ => true end.

(** [data.get('errors', [])] *)
Definition analysis_errors (a : analysis) : list string :=
  match a with Probed d => errors d | AnalysisFailed _ _ es => es end.

(** [data.get('ssl_info')] *)
Definition analysis_ssl_info (a : analysis) : option ssl_data :=
  match a with Probed d => ssl_info d | AnalysisFailed _ _ _ => None end.

(** Field accessors used after [.get(key, {})]. *)
Definition dns_success (d : dns_info) : bool :=
  match d with DnsOk _ => true | DnsFail _ => false end.
Definition port_success (p : option port_info) : bool :=
  match p with Some (PortResult b) => b | _ => false end.
Definition ssl_success (s : ssl_data) : bool :=
  match s with SslOk _ => true | SslFail _ => false end.
(** [http_status.get('status_code')]: [None] when the key is missing. *)
Definition http_status_code (h : http_info) : option Z :=
  match h with HttpStatus c _ _ _ => Some c | HttpError _ => None end.
Definition http_status_text (h : http_info) : option string :=
  match h with HttpStatus _ t _ _ => Some t | HttpError _ => None end.
Definition http_error (h : http_info) : option string :=
  match h with HttpStatus _ _ _ _ => None | HttpError e => Some e end.
(** [data['dns_resolution']['ip_address']], read only after success. *)
Definition dns_ip_address (d : dns_info) : string :=
  match d with DnsOk ip => ip | DnsFail _ => EmptyString end.

(** ** The outside world *)

(** [urllib.parse.urlparse(url)]: scheme, [.hostname], and [.port], which
    raises ValueError for a port that is not a number in range. *)
Record parsed_url := mkParsed {
  p_scheme : string;
  p_hostname : option string;
  p_port : result (option Z)
}.

(** A [requests.get] response together with the measured elapsed time,
    [(end_time - start_time).total_seconds() * 1000]. *)
Record http_response := mkResponse {
  resp_status_code : Z;
  resp_reason : string;
  resp_history_len : nat;
  resp_url : string;
  resp_elapsed_ms : Q
}.

(** A JSON value as far as the code reads it: a string, or a value of
    another type (number, boolean, null, list, object), of which the type
    name, [str(v)] and the truthiness are read. *)
Inductive json_value :=
| JString (s : string)
| JOther (type_name : string) (text : string) (truthy : bool).

Coercion JString : string >-> json_value.

(** [str(v)], also the [{v}] of an f-string *)
Definition py_str (v : json_value) : string :=
  match v with
  | JString s => s
  | JOther _ text _ => text
  end.

(** Truthiness of a value *)
Definition truthy_value (v : json_value) : bool :=
  match v with
  | JString s => truthy_str s
  | JOther _ _ truthy => truthy
  end.

(** [None] and the number [0] *)
Definition py_None : json_value := JOther "NoneType" "None" false.
Definition py_zero : json_value := JOther "int" "0" false.

(** [v.attr] on a value that has no such attribute *)
Definition AttributeError (type_name attr : string) : exn :=
  plain_exn ("'" ++ type_name ++ "' object has no attribute '" ++ attr ++ "'").

(** A JSON object, of which the keys response and error are read. *)
Record json_object := mkJson {
  j_response : option json_value;
  j_error : option json_value
}.

(** A JSON body that is not an object: a list, a string, a number, a
    boolean or null.  [key in v] is a membership test on a list or
    string and a TypeError on the others; [v[key]] raises a TypeError. *)
Record json_non_object := mkNonObject {
  no_type : string;                       (* type(v).__name__ *)
  no_truthy : bool;                       (* bool(v) *)
  no_contains : string -> result bool;    (* key in v *)
  no_getitem : exn                        (* v[key] *)
}.

(** What [response.json()] returns. *)
Inductive json_body :=
| JsonObject (o : json_object)
| JsonNonObject (v : json_non_object).

(** [key in result], [result[key]] and [result.get(key, default)];
    [field] is the projection that belongs to [key]. *)
Definition json_in (key : string) (field : json_object -> option json_value)
           (value : json_body) : result bool :=
  match value with
  | JsonObject o => Ok (match field o with Some _ => true | None => false end)
  | JsonNonObject v => no_contains v key
  end.

Definition json_item (key : string) (field : json_object -> option json_value)
           (value : json_body) : result json_value :=
  match value with
  | JsonObject o =>
      match field o with
      | Some x => Ok x
      | None => Raise (plain_exn ("'" ++ key ++ "'"))
      end
  | JsonNonObject v => Raise (no_getitem v)
  end.

(** [analysis.lower()] in the keyword test of a [main], and what
    follows it: a value that is not a str has no method lower. *)
Definition on_text {A} (analysis : json_value) (k : string -> result A) : result A :=
  match analysis with
  | JString text => k text
  | JOther type_name _ _ => Raise (AttributeError type_name "lower")
  end.

Definition json_get (key : string) (field : json_object -> option json_value)
           (default : json_value) (value : json_body) : result json_value :=
  match value with
  | JsonObject o => Ok (match field o with Some x => x | None => default end)
  | JsonNonObject v => Raise (AttributeError (no_type v) "get")
  end.

Record post_response := mkPost {
  post_status_code : Z;
  post_text : string;
  post_json : result json_body
}.

(** How the network answers during one run. *)
Record world := mkWorld {
  (* socket.gethostbyname(hostname) *)
  w_gethostbyname : option string -> result string;
  (* socket.socket(..); settimeout(5); connect_ex((hostname, port)) *)
  w_connect_ex : option string -> Z -> result Z;
  (* create_connection + wrap_socket + getpeercert() *)
  w_getpeercert : option string -> Z -> result cert;
  (* requests.get(url, timeout=10, allow_redirects=True) *)
  w_requests_get : string -> result http_response;
  (* requests.post(api_url + "/api/analyze", json={prompt, context}) *)
  w_requests_post : string -> string -> result post_response
}.

(** ** The probe: [analyze_url_connectivity] *)

(** [result['errors'].append(msg)] *)
Definition append_error (r : conn_data) (msg : string) : conn_data :=
  mkData (url r) (hostname r) (port r) (scheme r) (connectivity_tests_port r)
         (dns_resolution r) (ssl_info r) (http_status r) (response_time r)
         (errors r ++ [msg])%list.

Definition set_dns_resolution (r : conn_data) (v : dns_info) : conn_data :=
  mkData (url r) (hostname r) (port r) (scheme r) (connectivity_tests_port r)
         (Some v) (ssl_info r) (http_status r) (response_time r) (errors r).

Definition set_port_test (r : conn_data) (v : port_info) : conn_data :=
  mkData (url r) (hostname r) (port r) (scheme r) (Some v)
         (dns_resolution r) (ssl_info r) (http_status r) (response_time r) (errors r).

Definition set_ssl_info (r : conn_data) (v : ssl_data) : conn_data :=
  mkData (url r) (hostname r) (port r) (scheme r) (connectivity_tests_port r)
         (dns_resolution r) (Some v) (http_status r) (response_time r) (errors r).

Definition set_http_status (r : conn_data) (v : http_info) : conn_data :=
  mkData (url r) (hostname r) (port r) (scheme r) (connectivity_tests_port r)
         (dns_resolution r) (ssl_info r) (Some v) (response_time r) (errors r).

Definition set_response_time (r : conn_data) (ms : Q) : conn_data :=
  mkData (url r) (hostname r) (port r) (scheme r) (connectivity_tests_port r)
         (dns_resolution r) (ssl_info r) (http_status r) (Some ms) (errors r).

(** DNS Resolution Test *)
Definition dns_test (w : world) (r : conn_data) : result conn_data :=
  try_except
    (ip_address <- w_gethostbyname w (hostname r) ;;
     Ok (set_dns_resolution r (DnsOk ip_address)))
    (fun e =>
       Ok (append_error (set_dns_resolution r (DnsFail (exn_str e)))
                        ("DNS Resolution failed: " ++ exn_str e))).

(** Port Connectivity Test *)
Definition port_test (w : world) (r : conn_data) : result conn_data :=
  try_except
    (connection_result <- w_connect_ex w (hostname r) (port r) ;;
     Ok (set_port_test r (PortResult (connection_result =? 0))))
    (fun e =>
       Ok (append_error (set_port_test r (PortError (exn_str e)))
                        ("Port connection failed: " ++ exn_str e))).

(** SSL Certificate Test (for HTTPS) *)
Definition ssl_test (w : world) (r : conn_data) : result conn_data :=
  if String.eqb (scheme r) "https" then
    try_except
      (c <- w_getpeercert w (hostname r) (port r) ;;
       Ok (set_ssl_info r (SslOk c)))
      (fun e =>
         Ok (append_error (set_ssl_info r (SslFail (exn_str e)))
                          ("SSL Certificate issue: " ++ exn_str e)))
  else Ok r.

(** HTTP Status Test.  The three [except] clauses are tried in the order
    Timeout, ConnectionError, Exception. *)
Definition http_test (w : world) (r : conn_data) : result conn_data :=
  try_except
    (response <- w_requests_get w (url r) ;;
     let r1 := set_http_status r
                 (HttpStatus (resp_status_code response) (resp_reason response)
                             (resp_history_len response) (resp_url response)) in
     let r2 := set_response_time r1 (resp_elapsed_ms response) in
     if 400 <=? resp_status_code response then
       Ok (append_error r2 ("HTTP Error " ++ str_of_Z (resp_status_code response)
                              ++ ": " ++ resp_reason response))
     else Ok r2)
    (fun e =>
       if exn_is_timeout e then
         Ok (append_error (set_http_status r (HttpError "Request timeout"))
                          "Request timed out")
       else if exn_is_connection e then
         Ok (append_error (set_http_status r (HttpError "Connection error"))
                          ("Connection error: " ++ exn_str e))
       else
         Ok (append_error (set_http_status r (HttpError (exn_str e)))
                          ("HTTP request failed: " ++ exn_str e))).

Section Probe.

(** [urllib.parse.urlparse], a pure function of the URL text. *)
Variable urlparse : string -> result parsed_url.

(** [parsed.port or (443 if parsed.scheme == 'https' else 80)] *)
Definition port_or_default (parsed_port : option Z) (parsed_scheme : string) : Z :=
  match parsed_port with
  | Some p => if truthy_Z p then p
              else if String.eqb parsed_scheme "https" then 443 else 80
  | None => if String.eqb parsed_scheme "https" then 443 else 80
  end.

(** The body of the outer [try]. *)
Definition analyze_url_connectivity_body (w : world) (url : string)
  : result conn_data :=
  parsed <- urlparse url ;;
  let hostname := p_hostname parsed in
  parsed_port <- p_port parsed ;;
  let port := port_or_default parsed_port (p_scheme parsed) in
  let result0 := mkData url hostname port (p_scheme parsed)
                        None None None None None [] in
  r1 <- dns_test w result0 ;;
  r2 <- port_test w r1 ;;
  r3 <- ssl_test w r2 ;;
  r4 <- http_test w r3 ;;
  Ok r4.

Definition analyze_url_connectivity (w : world) (url : string)
  : result analysis :=
  try_except
    (r <- analyze_url_connectivity_body w url ;; Ok (Probed r))
    (fun e =>
       Ok (AnalysisFailed url ("Analysis failed: " ++ exn_str e) [exn_str e])).

End Probe.

(** [s.strip()].  The white space of Python is the ASCII characters
    9-13 and 28-32 and the characters U+0085, U+00A0, U+1680,
    U+2000-U+200A, U+2028, U+2029, U+202F, U+205F and U+3000; on the
    UTF-8 bytes these are one byte, or a sequence of two or three. *)
Definition is_space (c : ascii) : bool :=
  let n := nat_of_ascii c in
  (((9 <=? n) && (n <=? 13)) || ((28 <=? n) && (n <=? 32)))%nat.

(** U+0085 and U+00A0 *)
Definition is_space2 (c1 c2 : ascii) : bool :=
  let n1 := nat_of_ascii c1 in
  let n2 := nat_of_ascii c2 in
  ((n1 =? 194) && ((n2 =? 133) || (n2 =? 160)))%nat.

(** U+1680, U+2000-U+200A, U+2028, U+2029, U+202F, U+205F, U+3000 *)
Definition is_space3 (c1 c2 c3 : ascii) : bool :=
  let n1 := nat_of_ascii c1 in
  let n2 := nat_of_ascii c2 in
  let n3 := nat_of_ascii c3 in
  (((n1 =? 225) && (n2 =? 154) && (n3 =? 128))
   || ((n1 =? 226) && (n2 =? 128)
       && (((128 <=? n3) && (n3 <=? 138)) || (n3 =? 168) || (n3 =? 169) || (n3 =? 175)))
   || ((n1 =? 226) && (n2 =? 129) && (n3 =? 159))
   || ((n1 =? 227) && (n2 =? 128) && (n3 =? 128)))%nat.

(** [s.lstrip()] *)
Fixpoint lstrip (s : string) : string :=
  match s with
  | EmptyString => EmptyString
  | String c1 s1 =>
      if is_space c1 then lstrip s1
      else
        match s1 with
        | EmptyString => s
        | String c2 s2 =>
            if is_space2 c1 c2 then lstrip s2
            else
              match s2 with
              | EmptyString => s
              | String c3 s3 => if is_space3 c1 c2 c3 then lstrip s3 else s
              end
        end
  end.

(** [s.rstrip()]: a text of white space only becomes empty, any other
    text keeps its first byte. *)
Fixpoint rstrip (s : string) : string :=
  match s with
  | EmptyString => EmptyString
  | String c s' =>
      if String.eqb (lstrip s) EmptyString then EmptyString
      else String c (rstrip s')
  end.

Definition strip (s : string) : string := lstrip (rstrip s).

(** [s[:n]], the first [n] characters: a byte from 128 to 191 continues
    the character before it. *)
Definition is_continuation (c : ascii) : bool :=
  let n := nat_of_ascii c in ((128 <=? n) && (n <=? 191))%nat.

Fixpoint take_chars (n : nat) (s : string) : string :=
  match s with
  | EmptyString => EmptyString
  | String c s' =>
      if is_continuation c then String c (take_chars n s')
      else
        match n with
        | O => EmptyString
        | S m => String c (take_chars m s')
        end
  end.

(** Truthiness of [question]: [None] and the empty string are falsy. *)
Definition truthy_question (question : option string) : bool :=
  match question with
  | Some q => truthy_str q
  | None => false
  end.

(** ** The summary of a record

    The list [summary] is built by the same statements in
    [_create_url_prompt] (devops-analyzer.py) and in [get_ai_analysis]
    (analyze_url.py, web_interface.py). *)
Definition connectivity_summary (data : conn_data) : result (list string) :=
  dns_ok <- get_get (dns_resolution data) (fun d => d) ;;
  let s_dns :=
    if dns_success dns_ok
    then ["✅ DNS resolves to " ++ dns_ip_address dns_ok]
    else ["❌ DNS resolution failed"] in
  let s_port :=
    if port_success (connectivity_tests_port data)
    then ["✅ Port " ++ str_of_Z (port data) ++ " is open"]
    else ["❌ Port " ++ str_of_Z (port data) ++ " is closed or blocked"] in
  ssl_ok <- get_get (ssl_info data) ssl_success ;;
  let s_ssl :=
    if ssl_ok then ["✅ SSL certificate is valid"]
    else ["❌ SSL certificate issue detected"] in
  code <- get_get (http_status data) http_status_code ;;
  let s_http :=
    match code with
    | Some status =>
        if truthy_Z status then
          if (200 <=? status) && (status <? 300) then
            ["✅ HTTP status " ++ str_of_Z status ++ " (OK)"]
          else if (300 <=? status) && (status <? 400) then
            ["⚠️  HTTP status " ++ str_of_Z status ++ " (Redirect)"]
          else
            ["❌ HTTP status " ++ str_of_Z status ++ " (Error)"]
        else []
    | None => []
    end in
  let s_time :=
    match response_time data with
    | Some response_time =>
        if Qltb response_time (1000 # 1) then
          ["✅ Response time " ++ fmt0 response_time ++ "ms (Good)"]
        else if Qltb response_time (3000 # 1) then
          ["⚠️  Response time " ++ fmt0 response_time ++ "ms (Slow)"]
        else
          ["❌ Response time " ++ fmt0 response_time ++ "ms (Very slow)"]
    | None => []
    end in
  let s_errors :=
    if truthy_list (errors data) then
      (nl ++ "🚨 Issues detected:") :: map (fun error => "   • " ++ error) (errors data)
    else [] in
  Ok (s_dns ++ s_port ++ s_ssl ++ s_http ++ s_time ++ s_errors)%list.

(** ** The priority section

    The same three-way test closes the report in [_generate_url_fallback]
    (devops-analyzer.py) and in [generate_fallback_analysis]
    (analyze_url.py, web_interface.py). *)
Definition priority_assessment (errors : list string) : string :=
  if negb (truthy_list errors) then
    "🟢 **Priority: Low** - No critical issues" ++ nl
  else if (length errors <=? 2)%nat then
    "🟡 **Priority: Medium** - Some issues detected" ++ nl
  else
    "🔴 **Priority: High** - Multiple critical issues" ++ nl.

(** The issues section, also shared by the three reports. *)
Definition issues_found (errors : list string) : string :=
  nl ++ "## 🚨 Issues Found" ++ nl ++
  (if truthy_list errors then
     String.concat EmptyString (map (fun error => "• " ++ error ++ nl) errors)
   else "No critical issues detected." ++ nl).

(** ** Command line runs *)

(** The arguments of a URL analysis. *)
Record url_args := mkArgs {
  arg_url : string;
  arg_question : option string;
  arg_no_ai : bool
}.

(** What one run of [main] shows as the analysis, and the value it
    returns to [sys.exit]. *)
Record run := mkRun {
  shown_analysis : option string;
  exit_code : Z
}.

(** [sys.exit(main())]: the returned value, or 1 after a traceback when
    [main] raises. *)
Definition process_exit_code (r : result run) : Z :=
  match r with
  | Ok x => exit_code x
  | Raise _ => 1
  end.

(** ** devops-analyzer.py *)

Module DevopsAnalyzer.

(** [_create_url_prompt(data, question)] *)
Definition _create_url_prompt (data : conn_data) (question : option string)
  : result string :=
  summary <- connectivity_summary data ;;
  if truthy_question question then
    Ok (nl ++
"            Analyze this URL and answer the user's specific question:" ++ nl ++
"            " ++ nl ++
"            URL: " ++ url data ++ nl ++
"            User Question: " ++ match question with Some q => q | None => EmptyString end ++ nl ++
"            " ++ nl ++
"            Test Results:" ++ nl ++
"            " ++ join nl summary ++ nl ++
"            " ++ nl ++
"            Please provide a detailed answer to their question based on the connectivity data." ++ nl ++
"            Focus on their specific concern and provide actionable recommendations." ++ nl ++
"            ")
  else
    Ok (nl ++
"            Analyze this URL and diagnose the issues:" ++ nl ++
"            " ++ nl ++
"            URL: " ++ url data ++ nl ++
"            " ++ nl ++
"            Test Results:" ++ nl ++
"            " ++ join nl summary ++ nl ++
"            " ++ nl ++
"            Please provide:" ++ nl ++
"            1. Root cause analysis of the issues" ++ nl ++
"            2. Specific troubleshooting steps" ++ nl ++
"            3. Priority level (Critical/High/Medium/Low)" ++ nl ++
"            4. Estimated time to resolve" ++ nl ++
"            5. Prevention recommendations" ++ nl ++
"            " ++ nl ++
"            Be concise and actionable." ++ nl ++
"            ").

(** [get_ai_analysis('url', data, question)].  The handlers are tried in
    the order Timeout, ConnectionError, Exception. *)
Definition get_ai_analysis (w : world) (data : conn_data)
           (question : option string) : json_value :=
  let body : result json_value :=
    prompt <- _create_url_prompt data question ;;
    response <- w_requests_post w prompt "url-analysis" ;;
    if post_status_code response =? 200 then
      result <- post_json response ;;
      has_response <- json_in "response" j_response result ;;
      if has_response then json_item "response" j_response result
      else
        has_error <- json_in "error" j_error result ;;
        if has_error then
          e <- json_item "error" j_error result ;;
          Ok (JString ("AI API error: " ++ py_str e))
        else Ok (JString "No AI response available")
    else
      try_except
        (error_data <- post_json response ;;
         error_msg <- json_get "error" j_error (JString (post_text response)) error_data ;;
         Ok (JString ("AI API returned status " ++ str_of_Z (post_status_code response)
                        ++ ": " ++ py_str error_msg)))
        (fun _ =>
           Ok (JString ("AI API returned status " ++ str_of_Z (post_status_code response)
                          ++ ": " ++ take_chars 200 (post_text response)))) in
  match body with
  | Ok analysis => analysis
  | Raise e =>
      if exn_is_timeout e then JString "AI API timeout - using fallback analysis"
      else if exn_is_connection e then
        JString ("AI API connection failed - using fallback analysis: " ++ exn_str e)
      else JString ("AI analysis failed: " ++ exn_str e)
  end.

(** [response_time_ms] of the first two branches of
    [_generate_answer_only]: the measured time when it is present and
    truthy, else 0. *)
Definition response_time_ms_of (data : conn_data) : Q :=
  match response_time data with
  | Some ms => if truthy_Q ms then ms else 0%Q
  | None => 0%Q
  end.

(** The question classes of [_generate_answer_only], one per [if]/[elif]
    condition, in the order of the source. *)
Definition asks_availability (question_lower : string) : bool :=
  contains "availability" question_lower || contains "improve" question_lower
  || contains "optimiz" question_lower.

Definition asks_performance (question_lower : string) : bool :=
  contains "slow" question_lower || contains "performance" question_lower.

Definition asks_security (question_lower : string) : bool :=
  contains "secure" question_lower || contains "security" question_lower
  || contains "safe" question_lower || contains "trust" question_lower
  || contains "certificate" question_lower.

Definition asks_errors (question_lower : string) : bool :=
  contains "error" question_lower || contains "issue" question_lower
  || contains "problem" question_lower.

Definition asks_identity (question_lower : string) : bool :=
  contains "what" question_lower &&
  (contains "use" question_lower || contains "purpose" question_lower
   || contains "is" question_lower).

(** Branch 1: availability, improvement, optimisation. *)
Definition answer_availability (data : conn_data) : string :=
  let response_time_ms := response_time_ms_of data in
  (if Qltb (1000 # 1) response_time_ms then
     "Based on the current connectivity analysis, your service is experiencing slower response times (" ++ fmt0 response_time_ms ++ "ms), which can impact availability. "
     ++ "To improve availability, you should implement caching strategies at multiple levels (application, database, and CDN) to reduce latency. "
   else
     "Your service is currently performing well with a response time of " ++ fmt0 response_time_ms ++ "ms. ")
  ++ (match ssl_info data with
      | None => "However, you're currently using HTTP, which poses security risks and can impact availability. Upgrading to HTTPS is critical for both security and reliability, as it ensures encrypted connections and prevents potential man-in-the-middle attacks. "
      | Some _ => EmptyString
      end)
  ++ (if truthy_list (errors data) then
        let error_list := join "; " (firstn 2 (errors data)) in
        "Additionally, there are some issues that need attention: " ++ error_list ++ ". "
        ++ "These should be addressed to ensure stable service availability. "
      else
        "The connectivity tests show no critical issues detected, indicating your service is stable. ")
  ++ "To further enhance availability, consider deploying across multiple Availability Zones (AZs) to ensure redundancy and fault tolerance. "
  ++ "Setting up comprehensive health checks and monitoring alerts will help you proactively identify and resolve issues before they impact users. "
  ++ "Implementing proper load balancing ensures traffic is distributed evenly across your infrastructure, and auto-scaling based on demand patterns will help maintain performance during traffic spikes.".

(** Branch 2: performance.  The four texts, then the selection. *)
Definition performance_severe (response_time_ms : Q) : string :=
  "Your service is experiencing very slow response times (" ++ fmt0 response_time_ms ++ "ms), which significantly impacts user experience. "
  ++ "This could be due to high server load, inefficient database queries, or lack of caching. "
  ++ "I recommend checking your server resource utilization (CPU, memory, and network), implementing caching at multiple levels (application cache, database query cache, and CDN), and considering a Content Delivery Network (CDN) to serve static content from locations closer to your users.".

Definition performance_moderate (response_time_ms : Q) : string :=
  "Your service response time is slow (" ++ fmt0 response_time_ms ++ "ms) and could be improved. "
  ++ "This may be caused by server resource constraints or lack of optimization. "
  ++ "I suggest checking server load and resource utilization, implementing caching strategies, and considering a CDN to improve performance, especially for static assets.".

Definition performance_good (response_time_ms : Q) : string :=
  "Your service is performing well with an acceptable response time of " ++ fmt0 response_time_ms ++ "ms. "
  ++ "This indicates good performance, but you can still optimize further by implementing caching and ensuring your infrastructure is properly scaled for your traffic patterns.".

Definition performance_unmeasured : string :=
  "Unfortunately, I couldn't measure the response time during the connectivity test. "
  ++ "This could indicate network issues or the service may be timing out. "
  ++ "I recommend checking your server logs, network connectivity, and ensuring your service is properly configured and responding to requests.".

Definition answer_performance (data : conn_data) : string :=
  let response_time_ms := response_time_ms_of data in
  if Qltb 0 response_time_ms then
    if Qltb (2000 # 1) response_time_ms then performance_severe response_time_ms
    else if Qltb (1000 # 1) response_time_ms then performance_moderate response_time_ms
    else performance_good response_time_ms
  else performance_unmeasured.

(** Branch 3: security. *)
Definition answer_security (data : conn_data) : string :=
  match ssl_info data with
  | Some (SslOk _) =>
      "Your website is properly secured with a valid SSL certificate configured correctly. "
      ++ "This means your connections are encrypted using HTTPS, which protects data in transit between clients and your server. "
      ++ "Your SSL certificate is valid and properly configured, providing both security and trust for your users."
  | None =>
      "Your website is currently using HTTP, which is a critical security concern. "
      ++ "All data transmitted between users and your server is unencrypted, making it vulnerable to interception and man-in-the-middle attacks. "
      ++ "I strongly recommend upgrading to HTTPS immediately by obtaining an SSL certificate (you can use free certificates from Let's Encrypt). "
      ++ "Additionally, implement HTTPS redirects to automatically send HTTP traffic to HTTPS, and add security headers like HSTS (HTTP Strict Transport Security) and CSP (Content Security Policy) to further enhance your security posture."
  | Some (SslFail _) =>
      "There are SSL certificate issues detected with your HTTPS configuration. "
      ++ "This could mean the certificate is expired, invalid, or misconfigured. "
      ++ "You should fix this immediately as it can cause browser warnings for your users and potentially expose security vulnerabilities."
  end.

(** Branch 4: errors, issues, problems. *)
Definition answer_errors (data : conn_data) : string :=
  (if truthy_list (errors data) then
     let error_list := join nl (map (fun error => "  - " ++ error) (firstn 5 (errors data))) in
     "During the connectivity analysis, I found several issues that need attention:" ++ nl ++ error_list ++ nl
     ++ "These issues should be investigated and resolved to ensure your service operates correctly. "
     ++ "Check your server logs, review your configuration, and verify that all required services are running properly."
   else
     "Based on the connectivity tests performed, no critical issues were detected with your service. "
     ++ "The DNS resolution is working, the required ports are open, and the service is responding correctly. "
     ++ "However, I recommend regularly monitoring your service and performing periodic checks to maintain this healthy state.")
  ++ (match http_status data with
      | Some (HttpStatus status _ _ _) =>
          if 400 <=? status then
            " Additionally, there's an HTTP error (" ++ str_of_Z status ++ ") being returned, which indicates the service is encountering issues. "
            ++ "You should check your service logs and application error handling to identify and resolve the root cause."
          else EmptyString
      | _ => EmptyString
      end).

(** Branch 5: what the site is, from the host name. *)
Definition answer_identity (domain : string) : string :=
  let domain_lower := lower domain in
  if contains "google" domain_lower then
    "This website is Google's search engine and technology platform. "
    ++ "Google provides a wide range of services including web search, email (Gmail), cloud computing services (Google Cloud Platform), productivity tools (Google Workspace), and various other online tools and services. "
    ++ "The website is accessible and responding correctly based on the connectivity tests."
  else if contains "amazon" domain_lower || contains "aws" domain_lower then
    "This is an Amazon Web Services (AWS) endpoint providing cloud infrastructure services. "
    ++ "AWS offers a comprehensive suite of cloud computing services including load balancers for traffic distribution, compute resources (EC2, Lambda), storage solutions (S3, EBS), networking services (VPC, CloudFront), and many other managed services. "
    ++ "This endpoint appears to be part of AWS's infrastructure for managing and delivering cloud services."
  else if contains "microsoft" domain_lower || contains "azure" domain_lower then
    "This is a Microsoft Azure service endpoint providing cloud computing services. "
    ++ "Azure is Microsoft's cloud platform offering infrastructure as a service (IaaS), platform as a service (PaaS), and software as a service (SaaS) solutions. "
    ++ "It provides services for computing, storage, networking, databases, AI, and other enterprise solutions."
  else if contains "github" domain_lower then
    "This is GitHub, a web-based platform for version control and software development collaboration. "
    ++ "GitHub provides hosting for Git repositories, code collaboration tools, issue tracking, pull requests, and various integrations for software development workflows. "
    ++ "It's widely used by developers and organizations for managing source code and collaborative software development."
  else if contains "kubernetes" domain_lower || contains "k8s" domain_lower then
    "This is a Kubernetes service endpoint providing container orchestration and management capabilities. "
    ++ "Kubernetes is an open-source platform for automating deployment, scaling, and management of containerized applications. "
    ++ "It helps manage clusters of containers across multiple hosts and provides features like automatic scaling, service discovery, and load balancing."
  else if contains "localhost" domain_lower || contains "127.0.0.1" domain_lower then
    "This is a localhost or local network endpoint, typically used for local development or internal services. "
    ++ "Localhost refers to the current computer being used, and services running on localhost are typically only accessible from the same machine. "
    ++ "This is commonly used during development and testing phases before deploying services to production environments."
  else if endswith ".svc.cluster.local" domain then
    "This is a Kubernetes internal service endpoint within a cluster. "
    ++ "Services with the '.svc.cluster.local' domain are internal Kubernetes services that are accessible only within the cluster. "
    ++ "These are used for service discovery and communication between different components of applications running in the Kubernetes cluster."
  else if contains "elb.amazonaws.com" domain_lower || contains "alb" domain_lower then
    "This is an AWS Elastic Load Balancer (ALB) or Application Load Balancer endpoint. "
    ++ "Load balancers are used to distribute incoming traffic across multiple targets (such as EC2 instances, containers, or IP addresses) to ensure high availability and fault tolerance. "
    ++ "They help improve the availability and scalability of your applications by automatically routing traffic to healthy targets and handling traffic spikes."
  else if contains "cloudfront.net" domain_lower then
    "This is an AWS CloudFront CDN (Content Delivery Network) endpoint. "
    ++ "CloudFront is a global content delivery network that speeds up distribution of static and dynamic web content by caching content at edge locations closer to users. "
    ++ "It helps reduce latency and improve performance for users accessing your content from different geographic locations around the world."
  else
    "Based on the connectivity tests performed, this website (" ++ domain ++ ") is online and responding correctly. "
    ++ "The domain is resolving properly, the required ports are open, and the service is accessible. "
    ++ "However, to determine the specific purpose or functionality of this website, you would need to visit the URL directly in a browser or consult the website's documentation, as the connectivity tests only verify network accessibility, not the actual content or services provided.".

(** The [else] branch: a general answer. *)
Definition answer_general (domain : string) (data : conn_data) : result string :=
  code <- get_get (http_status data) http_status_code ;;
  let a_status :=
    match code, http_status data with
    | Some status, Some h =>
        if status =? 200 then
          "The website (" ++ domain ++ ") is currently online and accessible. "
        else if truthy_Z status then
          "The website is returning HTTP status " ++ str_of_Z status ++ " ("
          ++ match http_status_text h with
             | Some t => t
             | None => "Unknown status"
             end ++ "). "
        else EmptyString
    | _, _ => EmptyString
    end in
  ms <- get_get (response_time data) (fun q => q) ;;
  let a_time :=
    if truthy_Q ms then
      if Qltb ms (500 # 1) then
        "The service is performing excellently with a response time of " ++ fmt0 ms ++ "ms, which indicates very good performance. "
      else if Qltb ms (1000 # 1) then
        "The service has good performance with a response time of " ++ fmt0 ms ++ "ms. "
      else
        "The response time is " ++ fmt0 ms ++ "ms, which could be improved with optimization techniques. "
    else EmptyString in
  Ok (a_status ++ a_time
      ++ "To maintain and improve service quality, I recommend monitoring performance and availability metrics, implementing proper logging and alerting systems, and conducting regular security assessments. "
      ++ match ssl_info data with
         | None => "Additionally, upgrading to HTTPS would significantly improve security by encrypting all data transmitted between users and your server."
         | Some _ => EmptyString
         end).

Section WithUrlparse.

Variable urlparse : string -> result parsed_url.

(** [parsed_url.hostname or data['url']] *)
Definition domain_of (data : conn_data) : result string :=
  parsed_url <- urlparse (url data) ;;
  match p_hostname parsed_url with
  | Some h => if truthy_str h then Ok h else Ok (url data)
  | None => Ok (url data)
  end.

(** The body of the [try] of [_generate_answer_only]: the chain of
    [if]/[elif] tests on the lower-cased question. *)
Definition answer_body (data : conn_data) (question : string) : result string :=
  let question_lower := lower question in
  if contains "availability" question_lower || contains "improve" question_lower
     || contains "optimiz" question_lower then
    Ok (answer_availability data)
  else if contains "slow" question_lower || contains "performance" question_lower then
    Ok (answer_performance data)
  else if contains "secure" question_lower || contains "security" question_lower
          || contains "safe" question_lower || contains "trust" question_lower
          || contains "certificate" question_lower then
    Ok (answer_security data)
  else if contains "error" question_lower || contains "issue" question_lower
          || contains "problem" question_lower then
    Ok (answer_errors data)
  else if contains "what" question_lower &&
          (contains "use" question_lower || contains "purpose" question_lower
           || contains "is" question_lower) then
    domain <- domain_of data ;;
    Ok (answer_identity domain)
  else
    domain <- domain_of data ;;
    answer_general domain data.

(** [_generate_answer_only(data, question)] *)
Definition _generate_answer_only (data : conn_data) (question : string) : string :=
  match answer_body data question with
  | Ok answer =>
      if truthy_str answer then strip answer
      else "I couldn't provide a specific answer to your question based on the available data."
  | Raise e => "Error generating answer: " ++ exn_str e
  end.

End WithUrlparse.

(** The report of [_generate_url_fallback] when there is no question:
    the body of its [try] after the first [if]. *)
Definition url_report (now : string) (data : conn_data) : result string :=
  let analysis0 :=
    nl ++
    "# URL Analysis Report" ++ nl ++
    nl ++
    "**URL:** " ++ url data ++ nl ++
    "**Analyzed:** " ++ now ++ nl ++
    nl ++
    "## 🔍 Test Results" ++ nl ++
    nl ++
    "### Connectivity Tests" ++ nl in
  dns <- get_get (dns_resolution data) (fun d => d) ;;
  let a_dns :=
    if dns_success dns
    then "✅ **DNS Resolution:** " ++ dns_ip_address dns ++ nl
    else "❌ **DNS Resolution:** Failed" ++ nl in
  let a_port :=
    if port_success (connectivity_tests_port data)
    then "✅ **Port " ++ str_of_Z (port data) ++ ":** Open" ++ nl
    else "❌ **Port " ++ str_of_Z (port data) ++ ":** Closed or blocked" ++ nl in
  let a_ssl :=
    match ssl_info data with
    | Some (SslOk _) => "✅ **SSL Certificate:** Valid" ++ nl
    | Some (SslFail _) => "❌ **SSL Certificate:** Invalid or expired" ++ nl
    | None => "⚪ **SSL Certificate:** Not applicable (HTTP)" ++ nl
    end in
  let a_http :=
    match http_status data with
    | Some (HttpStatus status status_text _ _) =>
        if truthy_Z status then
          (if (200 <=? status) && (status <? 300) then "✅" else "❌")
          ++ " **HTTP Status:** " ++ str_of_Z status ++ " " ++ status_text ++ nl
        else "❌ **HTTP Status:** Failed to retrieve" ++ nl
    | Some (HttpError error) =>
        if truthy_str error then "❌ **HTTP Status:** " ++ error ++ nl
        else "❌ **HTTP Status:** Failed to retrieve" ++ nl
    | None => "❌ **HTTP Status:** Failed to retrieve" ++ nl
    end in
  let a_time :=
    match response_time data with
    | Some response_time =>
        if truthy_Q response_time then
          (if Qltb response_time (1000 # 1) then "✅" else "⚠️")
          ++ " **Response Time:** " ++ fmt0 response_time ++ "ms" ++ nl
        else "❌ **Response Time:** Failed to measure" ++ nl
    | None => "❌ **Response Time:** Failed to measure" ++ nl
    end in
  Ok (analysis0 ++ a_dns ++ a_port ++ a_ssl ++ a_http ++ a_time
      ++ issues_found (errors data)
      ++ (nl ++
          "## 🔧 Troubleshooting Steps" ++ nl ++
          nl ++
          "1. **Check connectivity** - Verify network access to the target" ++ nl ++
          "2. **Verify DNS** - Ensure domain resolution is working" ++ nl ++
          "3. **Test ports** - Confirm required ports are open" ++ nl ++
          "4. **Check SSL** - Validate certificate for HTTPS sites" ++ nl ++
          "5. **DNS settings** - Verify DNS resolution" ++ nl ++
          "6. **Service status** - Check if the target service is running" ++ nl ++
          nl ++
          "## 📊 Priority Assessment" ++ nl)
      ++ priority_assessment (errors data)
      ++ (nl ++
          nl ++
          "---" ++ nl ++
          "*This analysis was generated automatically. For AI-powered insights, ensure the analysis service is available.*" ++ nl)).

(** [str(list(data.keys()))] for the dictionary of the probe. *)
Definition data_keys_repr : string :=
  "['url', 'hostname', 'port', 'scheme', 'connectivity_tests', 'dns_resolution', 'ssl_info', 'http_status', 'response_time', 'errors']".

(** The report of the [except] clause of [_generate_url_fallback]. *)
Definition url_report_error (now : string) (data : conn_data)
           (question : option string) (e : exn) : string :=
  nl ++
  "# URL Analysis Report - Error" ++ nl ++
  nl ++
  "**URL:** " ++ url data ++ nl ++
  "**Analyzed:** " ++ now ++ nl ++
  nl ++
  "## ❌ Analysis Error" ++ nl ++
  nl ++
  "An error occurred while generating the analysis:" ++ nl ++
  nl ++
  "**Error:** " ++ exn_str e ++ nl ++
  nl ++
  "**Debug Info:**" ++ nl ++
  "- Data keys: " ++ data_keys_repr ++ nl ++
  "- Question: " ++ match question with Some q => q | None => "None" end ++ nl ++
  nl ++
  "---" ++ nl ++
  nl ++
  "*This analysis was generated automatically with fallback error handling.*" ++ nl.

(** The lines printed under "Basic Results" in [main].  Printing itself is
    not modelled; the block matters because its first test raises on a
    missing DNS outcome. *)
Definition basic_results (data : conn_data) : result (list string) :=
  dns <- get_get (dns_resolution data) (fun d => d) ;;
  let l_dns :=
    if dns_success dns then "   ✅ DNS: " ++ dns_ip_address dns
    else "   ❌ DNS: Failed" in
  let l_port :=
    if port_success (connectivity_tests_port data)
    then "   ✅ Port " ++ str_of_Z (port data) ++ ": Open"
    else "   ❌ Port " ++ str_of_Z (port data) ++ ": Closed" in
  let l_ssl :=
    match ssl_info data with
    | Some (SslOk _) => "   ✅ SSL: Valid"
    | Some (SslFail _) => "   ❌ SSL: Invalid"
    | None => "   ⚪ SSL: Not applicable (HTTP)"
    end in
  let l_http :=
    match http_status data with
    | Some (HttpStatus status _ _ _) =>
        if truthy_Z status then
          ["   " ++ (if (200 <=? status) && (status <? 400) then "✅" else "❌")
             ++ " HTTP: " ++ str_of_Z status]
        else []
    | Some (HttpError error) =>
        if truthy_str error then ["   ❌ HTTP: " ++ error] else []
    | None => []
    end in
  let l_time :=
    match response_time data with
    | Some response_time =>
        if truthy_Q response_time then
          ["   " ++ (if Qltb response_time (1000 # 1) then "✅" else "⚠️")
             ++ " Response: " ++ fmt0 response_time ++ "ms"]
        else []
    | None => []
    end in
  Ok ([l_dns; l_port; l_ssl] ++ l_http ++ l_time)%list.

(** The keywords of the failure check in [main]. *)
Definition failure_keywords : list string :=
  ["timeout"; "failed"; "connection"; "api returned status"; "api error"].

Section WithUrlparseMain.

Variable urlparse : string -> result parsed_url.

(** [_generate_url_fallback(data, question)].  [now] is the reading
    of [datetime.now().isoformat()] that ends up in the text. *)
Definition _generate_url_fallback (now : string) (data : conn_data)
           (question : option string) : string :=
  match question with
  | Some q =>
      if truthy_str q then _generate_answer_only urlparse data q
      else
        match url_report now data with
        | Ok analysis => analysis
        | Raise e => url_report_error now data question e
        end
  | None =>
      match url_report now data with
      | Ok analysis => analysis
      | Raise e => url_report_error now data question e
      end
  end.

(** [generate_fallback_analysis('url', data, question)] *)
Definition generate_fallback_analysis (now : string) (data : conn_data)
           (question : option string) : string :=
  _generate_url_fallback now data question.

(** The choice between the AI text and the fallback in [main]. *)
Definition choose_analysis (now : string) (data : conn_data)
           (question : option string) (ai_text : string) : string :=
  if existsb (fun keyword => contains keyword (lower ai_text)) failure_keywords
  then generate_fallback_analysis now data question
  else ai_text.

(** [main()] for the command [url]: probe, early return on the short
    error dictionary, basic results, analysis, and the final [return 0].
    The outer [except Exception] returns 1. *)
Definition main_url (w : world) (now : string) (args : url_args) : result run :=
  try_except
    (data <- analyze_url_connectivity urlparse w (arg_url args) ;;
     match data with
     | AnalysisFailed _ _ _ => Ok (mkRun None 1)
     | Probed d =>
         _ <- basic_results d ;;
         analysis <-
           (if arg_no_ai args then
              Ok (generate_fallback_analysis now d (arg_question args))
            else
              on_text (get_ai_analysis w d (arg_question args))
                      (fun ai_text =>
                         Ok (choose_analysis now d (arg_question args) ai_text))) ;;
         Ok (mkRun (Some analysis) 0)
     end)
    (fun _ => Ok (mkRun None 1)).

End WithUrlparseMain.

End DevopsAnalyzer.

(** ** analyze_url.py *)

Module AnalyzeUrl.

(** The [prompt] of [get_ai_analysis], from the summary lines. *)
Definition prompt (url : string) (question : option string) (summary : list string)
  : string :=
  if truthy_question question then
    nl ++
"                Analyze this URL and answer the user's specific question:" ++ nl ++
"                " ++ nl ++
"                URL: " ++ url ++ nl ++
"                User Question: " ++ match question with Some q => q | None => EmptyString end ++ nl ++
"                " ++ nl ++
"                Test Results:" ++ nl ++
"                " ++ join nl summary ++ nl ++
"                " ++ nl ++
"                Please provide a detailed answer to their question based on the connectivity data." ++ nl ++
"                Focus on their specific concern and provide actionable recommendations." ++ nl ++
"                "
  else
    nl ++
"                Analyze this URL and diagnose the issues:" ++ nl ++
"                " ++ nl ++
"                URL: " ++ url ++ nl ++
"                " ++ nl ++
"                Test Results:" ++ nl ++
"                " ++ join nl summary ++ nl ++
"                " ++ nl ++
"                Please provide:" ++ nl ++
"                1. Root cause analysis of the issues" ++ nl ++
"                2. Specific troubleshooting steps" ++ nl ++
"                3. Priority level (Critical/High/Medium/Low)" ++ nl ++
"                4. Estimated time to resolve" ++ nl ++
"                5. Prevention recommendations" ++ nl ++
"                " ++ nl ++
"                Be concise and actionable." ++ nl ++
"                ".

(** [get_ai_analysis(url, question, connectivity_data)], called with
    the record of the probe.  The handlers are Timeout, then
    Exception. *)
Definition get_ai_analysis (w : world) (url : string) (question : option string)
           (connectivity_data : conn_data) : json_value :=
  let body : result json_value :=
    summary <- connectivity_summary connectivity_data ;;
    let prompt := prompt url question summary in
    response <- w_requests_post w prompt "url-analysis" ;;
    if post_status_code response =? 200 then
      result <- post_json response ;;
      json_get "response" j_response (JString "No AI response available") result
    else
      Ok (JString ("AI API returned status " ++ str_of_Z (post_status_code response)
                     ++ ": " ++ post_text response)) in
  match body with
  | Ok analysis => analysis
  | Raise e =>
      if exn_is_timeout e then JString "AI API timeout - using fallback analysis"
      else JString ("AI analysis failed: " ++ exn_str e)
  end.

(** The recommendations added when a question is given. *)
Definition question_section (question : string) (connectivity_data : conn_data)
  : result string :=
  let head :=
    nl ++ "## 🤖 Analysis for Your Question" ++ nl ++ nl
    ++ "**Question:** " ++ question ++ nl ++ nl in
  let question_lower := lower question in
  if contains "improve" question_lower || contains "optimiz" question_lower then
    ms <- get_get (response_time connectivity_data) (fun q => q) ;;
    Ok (head ++ "### 🚀 Improvement Recommendations:" ++ nl
        ++ (if Qltb (1000 # 1) ms
            then "• Response time is slow - consider caching and CDN" ++ nl
            else EmptyString)
        ++ "• Set up comprehensive monitoring" ++ nl
        ++ "• Implement automated health checks" ++ nl
        ++ "• Use performance monitoring tools" ++ nl)
  else if contains "slow" question_lower || contains "performance" question_lower then
    Ok (head ++ "### ⚡ Performance Analysis:" ++ nl
        ++ "• Check server load and resource utilization" ++ nl
        ++ "• Implement caching at multiple levels" ++ nl
        ++ "• Consider using a Content Delivery Network (CDN)" ++ nl)
  else if contains "secure" question_lower || contains "security" question_lower then
    ssl_ok <- get_get (ssl_info connectivity_data) ssl_success ;;
    Ok (head ++ "### 🔒 Security Recommendations:" ++ nl
        ++ (if negb ssl_ok
            then "• Fix SSL certificate issues immediately" ++ nl
            else EmptyString)
        ++ "• Implement HTTPS redirects" ++ nl
        ++ "• Add security headers (HSTS, CSP)" ++ nl)
  else
    Ok (head ++ "### 📊 General Recommendations:" ++ nl
        ++ "• Monitor performance and availability" ++ nl
        ++ "• Implement proper logging and alerting" ++ nl
        ++ "• Regular security assessments" ++ nl).

(** The checklist lines, the same statements in the reports of
    analyze_url.py and web_interface.py. *)
Definition checklist (connectivity_data : conn_data) : result string :=
  dns <- get_get (dns_resolution connectivity_data) (fun d => d) ;;
  let a_dns :=
    if dns_success dns
    then "✅ **DNS Resolution:** " ++ dns_ip_address dns ++ nl
    else "❌ **DNS Resolution:** Failed" ++ nl in
  let a_port :=
    if port_success (connectivity_tests_port connectivity_data)
    then "✅ **Port " ++ str_of_Z (port connectivity_data) ++ ":** Open" ++ nl
    else "❌ **Port " ++ str_of_Z (port connectivity_data) ++ ":** Closed or blocked" ++ nl in
  ssl_ok <- get_get (ssl_info connectivity_data) ssl_success ;;
  let a_ssl :=
    if ssl_ok then "✅ **SSL Certificate:** Valid" ++ nl
    else "❌ **SSL Certificate:** Invalid or expired" ++ nl in
  h <- get_get (http_status connectivity_data) (fun h => h) ;;
  let a_http :=
    match h with
    | HttpStatus status status_text _ _ =>
        if truthy_Z status then
          (if (200 <=? status) && (status <? 300) then "✅" else "❌")
          ++ " **HTTP Status:** " ++ str_of_Z status ++ " " ++ status_text ++ nl
        else EmptyString
    | HttpError _ => EmptyString
    end in
  let a_time :=
    match response_time connectivity_data with
    | Some response_time =>
        (if Qltb response_time (1000 # 1) then "✅" else "⚠️")
        ++ " **Response Time:** " ++ fmt0 response_time ++ "ms" ++ nl
    | None => EmptyString
    end in
  Ok (a_dns ++ a_port ++ a_ssl ++ a_http ++ a_time).

(** [generate_fallback_analysis(url, question, connectivity_data)],
    called with the record of the probe.  [now] is the reading of
    [datetime.now().isoformat()].  Nothing here catches an exception. *)
Definition generate_fallback_analysis (now : string) (url : string)
           (question : option string) (connectivity_data : conn_data)
  : result string :=
  let analysis0 :=
    nl ++
    "# URL Analysis Report" ++ nl ++
    nl ++
    "**URL:** " ++ url ++ nl ++
    "**Analyzed:** " ++ now ++ nl ++
    nl ++
    "## 🔍 Test Results" ++ nl ++
    nl ++
    "### Connectivity Tests" ++ nl in
  checks <- checklist connectivity_data ;;
  a_question <-
    match question with
    | Some q =>
        if truthy_str q then question_section q connectivity_data
        else Ok EmptyString
    | None => Ok EmptyString
    end ;;
  Ok (analysis0 ++ checks
      ++ issues_found (errors connectivity_data)
      ++ a_question
      ++ (nl ++
          "## 🔧 General Troubleshooting Steps" ++ nl ++
          nl ++
          "### Immediate Steps" ++ nl ++
          "1. **Check URL spelling** - Ensure the URL is correct" ++ nl ++
          "2. **Network connectivity** - Verify internet connection" ++ nl ++
          "3. **Firewall settings** - Check if ports are blocked" ++ nl ++
          "4. **DNS settings** - Verify DNS resolution" ++ nl ++
          "5. **Service status** - Check if the target service is running" ++ nl ++
          nl ++
          "### Specific Issues" ++ nl ++
          "- **DNS Failures:** Check DNS configuration, try alternative DNS" ++ nl ++
          "- **Port Blocked:** Verify firewall rules, check service listening port" ++ nl ++
          "- **SSL Issues:** Update certificate, check certificate chain" ++ nl ++
          "- **HTTP Errors:** Check service logs, verify configuration" ++ nl ++
          "- **Slow Response:** Check server load, network latency" ++ nl ++
          nl ++
          "## 📊 Priority Assessment" ++ nl)
      ++ priority_assessment (errors connectivity_data)
      ++ (nl ++
          "## 🛡️ Prevention Recommendations" ++ nl ++
          "- Implement monitoring and alerting" ++ nl ++
          "- Use load balancers for high availability" ++ nl ++
          "- Regular SSL certificate renewal" ++ nl ++
          "- Performance monitoring and optimization" ++ nl ++
          "- Backup DNS configurations" ++ nl ++
          nl ++
          "---" ++ nl ++
          "*This analysis was generated automatically. For AI-powered insights, ensure the analysis service is available.*" ++ nl)).

(** The lines printed under "Basic Results" in [main].  Printing itself is
    not modelled; the block matters because its tests raise on a missing
    outcome. *)
Definition basic_results (connectivity_data : conn_data) : result (list string) :=
  dns <- get_get (dns_resolution connectivity_data) (fun d => d) ;;
  let l_dns :=
    if dns_success dns then "   ✅ DNS: " ++ dns_ip_address dns
    else "   ❌ DNS: Failed" in
  let l_port :=
    if port_success (connectivity_tests_port connectivity_data)
    then "   ✅ Port " ++ str_of_Z (port connectivity_data) ++ ": Open"
    else "   ❌ Port " ++ str_of_Z (port connectivity_data) ++ ": Closed" in
  ssl_ok <- get_get (ssl_info connectivity_data) ssl_success ;;
  let l_ssl := if ssl_ok then "   ✅ SSL: Valid" else "   ❌ SSL: Invalid" in
  h <- get_get (http_status connectivity_data) (fun h => h) ;;
  let l_http :=
    match h with
    | HttpStatus status _ _ _ =>
        if truthy_Z status then
          ["   " ++ (if (200 <=? status) && (status <? 400) then "✅" else "❌")
             ++ " HTTP: " ++ str_of_Z status]
        else []
    | HttpError _ => []
    end in
  let l_time :=
    match response_time connectivity_data with
    | Some response_time =>
        ["   " ++ (if Qltb response_time (1000 # 1) then "✅" else "⚠️")
           ++ " Response: " ++ fmt0 response_time ++ "ms"]
    | None => []
    end in
  Ok ([l_dns; l_port; l_ssl] ++ l_http ++ l_time)%list.

(** The failure check of [main]: two keywords. *)
Definition looks_failed (analysis : string) : bool :=
  contains "timeout" (lower analysis) || contains "failed" (lower analysis).

Section WithUrlparse.

Variable urlparse : string -> result parsed_url.

(** [main()]: the scheme is added when missing, the probe runs, the
    short error dictionary returns 1, the basic results are printed, the
    analysis is chosen, and the return value is 1 when errors were
    recorded, else 0.  Nothing catches an exception of the basic results
    or of the fallback report. *)
Definition main (w : world) (now : string) (args : url_args) : result run :=
  let url :=
    if startswith "http://" (arg_url args) || startswith "https://" (arg_url args)
    then arg_url args
    else "https://" ++ arg_url args in
  connectivity_data <- analyze_url_connectivity urlparse w url ;;
  match connectivity_data with
  | AnalysisFailed _ _ _ => Ok (mkRun None 1)
  | Probed d =>
      _ <- basic_results d ;;
      analysis <-
        (if arg_no_ai args then
           generate_fallback_analysis now url (arg_question args) d
         else
           try_except
             (on_text (get_ai_analysis w url (arg_question args) d)
                      (fun analysis =>
                         if looks_failed analysis then
                           generate_fallback_analysis now url (arg_question args) d
                         else Ok analysis))
             (fun _ => generate_fallback_analysis now url (arg_question args) d)) ;;
      let errors := errors d in
      Ok (mkRun (Some analysis) (if truthy_list errors then 1 else 0))
  end.

End WithUrlparse.

End AnalyzeUrl.

(** ** web_interface.py *)

Module WebInterface.

(** [generate_fallback_analysis(url, connectivity_data)] *)
Definition generate_fallback_analysis (now : string) (url : string)
           (connectivity_data : conn_data) : result string :=
  let analysis0 :=
    nl ++
    "# URL Issue Analysis Report" ++ nl ++
    nl ++
    "**URL:** " ++ url ++ nl ++
    "**Analyzed:** " ++ now ++ nl ++
    nl ++
    "## 🔍 Test Results" ++ nl ++
    nl ++
    "### Connectivity Tests" ++ nl in
  checks <- AnalyzeUrl.checklist connectivity_data ;;
  Ok (analysis0 ++ checks
      ++ issues_found (errors connectivity_data)
      ++ (nl ++
          "## 🔧 Troubleshooting Steps" ++ nl ++
          nl ++
          "### General Steps" ++ nl ++
          "1. **Check URL spelling** - Ensure the URL is correct" ++ nl ++
          "2. **Network connectivity** - Verify internet connection" ++ nl ++
          "3. **Firewall settings** - Check if ports are blocked" ++ nl ++
          "4. **DNS settings** - Verify DNS resolution" ++ nl ++
          "5. **Service status** - Check if the target service is running" ++ nl ++
          nl ++
          "### Specific Issues" ++ nl ++
          "- **DNS Failures:** Check DNS configuration, try alternative DNS" ++ nl ++
          "- **Port Blocked:** Verify firewall rules, check service listening port" ++ nl ++
          "- **SSL Issues:** Update certificate, check certificate chain" ++ nl ++
          "- **HTTP Errors:** Check service logs, verify configuration" ++ nl ++
          "- **Slow Response:** Check server load, network latency" ++ nl ++
          nl ++
          "## 📊 Priority Assessment" ++ nl)
      ++ priority_assessment (errors connectivity_data)
      ++ (nl ++
          "## 🛡️ Prevention Recommendations" ++ nl ++
          "- Implement monitoring and alerting" ++ nl ++
          "- Use load balancers for high availability" ++ nl ++
          "- Regular SSL certificate renewal" ++ nl ++
          "- Performance monitoring and optimization" ++ nl ++
          "- Backup DNS configurations" ++ nl ++
          nl ++
          "---" ++ nl ++
          "*This analysis was generated automatically. For AI-powered insights, ensure the analysis service is available.*" ++ nl)).

End WebInterface.

(** ** devops-analyzer.py: infrastructure and deployment commands *)

Module DevopsInfra.

(** [s.split('/')]: the segments between slashes, never an empty list. *)
Fixpoint split_slash (s : string) : list string :=
  match s with
  | EmptyString => [EmptyString]
  | String c s' =>
      match split_slash s' with
      | [] => [EmptyString]
      | seg :: rest =>
          if Ascii.eqb c "/" then EmptyString :: seg :: rest
          else String c seg :: rest
      end
  end.

(** [s.split('/')[-1]] *)
Definition last_segment (s : string) : string :=
  last (split_slash s) EmptyString.

(** The answers of the ECS client, as far as they are read. *)
Record cluster_info := mkCluster {
  clusterName : option string;
  cluster_status : option string
}.

Record service_info := mkService {
  svc_serviceName : string;
  svc_status : string;
  svc_desiredCount : Z;
  svc_runningCount : Z;
  svc_taskDefinition : string
}.

Record aws := mkAws {
  (* ecs_client.describe_clusters(clusters=[name])['clusters'] *)
  describe_clusters : string -> result (list cluster_info);
  (* ecs_client.list_services(cluster=name)['serviceArns'] *)
  list_services : string -> result (list string);
  (* ecs_client.describe_services(cluster=name, services=arns)['services'] *)
  describe_services : string -> list string -> result (list service_info)
}.

(** [l[0]] *)
Definition first_item {A} (l : list A) : result A :=
  match l with
  | x :: _ => Ok x
  | [] => Raise (plain_exn "list index out of range")
  end.

(** One entry of [service_details] in [analyze_architecture]. *)
Record service_detail := mkDetail {
  sd_name : string;
  sd_status : string;
  sd_desiredCount : Z;
  sd_runningCount : Z;
  sd_taskDefinition : string
}.

Record load_balancer := mkLb {
  lb_name : string;
  lb_type : string;
  lb_status : string
}.

Inductive architecture_result :=
| Architecture (cluster : cluster_info) (services : list service_detail)
               (load_balancers : list load_balancer) (timestamp : string)
| ArchitectureError (error : string).

(** [analyze_architecture(cluster_name)]; [now] is the reading of
    [datetime.now(timezone.utc).isoformat()]. *)
Definition analyze_architecture (a : aws) (now : string) (cluster_name : string)
  : architecture_result :=
  let body : result architecture_result :=
    clusters <- describe_clusters a cluster_name ;;
    cluster <- first_item clusters ;;
    services <- list_services a cluster_name ;;
    service_details <-
      (if truthy_list services then
         service_info <- describe_services a cluster_name services ;;
         Ok (map (fun service =>
                    mkDetail (svc_serviceName service) (svc_status service)
                             (svc_desiredCount service) (svc_runningCount service)
                             (last_segment (svc_taskDefinition service)))
                 service_info)
       else Ok []) ;;
    let load_balancers :=
      map (fun _ => mkLb (cluster_name ++ "-alb") "application" "active")
          service_details in
    Ok (Architecture cluster service_details load_balancers now) in
  match body with
  | Ok r => r
  | Raise e => ArchitectureError (exn_str e)
  end.

(** One entry of [health_data] in [analyze_health]. *)
Record health_item := mkHealth {
  h_service : string;
  h_status : string;
  h_running : Z;
  h_desired : Z;
  h_healthy : bool
}.

Inductive health_result :=
| Health (cluster : string) (services : list health_item) (timestamp : string)
| HealthError (error : string).

(** The loop of [analyze_health]: one [describe_services] call per ARN,
    in order; the first exception ends the loop. *)
Fixpoint health_loop (a : aws) (cluster_name : string) (services : list string)
  : result (list health_item) :=
  match services with
  | [] => Ok []
  | service_arn :: rest =>
      let service_name := last_segment service_arn in
      infos <- describe_services a cluster_name [service_arn] ;;
      service_info <- first_item infos ;;
      let item := mkHealth service_name (svc_status service_info)
                           (svc_runningCount service_info)
                           (svc_desiredCount service_info)
                           (svc_runningCount service_info =? svc_desiredCount service_info) in
      items <- health_loop a cluster_name rest ;;
      Ok (item :: items)
  end.

(** [analyze_health(cluster_name, service_name)] *)
Definition analyze_health (a : aws) (now : string) (cluster_name : string)
           (service_name : option string) : health_result :=
  let body : result health_result :=
    services <-
      (if truthy_question service_name then
         Ok [match service_name with Some s => s | None => EmptyString end]
       else list_services a cluster_name) ;;
    health_data <- health_loop a cluster_name services ;;
    Ok (Health cluster_name health_data now) in
  match body with
  | Ok r => r
  | Raise e => HealthError (exn_str e)
  end.

(** The dictionaries of the two deployment checks.  The key
    health_percentage of the post-check, a float, is left out; the
    division that computes it is kept for the exception it raises. *)
Inductive deployment_result :=
| PreCheck (status : string) (unhealthy_services : list health_item)
           (recommendation : string) (health_data : health_result)
| PostCheck (status : string) (healthy_services : nat) (total_services : nat)
            (recommendation : string) (health_data : health_result)
| DeploymentError (error : string).

(** [pre_deployment_check(cluster_name, service_name)] *)
Definition pre_deployment_check (a : aws) (now : string) (cluster_name : string)
           (service_name : option string) : deployment_result :=
  match analyze_health a now cluster_name service_name with
  | HealthError error => DeploymentError error
  | Health c services t =>
      let unhealthy_services := filter (fun s => negb (h_healthy s)) services in
      PreCheck (if negb (truthy_list unhealthy_services) then "ready" else "not_ready")
               unhealthy_services
               (if negb (truthy_list unhealthy_services) then "Safe to deploy"
                else "Fix unhealthy services before deployment")
               (Health c services t)
  end.

(** [(len(healthy_services) / total_services) * 100], for what it
    raises. *)
Definition health_percentage_check (total_services : nat) : result unit :=
  match total_services with
  | O => Raise (plain_exn "division by zero")
  | S _ => Ok tt
  end.

(** [post_deployment_check(cluster_name, service_name)] *)
Definition post_deployment_check (a : aws) (now : string) (cluster_name : string)
           (service_name : option string) : deployment_result :=
  match analyze_health a now cluster_name service_name with
  | HealthError error => DeploymentError error
  | Health c services t =>
      let healthy_services := filter (fun s => h_healthy s) services in
      let total_services := length services in
      let body : result deployment_result :=
        _ <- health_percentage_check total_services ;;
        Ok (PostCheck (if (length healthy_services =? total_services)%nat
                       then "success" else "partial")
                      (length healthy_services) total_services
                      (if (length healthy_services =? total_services)%nat
                       then "Deployment successful"
                       else "Some services may need attention")
                      (Health c services t)) in
      match body with
      | Ok r => r
      | Raise e => DeploymentError (exn_str e)
      end
  end.

(** ['error' in data] *)
Definition deployment_has_error (d : deployment_result) : bool :=
  match d with DeploymentError _ => true | _ => false end.

(** [data.get('status', 'Unknown')], [data.get('recommendation', 'Unknown')] *)
Definition deployment_status (d : deployment_result) : string :=
  match d with
  | PreCheck s _ _ _ => s
  | PostCheck s _ _ _ _ => s
  | DeploymentError _ => "Unknown"
  end.

Definition deployment_recommendation (d : deployment_result) : string :=
  match d with
  | PreCheck _ _ r _ => r
  | PostCheck _ _ _ r _ => r
  | DeploymentError _ => "Unknown"
  end.

(** [data.get('cluster', {}).get(key, 'Unknown')] *)
Definition or_unknown (v : option string) : string :=
  match v with Some s => s | None => "Unknown" end.

(** [_create_architecture_prompt(data)], for the dictionary without
    error. *)
Definition _create_architecture_prompt (cluster : cluster_info)
           (services : list service_detail) (load_balancers : list load_balancer)
  : string :=
  nl ++
  "        Analyze this AWS ECS architecture and provide recommendations:" ++ nl ++
  "        " ++ nl ++
  "        Cluster: " ++ or_unknown (clusterName cluster) ++ nl ++
  "        Services: " ++ str_of_Z (Z.of_nat (length services)) ++ nl ++
  "        Load Balancers: " ++ str_of_Z (Z.of_nat (length load_balancers)) ++ nl ++
  "        " ++ nl ++
  "        Services Details:" ++ nl ++
  "        " ++ join nl (map (fun s => "- " ++ sd_name s ++ ": "
                                         ++ str_of_Z (sd_runningCount s) ++ "/"
                                         ++ str_of_Z (sd_desiredCount s) ++ " running")
                              services) ++ nl ++
  "        " ++ nl ++
  "        Please provide:" ++ nl ++
  "        1. Architecture assessment" ++ nl ++
  "        2. High availability analysis" ++ nl ++
  "        3. Security considerations" ++ nl ++
  "        4. Optimization recommendations" ++ nl ++
  "        5. Improvement suggestions" ++ nl ++
  "        ".

(** [_create_health_prompt(data)] *)
Definition _create_health_prompt (cluster : string) (services : list health_item)
  : string :=
  nl ++
  "        Analyze this AWS ECS service health:" ++ nl ++
  "        " ++ nl ++
  "        Cluster: " ++ cluster ++ nl ++
  "        " ++ nl ++
  "        Service Health:" ++ nl ++
  "        " ++ join nl (map (fun s => "- " ++ h_service s ++ ": "
                                         ++ (if h_healthy s then "✅ Healthy" else "❌ Unhealthy")
                                         ++ " (" ++ str_of_Z (h_running s) ++ "/"
                                         ++ str_of_Z (h_desired s) ++ " running)")
                              services) ++ nl ++
  "        " ++ nl ++
  "        Please provide:" ++ nl ++
  "        1. Health assessment" ++ nl ++
  "        2. Performance issues" ++ nl ++
  "        3. Scaling recommendations" ++ nl ++
  "        4. Monitoring suggestions" ++ nl ++
  "        5. Troubleshooting steps" ++ nl ++
  "        ".

(** [_create_deployment_prompt(data)] *)
Definition _create_deployment_prompt (data : deployment_result) : string :=
  nl ++
  "        Analyze this deployment status:" ++ nl ++
  "        " ++ nl ++
  "        Status: " ++ deployment_status data ++ nl ++
  "        Recommendation: " ++ deployment_recommendation data ++ nl ++
  "        " ++ nl ++
  "        Please provide:" ++ nl ++
  "        1. Deployment assessment" ++ nl ++
  "        2. Risk analysis" ++ nl ++
  "        3. Next steps" ++ nl ++
  "        4. Rollback considerations if needed" ++ nl ++
  "        5. Monitoring recommendations" ++ nl ++
  "        ".

(** The call of the analysis service in [get_ai_analysis], after the
    prompt is made: the statements are those of the [url] case, with the
    context [analysis_type + "-analysis"]. *)
Definition ai_call (w : world) (context : string) (prompt : result string)
  : json_value :=
  let body : result json_value :=
    prompt <- prompt ;;
    response <- w_requests_post w prompt context ;;
    if post_status_code response =? 200 then
      result <- post_json response ;;
      has_response <- json_in "response" j_response result ;;
      if has_response then json_item "response" j_response result
      else
        has_error <- json_in "error" j_error result ;;
        if has_error then
          e <- json_item "error" j_error result ;;
          Ok (JString ("AI API error: " ++ py_str e))
        else Ok (JString "No AI response available")
    else
      try_except
        (error_data <- post_json response ;;
         error_msg <- json_get "error" j_error (JString (post_text response)) error_data ;;
         Ok (JString ("AI API returned status " ++ str_of_Z (post_status_code response)
                        ++ ": " ++ py_str error_msg)))
        (fun _ =>
           Ok (JString ("AI API returned status " ++ str_of_Z (post_status_code response)
                          ++ ": " ++ take_chars 200 (post_text response)))) in
  match body with
  | Ok analysis => analysis
  | Raise e =>
      if exn_is_timeout e then JString "AI API timeout - using fallback analysis"
      else if exn_is_connection e then
        JString ("AI API connection failed - using fallback analysis: " ++ exn_str e)
      else JString ("AI analysis failed: " ++ exn_str e)
  end.

(** [_generate_architecture_fallback(data)] *)
Definition _generate_architecture_fallback (now : string) (cluster : cluster_info)
           (services : list service_detail) : string :=
  (nl ++
   "# AWS Architecture Analysis" ++ nl ++
   nl ++
   "**Cluster:** " ++ or_unknown (clusterName cluster) ++ nl ++
   "**Analyzed:** " ++ now ++ nl ++
   nl ++
   "## 📊 Infrastructure Overview" ++ nl ++
   nl ++
   "### ECS Cluster" ++ nl ++
   "- **Name:** " ++ or_unknown (clusterName cluster) ++ nl ++
   "- **Status:** " ++ or_unknown (cluster_status cluster) ++ nl ++
   "- **Services:** " ++ str_of_Z (Z.of_nat (length services)) ++ nl ++
   nl ++
   "### Services" ++ nl)
  ++ String.concat EmptyString
       (map (fun service =>
               let status := if sd_runningCount service =? sd_desiredCount service
                             then "✅" else "❌" in
               "- " ++ status ++ " **" ++ sd_name service ++ "**: "
               ++ str_of_Z (sd_runningCount service) ++ "/"
               ++ str_of_Z (sd_desiredCount service) ++ " running" ++ nl)
            services)
  ++ (nl ++
      "## 🚀 Recommendations" ++ nl ++
      nl ++
      "### Architecture" ++ nl ++
      "- Consider auto-scaling for high availability" ++ nl ++
      "- Implement proper monitoring and alerting" ++ nl ++
      "- Use load balancers for traffic distribution" ++ nl ++
      nl ++
      "### Security" ++ nl ++
      "- Review security group rules" ++ nl ++
      "- Implement least privilege access" ++ nl ++
      "- Enable VPC flow logs" ++ nl ++
      nl ++
      "### Performance" ++ nl ++
      "- Monitor CPU and memory utilization" ++ nl ++
      "- Consider right-sizing task definitions" ++ nl ++
      "- Implement caching strategies" ++ nl ++
      nl ++
      "---" ++ nl ++
      "*Generated automatically - For AI insights ensure analysis service is available*" ++ nl).

(** One line of the health report. *)
Definition health_line (service : health_item) : string :=
  let status := if h_healthy service then "✅ Healthy" else "❌ Unhealthy" in
  "- **" ++ h_service service ++ "**: " ++ status ++ " ("
  ++ str_of_Z (h_running service) ++ "/" ++ str_of_Z (h_desired service)
  ++ " running)" ++ nl.

(** [_generate_health_fallback(data)] *)
Definition _generate_health_fallback (now : string) (cluster : string)
           (services : list health_item) : string :=
  (nl ++
   "# AWS Service Health Analysis" ++ nl ++
   nl ++
   "**Cluster:** " ++ cluster ++ nl ++
   "**Analyzed:** " ++ now ++ nl ++
   nl ++
   "## 🏥 Service Health Status" ++ nl ++
   nl)
  ++ String.concat EmptyString (map health_line services)
  ++ (nl ++
      "## 🔧 Health Recommendations" ++ nl ++
      nl ++
      "### Monitoring" ++ nl ++
      "- Set up CloudWatch alerts for service metrics" ++ nl ++
      "- Monitor task health and restart counts" ++ nl ++
      "- Track performance trends" ++ nl ++
      nl ++
      "### Troubleshooting" ++ nl ++
      "- Check task logs for errors" ++ nl ++
      "- Verify resource allocation" ++ nl ++
      "- Review network configurations" ++ nl ++
      nl ++
      "### Optimization" ++ nl ++
      "- Implement proper scaling policies" ++ nl ++
      "- Consider health check tuning" ++ nl ++
      "- Use deployment strategies for zero downtime" ++ nl ++
      nl ++
      "---" ++ nl ++
      "*Generated automatically - For AI insights ensure analysis service is available*" ++ nl).

(** The three closing sections of the deployment report. *)
Definition section_safe_to_deploy : string :=
  nl ++
  "✅ **Safe to Deploy**" ++ nl ++
  "- All services are healthy" ++ nl ++
  "- Infrastructure is ready for deployment" ++ nl ++
  "- Proceed with deployment plan" ++ nl ++
  nl ++
  "### Post-Deployment Actions" ++ nl ++
  "- Monitor service health" ++ nl ++
  "- Check application logs" ++ nl ++
  "- Verify functionality" ++ nl ++
  "- Set up monitoring alerts" ++ nl.

Definition section_successful : string :=
  nl ++
  "✅ **Deployment Successful**" ++ nl ++
  "- All services are running correctly" ++ nl ++
  "- Health checks passing" ++ nl ++
  "- Monitor for stability" ++ nl ++
  nl ++
  "### Post-Deployment Monitoring" ++ nl ++
  "- Watch performance metrics" ++ nl ++
  "- Monitor error rates" ++ nl ++
  "- Check user experience" ++ nl ++
  "- Document deployment" ++ nl.

Definition section_issues : string :=
  nl ++
  "⚠️ **Deployment Issues Detected**" ++ nl ++
  "- Some services may need attention" ++ nl ++
  "- Review service logs" ++ nl ++
  "- Consider rollback if necessary" ++ nl ++
  nl ++
  "### Troubleshooting Steps" ++ nl ++
  "- Check individual service health" ++ nl ++
  "- Review deployment logs" ++ nl ++
  "- Verify configuration" ++ nl ++
  "- Consider rollback plan" ++ nl.

(** [_generate_deployment_fallback(data)] *)
Definition _generate_deployment_fallback (now : string) (data : deployment_result)
  : string :=
  (nl ++
   "# Deployment Analysis" ++ nl ++
   nl ++
   "**Status:** " ++ deployment_status data ++ nl ++
   "**Analyzed:** " ++ now ++ nl ++
   nl ++
   "## 📊 Deployment Results" ++ nl ++
   nl ++
   "**Recommendation:** " ++ deployment_recommendation data ++ nl ++
   nl ++
   "## 🔧 Next Steps" ++ nl ++
   nl)
  ++ (if String.eqb (deployment_status data) "ready" then section_safe_to_deploy
      else if String.eqb (deployment_status data) "success" then section_successful
      else section_issues)
  ++ (nl ++
      nl ++
      "---" ++ nl ++
      "*Generated automatically - For AI insights ensure analysis service is available.*" ++ nl).

(** The keyword test of [main], the same expression in its three
    commands. *)
Definition choose (ai_text fallback : string) : string :=
  if existsb (fun keyword => contains keyword (lower ai_text))
             DevopsAnalyzer.failure_keywords
  then fallback else ai_text.

Inductive infra_type := TypeArchitecture | TypeHealth.
Inductive deploy_action := ActionPreCheck | ActionPostCheck.

Record infra_args := mkInfraArgs {
  ia_type : infra_type;
  ia_cluster : string;
  ia_service : option string;
  ia_no_ai : bool
}.

Record deploy_args := mkDeployArgs {
  da_action : deploy_action;
  da_cluster : string;
  da_service : option string;
  da_no_ai : bool
}.

(** [main()] for the command [infrastructure].  [utc_now] is the clock
    reading stored in the gathered data, [now] the one of the fallback
    report. *)
Definition main_infrastructure (a : aws) (w : world) (utc_now now : string)
           (args : infra_args) : result run :=
  try_except
    (match ia_type args with
     | TypeArchitecture =>
         match analyze_architecture a utc_now (ia_cluster args) with
         | ArchitectureError _ => Ok (mkRun None 1)
         | Architecture cluster services load_balancers _ =>
             let fallback := _generate_architecture_fallback now cluster services in
             analysis <-
               (if ia_no_ai args then Ok fallback
                else on_text (ai_call w "architecture-analysis"
                                (Ok (_create_architecture_prompt cluster services
                                                                 load_balancers)))
                             (fun ai_text => Ok (choose ai_text fallback))) ;;
             Ok (mkRun (Some analysis) 0)
         end
     | TypeHealth =>
         match analyze_health a utc_now (ia_cluster args) (ia_service args) with
         | HealthError _ => Ok (mkRun None 1)
         | Health cluster services _ =>
             let fallback := _generate_health_fallback now cluster services in
             analysis <-
               (if ia_no_ai args then Ok fallback
                else on_text (ai_call w "health-analysis"
                                (Ok (_create_health_prompt cluster services)))
                             (fun ai_text => Ok (choose ai_text fallback))) ;;
             Ok (mkRun (Some analysis) 0)
         end
     end)
    (fun _ => Ok (mkRun None 1)).

(** [main()] for the command [deploy]. *)
Definition main_deploy (a : aws) (w : world) (utc_now now : string)
           (args : deploy_args) : result run :=
  try_except
    (let data :=
       match da_action args with
       | ActionPreCheck => pre_deployment_check a utc_now (da_cluster args) (da_service args)
       | ActionPostCheck => post_deployment_check a utc_now (da_cluster args) (da_service args)
       end in
     if deployment_has_error data then Ok (mkRun None 1)
     else
       let fallback := _generate_deployment_fallback now data in
       analysis <-
         (if da_no_ai args then Ok fallback
          else on_text (ai_call w "deployment-analysis"
                          (Ok (_create_deployment_prompt data)))
                       (fun ai_text => Ok (choose ai_text fallback))) ;;
       Ok (mkRun (Some analysis) 0))
    (fun _ => Ok (mkRun None 1)).

End DevopsInfra.

(** ** web_interface.py: the AI call and the route /analyze *)

Module WebRoutes.

(** A dictionary as the route reads it: the JSON object that the
    analysis service answers, or the error dictionary that
    [get_ai_analysis] builds.  [ad_other_keys] tells whether it has keys
    besides the four that are read. *)
Record ai_dict := mkAiDict {
  ad_response : option json_value;
  ad_error : option json_value;
  ad_processing_time_ms : option json_value;
  ad_model : option json_value;
  ad_other_keys : bool
}.

(** Truthiness of the dictionary: it is not empty. *)
Definition truthy_dict (d : ai_dict) : bool :=
  match ad_response d, ad_error d, ad_processing_time_ms d, ad_model d with
  | None, None, None, None => ad_other_keys d
  | _, _, _, _ => true
  end.

(** Truthiness of [d.get('error')]. *)
Definition truthy_error (d : ai_dict) : bool :=
  match ad_error d with
  | Some e => truthy_value e
  | None => false
  end.

(** What [get_ai_analysis] returns: a dictionary, or the body of a 200
    answer that is valid JSON but not an object. *)
Inductive ai_result :=
| AiDict (d : ai_dict)
| AiOther (v : json_non_object).

Definition truthy_result (r : ai_result) : bool :=
  match r with
  | AiDict d => truthy_dict d
  | AiOther v => no_truthy v
  end.

(** [ai_result.get(key, default)]; [field] is the projection that
    belongs to [key]. *)
Definition result_get (field : ai_dict -> option json_value) (default : json_value)
           (r : ai_result) : result json_value :=
  match r with
  | AiDict d => Ok (match field d with Some v => v | None => default end)
  | AiOther v => Raise (AttributeError (no_type v) "get")
  end.

(** The answer of [requests.post] to the analysis service. *)
Record post_answer := mkAnswer {
  pa_status_code : Z;
  pa_text : string;
  pa_json : result ai_result
}.

(** [connectivity_data['port']] on the short dictionary of a failed
    parse. *)
Definition KeyError_port : exn := plain_exn "'port'".

(** The summary statements on what the probe returned.  On the short
    dictionary the DNS test takes its else branch and the port line then
    reads the missing key. *)
Definition summary_of (connectivity_data : analysis) : result (list string) :=
  match connectivity_data with
  | Probed d => connectivity_summary d
  | AnalysisFailed _ _ _ => Raise KeyError_port
  end.

(** [generate_fallback_analysis(url, connectivity_data)] on what the
    probe returned; the short dictionary fails at the port line too. *)
Definition fallback_of (now : string) (url : string) (connectivity_data : analysis)
  : result string :=
  match connectivity_data with
  | Probed d => WebInterface.generate_fallback_analysis now url d
  | AnalysisFailed _ _ _ => Raise KeyError_port
  end.

(** The [prompt] of [get_ai_analysis], from the summary lines. *)
Definition prompt (url : string) (summary : list string) : string :=
  nl ++
  "            Analyze this URL and diagnose the issues:" ++ nl ++
  "            " ++ nl ++
  "            URL: " ++ url ++ nl ++
  "            " ++ nl ++
  "            Test Results:" ++ nl ++
  "            " ++ join nl summary ++ nl ++
  "            " ++ nl ++
  "            Please provide:" ++ nl ++
  "            1. Root cause analysis of the issues" ++ nl ++
  "            2. Specific troubleshooting steps" ++ nl ++
  "            3. Priority level (Critical/High/Medium/Low)" ++ nl ++
  "            4. Estimated time to resolve" ++ nl ++
  "            5. Prevention recommendations" ++ nl ++
  "            " ++ nl ++
  "            Be concise and actionable." ++ nl ++
  "            ".

(** The dictionary [{'error': msg}] *)
Definition error_dict (msg : string) : ai_result :=
  AiDict (mkAiDict None (Some (JString msg)) None None false).

(** [get_ai_analysis(url, connectivity_data)]: the JSON body of a 200
    answer as it is, or a dictionary with the key error. *)
Definition get_ai_analysis (post : string -> string -> result post_answer)
           (url : string) (connectivity_data : analysis) : ai_result :=
  let body : result ai_result :=
    summary <- summary_of connectivity_data ;;
    let prompt := prompt url summary in
    response <- post prompt "url-troubleshooting" ;;
    if pa_status_code response =? 200 then pa_json response
    else
      Ok (AiDict (mkAiDict
                    (Some (JString (pa_text response)))
                    (Some (JString ("AI API returned status "
                                      ++ str_of_Z (pa_status_code response))))
                    None None false)) in
  match body with
  | Ok d => d
  | Raise e =>
      if exn_is_timeout e then error_dict "AI API timeout - using fallback analysis"
      else error_dict ("AI analysis failed: " ++ exn_str e)
  end.

(** [response['ai_metadata']] *)
Inductive ai_metadata :=
| MetaModel (processing_time_ms : json_value) (model : json_value)
| MetaFallback (error : json_value).        (* {'error': .., 'fallback': True} *)

(** What the route answers: the JSON object with status 200, or an
    error object with its status. *)
Inductive reply :=
| Reply200 (r_url : string) (connectivity : analysis) (timestamp : string)
           (ai_analysis : json_value) (meta : ai_metadata)
| ReplyError (status : Z) (error : string).

Section WithUrlparse.

Variable urlparse : string -> result parsed_url.

(** The route [/analyze].  [url_field] is what [request.get_json()] and
    [data.get('url', '')] give: the value under the key url, [None] when
    the key is missing for which the default [''] is taken, or the
    exception of a body that is not a JSON object.  [now_reply] and
    [now_report] are the two readings of the clock, for the time stamp
    of the reply and for the fallback report. *)
Definition analyze_url (w : world) (post : string -> string -> result post_answer)
           (now_reply now_report : string)
           (url_field : result (option json_value)) : reply :=
  let body : result reply :=
    field <- url_field ;;
    url <- match field with
           | Some (JString u) => Ok (strip u)
           | Some (JOther type_name _ _) => Raise (AttributeError type_name "strip")
           | None => Ok (strip EmptyString)
           end ;;
    if negb (truthy_str url) then Ok (ReplyError 400 "URL is required")
    else
      let url :=
        if startswith "http://" url || startswith "https://" url then url
        else "https://" ++ url in
      connectivity_data <- analyze_url_connectivity urlparse w url ;;
      let ai_result := get_ai_analysis post url connectivity_data in
      use_ai <-
        (if truthy_result ai_result then
           error <- result_get ad_error py_None ai_result ;;
           Ok (negb (truthy_value error))
         else Ok false) ;;
      if use_ai then
        ai_analysis <-
          result_get ad_response (JString "No AI response available") ai_result ;;
        processing_time_ms <- result_get ad_processing_time_ms py_zero ai_result ;;
        model <- result_get ad_model (JString "unknown") ai_result ;;
        Ok (Reply200 url connectivity_data now_reply ai_analysis
                     (MetaModel processing_time_ms model))
      else
        fallback <- fallback_of now_report url connectivity_data ;;
        error <- result_get ad_error (JString "AI analysis unavailable") ai_result ;;
        Ok (Reply200 url connectivity_data now_reply (JString fallback)
                     (MetaFallback error)) in
  match body with
  | Ok r => r
  | Raise e => ReplyError 500 ("Analysis failed: " ++ exn_str e)
  end.

End WithUrlparse.

End WebRoutes.

(** ** Vocabulary of the properties *)

(** The priority tiers, and the tier that the specification assigns to a
    number of errors: none gives Low, one or two Medium, more High. *)
Inductive tier := Low | Medium | High.

Definition tier_of_count (n : nat) : tier :=
  match n with
  | O => Low
  | S O | S (S O) => Medium
  | _ => High
  end.

Definition tier_line (t : tier) : string :=
  match t with
  | Low => "🟢 **Priority: Low** - No critical issues" ++ nl
  | Medium => "🟡 **Priority: Medium** - Some issues detected" ++ nl
  | High => "🔴 **Priority: High** - Multiple critical issues" ++ nl
  end.

Definition priority_heading : string := "## 📊 Priority Assessment" ++ nl.

(** The closing lines after the priority tier, per source file. *)
Definition devops_footer : string :=
  nl ++ nl ++ "---" ++ nl ++
  "*This analysis was generated automatically. For AI-powered insights, ensure the analysis service is available.*" ++ nl.

Definition prevention_footer : string :=
  nl ++
  "## 🛡️ Prevention Recommendations" ++ nl ++
  "- Implement monitoring and alerting" ++ nl ++
  "- Use load balancers for high availability" ++ nl ++
  "- Regular SSL certificate renewal" ++ nl ++
  "- Performance monitoring and optimization" ++ nl ++
  "- Backup DNS configurations" ++ nl ++
  nl ++
  "---" ++ nl ++
  "*This analysis was generated automatically. For AI-powered insights, ensure the analysis service is available.*" ++ nl.

(** [s] ends with [suffix]. *)
Definition ends_with (suffix s : string) : Prop :=
  exists pre, s = pre ++ suffix.

(** The priority section and everything after it: what a report ends
    with when its tier is [t]. *)
Definition priority_section (t : tier) (footer : string) : string :=
  priority_heading ++ tier_line t ++ footer.

(** The question classes of the fallback reasoner, in the order in which
    the specification lists them, and the keywords of each. *)
Inductive bucket :=
| Availability | Performance | Security | Errors | Identity | General.

Definition bucket_order : list bucket :=
  [Availability; Performance; Security; Errors; Identity].

Definition bucket_matches (b : bucket) (question_lower : string) : bool :=
  match b with
  | Availability =>
      existsb (fun k => contains k question_lower) ["availability"; "improve"; "optimiz"]
  | Performance =>
      existsb (fun k => contains k question_lower) ["slow"; "performance"]
  | Security =>
      existsb (fun k => contains k question_lower)
              ["secure"; "security"; "safe"; "trust"; "certificate"]
  | Errors =>
      existsb (fun k => contains k question_lower) ["error"; "issue"; "problem"]
  | Identity =>
      contains "what" question_lower &&
      existsb (fun k => contains k question_lower) ["use"; "purpose"; "is"]
  | General => true
  end.

(** First match in the fixed order; [General] when nothing matches. *)
Definition classify (question : string) : bucket :=
  match find (fun b => bucket_matches b (lower question)) bucket_order with
  | Some b => b
  | None => General
  end.

(** The answer that belongs to a bucket. *)
Definition bucket_answer (urlparse : string -> result parsed_url)
           (b : bucket) (data : conn_data) : result string :=
  match b with
  | Availability => Ok (DevopsAnalyzer.answer_availability data)
  | Performance => Ok (DevopsAnalyzer.answer_performance data)
  | Security => Ok (DevopsAnalyzer.answer_security data)
  | Errors => Ok (DevopsAnalyzer.answer_errors data)
  | Identity =>
      domain <- DevopsAnalyzer.domain_of urlparse data ;;
      Ok (DevopsAnalyzer.answer_identity domain)
  | General =>
      domain <- DevopsAnalyzer.domain_of urlparse data ;;
      DevopsAnalyzer.answer_general domain data
  end.

(** The error entries that each sub-probe leaves, read off the answers
    of the world: at most one per sub-probe. *)
Definition dns_entries (w : world) (hostname : option string) : list string :=
  match w_gethostbyname w hostname with
  | Ok _ => []
  | Raise e => ["DNS Resolution failed: " ++ exn_str e]
  end.

Definition port_entries (w : world) (hostname : option string) (port : Z) : list string :=
  match w_connect_ex w hostname port with
  | Ok _ => []
  | Raise e => ["Port connection failed: " ++ exn_str e]
  end.

Definition tls_entries (w : world) (scheme : string) (hostname : option string)
           (port : Z) : list string :=
  if String.eqb scheme "https" then
    match w_getpeercert w hostname port with
    | Ok _ => []
    | Raise e => ["SSL Certificate issue: " ++ exn_str e]
    end
  else [].

Definition http_entries (w : world) (url : string) : list string :=
  match w_requests_get w url with
  | Ok response =>
      if 400 <=? resp_status_code response then
        ["HTTP Error " ++ str_of_Z (resp_status_code response) ++ ": "
           ++ resp_reason response]
      else []
  | Raise e =>
      if exn_is_timeout e then ["Request timed out"]
      else if exn_is_connection e then ["Connection error: " ++ exn_str e]
      else ["HTTP request failed: " ++ exn_str e]
  end.

(** Which sub-probes of a record count as failed, and how many. *)
Definition dns_failed (r : conn_data) : bool :=
  match dns_resolution r with Some (DnsOk _) => false | _ => true end.
Definition port_failed (r : conn_data) : bool :=
  negb (port_success (connectivity_tests_port r)).
Definition tls_failed (r : conn_data) : bool :=
  match ssl_info r with Some (SslFail _) => true | _ => false end.
Definition http_failed (r : conn_data) : bool :=
  match http_status r with
  | Some (HttpStatus c _ _ _) => 400 <=? c
  | _ => true
  end.
Definition failed_count (r : conn_data) : nat :=
  ((if dns_failed r then 1 else 0) + (if port_failed r then 1 else 0)
   + (if tls_failed r then 1 else 0) + (if http_failed r then 1 else 0))%nat.

(** The performance text as the specification words it: below 1000 ms
    good, from 1000 to 2000 ms moderate, above 2000 ms severe, and the
    possible-timeout text when no latency was recorded. *)
Definition claimed_performance_text (latency_ms : option Q) : string :=
  match latency_ms with
  | None => DevopsAnalyzer.performance_unmeasured
  | Some ms =>
      if Qltb ms (1000 # 1) then DevopsAnalyzer.performance_good ms
      else if Qle_bool ms (2000 # 1) then DevopsAnalyzer.performance_moderate ms
      else DevopsAnalyzer.performance_severe ms
  end.

(** What a 200 answer of the analysis service hands to the keyword test
    of devops-analyzer.py: the value under the key response, or the text
    that stands for a body with neither the key response nor the key
    error.  [None] for every other outcome of the request. *)
Definition service_answer (w : world) (prompt context : string) : option json_value :=
  match w_requests_post w prompt context with
  | Ok resp =>
      if post_status_code resp =? 200 then
        match post_json resp with
        | Ok j =>
            match json_in "response" j_response j with
            | Ok true =>
                match json_item "response" j_response j with
                | Ok v => Some v
                | Raise _ => None
                end
            | Ok false =>
                match json_in "error" j_error j with
                | Ok false => Some (JString "No AI response available")
                | _ => None
                end
            | Raise _ => None
            end
        | Raise _ => None
        end
      else None
  | Raise _ => None
  end.

(** The world with another analysis service. *)
Definition with_requests_post (w : world)
           (post : string -> string -> result post_response) : world :=
  mkWorld (w_gethostbyname w) (w_connect_ex w) (w_getpeercert w)
          (w_requests_get w) post.

(** The opening of a report up to the place of the time stamp. *)
Definition report_head (title url : string) : string :=
  nl ++ title ++ nl ++ nl ++ "**URL:** " ++ url ++ nl ++ "**Analyzed:** ".

(** ** Inputs of the worked examples *)

(** What [urlparse] answers on the URLs used below. *)
Definition example_urlparse (u : string) : result parsed_url :=
  if String.eqb u "https://example.com" then
    Ok (mkParsed "https" (Some "example.com") (Ok None))
  else if String.eqb u "http://example.com" then
    Ok (mkParsed "http" (Some "example.com") (Ok None))
  else if String.eqb u "https://" then
    Ok (mkParsed "https" None (Ok None))
  else if String.eqb u "http://example.com:99999" then
    Ok (mkParsed "http" (Some "example.com")
                 (Raise (plain_exn "Port out of range 0-65535")))
  else Raise (plain_exn "Invalid IPv6 URL").

Definition example_cert : cert :=
  mkCert (Some "example.com") (Some "Example CA") (Some 3) (Some "0A1B2C")
         (Some "Jan  1 00:00:00 2024 GMT") (Some "Jan  1 00:00:00 2026 GMT").

Definition name_not_known : exn :=
  plain_exn "[Errno -2] Name or service not known".

Definition connection_refused : exn :=
  mkExn false true "Connection refused".

(** Every layer answers; the analysis service answers 200 with a text. *)
Definition world_up : world :=
  mkWorld (fun _ => Ok "93.184.216.34")
          (fun _ _ => Ok 0)
          (fun _ _ => Ok example_cert)
          (fun u => Ok (mkResponse 200 "OK" 0 u (120 # 1)))
          (fun _ _ => Ok (mkPost 200 "{..}"
                            (Ok (JsonObject (mkJson (Some (JString "The endpoint is healthy.")) None))))).

(** As [world_up], but the analysis service answers 500 with a body that
    is not JSON. *)
Definition world_ai_500 : world :=
  mkWorld (w_gethostbyname world_up) (w_connect_ex world_up)
          (w_getpeercert world_up) (w_requests_get world_up)
          (fun _ _ => Ok (mkPost 500 "Internal Server Error"
                            (Raise (plain_exn "Expecting value: line 1 column 1 (char 0)")))).

(** As [world_up], but the analysis service answers 200 with a number
    under the key response. *)
Definition world_ai_number : world :=
  with_requests_post world_up
    (fun _ _ => Ok (mkPost 200 "{..}"
                      (Ok (JsonObject (mkJson (Some (JOther "int" "42" true)) None))))).

(** Every call raises. *)
Definition world_down : world :=
  mkWorld (fun _ => Raise name_not_known)
          (fun _ _ => Raise name_not_known)
          (fun _ _ => Raise name_not_known)
          (fun _ => Raise connection_refused)
          (fun _ _ => Raise connection_refused).

(** As [world_down], but the name resolves inside [connect_ex], which
    then reports ECONNREFUSED (111) as its return value. *)
Definition world_port_closed : world :=
  mkWorld (w_gethostbyname world_down)
          (fun _ _ => Ok 111)
          (w_getpeercert world_down) (w_requests_get world_down)
          (w_requests_post world_down).

(** The answers of the libraries when the host name is [None]. *)
Definition world_no_host : world :=
  mkWorld (fun _ => Raise (plain_exn "gethostbyname() argument 1 must be str, bytes or bytearray, not None"))
          (fun _ _ => Raise (plain_exn "str, bytes or bytearray expected, not NoneType"))
          (fun _ _ => Raise (plain_exn "check_hostname requires server_hostname"))
          (fun _ => Raise (plain_exn "Invalid URL 'https://': No host supplied"))
          (fun _ _ => Raise connection_refused).

(** Records: an https site that answers in [ms] milliseconds, and a
    plain http site. *)
Definition https_record (ms : Q) : conn_data :=
  mkData "https://example.com" (Some "example.com") 443 "https"
         (Some (PortResult true)) (Some (DnsOk "93.184.216.34"))
         (Some (SslOk example_cert))
         (Some (HttpStatus 200 "OK" 0 "https://example.com"))
         (Some ms) [].

Definition http_record : conn_data :=
  mkData "http://example.com" (Some "example.com") 80 "http"
         (Some (PortResult true)) (Some (DnsOk "93.184.216.34"))
         None
         (Some (HttpStatus 200 "OK" 0 "http://example.com"))
         (Some (120 # 1)) [].

Definition clock_1 : string := "2024-05-01T10:00:00.000001".
Definition clock_2 : string := "2024-05-01T10:00:07.250000".

(** A copy of a record with another errors list. *)
Definition with_errors (data : conn_data) (errs : list string) : conn_data :=
  mkData (url data) (hostname data) (port data) (scheme data)
         (connectivity_tests_port data) (dns_resolution data) (ssl_info data)
         (http_status data) (response_time data) errs.

(** The sentence that [_generate_answer_only] keeps for an empty answer. *)
Definition no_answer_sentence : string :=
  "I couldn't provide a specific answer to your question based on the available data.".

(** The URL that [main] of analyze_url.py and the web routes probe. *)
Definition with_scheme (u : string) : string :=
  if startswith "http://" u || startswith "https://" u then u else "https://" ++ u.

(** An ECS cluster with two services, one of them short of a task, and
    a cluster without services. *)
Definition example_aws : DevopsInfra.aws :=
  DevopsInfra.mkAws
    (fun c => Ok [DevopsInfra.mkCluster (Some c) (Some "ACTIVE")])
    (fun _ => Ok ["arn:aws:ecs:us-east-1:123456789012:service/prod/api";
                  "arn:aws:ecs:us-east-1:123456789012:service/prod/worker"])
    (fun _ arns =>
       Ok (map (fun arn =>
                  if String.eqb (DevopsInfra.last_segment arn) "api"
                  then DevopsInfra.mkService "api" "ACTIVE" 2 2 "arn:aws:ecs:us-east-1:123456789012:task-definition/api:7"
                  else DevopsInfra.mkService (DevopsInfra.last_segment arn) "ACTIVE" 2 1
                         "arn:aws:ecs:us-east-1:123456789012:task-definition/worker:3")
               arns)).

Definition empty_aws : DevopsInfra.aws :=
  DevopsInfra.mkAws
    (fun c => Ok [DevopsInfra.mkCluster (Some c) (Some "ACTIVE")])
    (fun _ => Ok [])
    (fun _ _ => Ok []).

(** The analysis service of the web interface: it answers, it is down,
    or it answers 200 with a JSON list. *)
Definition web_service_up : string -> string -> result WebRoutes.post_answer :=
  fun _ _ => Ok (WebRoutes.mkAnswer 200 "{..}"
                   (Ok (WebRoutes.AiDict
                          (WebRoutes.mkAiDict
                             (Some (JString "The endpoint is healthy.")) None
                             (Some (JOther "int" "1500" true))
                             (Some (JString "llama3")) false)))).

Definition web_service_down : string -> string -> result WebRoutes.post_answer :=
  fun _ _ => Raise connection_refused.

Definition web_service_list : string -> string -> result WebRoutes.post_answer :=
  fun _ _ => Ok (WebRoutes.mkAnswer 200 "[1]"
                   (Ok (WebRoutes.AiOther
                          (mkNonObject "list" true (fun _ => Ok false)
                             (plain_exn "list indices must be integers or slices, not str"))))).

(** A byte with which a white space character can start, and one with
    which it can end. *)
Definition starts_space (c : ascii) : bool :=
  let n := nat_of_ascii c in
  (is_space c || (n =? 194) || (n =? 225) || (n =? 226) || (n =? 227))%nat.

Definition ends_space (c : ascii) : bool :=
  let n := nat_of_ascii c in
  (is_space c || ((128 <=? n) && (n <=? 138)) || (n =? 159) || (n =? 160)
   || (n =? 168) || (n =? 169) || (n =? 175))%nat.

Fixpoint last_byte (s : string) : option ascii :=
  match s with
  | EmptyString => None
  | String c EmptyString => Some c
  | String _ s' => last_byte s'
  end.

(** The text is not empty and its last byte ends no white space. *)
Definition ends_plain (s : string) : bool :=
  match last_byte s with
  | Some c => negb (ends_space c)
  | None => false
  end.

(** A text that opens with a letter other than I. *)
Definition opens_well (s : string) : Prop :=
  exists c b, s = String c b /\ starts_space c = false /\ c <> "I"%char.

(** Whether the question asks for improvements, the first test of the
    question section of analyze_url.py. *)
Definition asks_improvement (question : option string) : bool :=
  match question with
  | Some q =>
      truthy_str q && (contains "improve" (lower q) || contains "optimiz" (lower q))
  | None => false
  end.

(** * Properties *)

(** ** Strings *)

Lemma append_assoc (a b c : string) : (a ++ b) ++ c = a ++ (b ++ c).
Proof.
  induction a as [|x a IH]; simpl; [reflexivity | now rewrite IH].
Qed.

Lemma append_nil_r (a : string) : a ++ EmptyString = a.
Proof.
  induction a as [|x a IH]; simpl; [reflexivity | now rewrite IH].
Qed.

Lemma ends_with_refl (s : string) : ends_with s s.
Proof. exists EmptyString. reflexivity. Qed.

Lemma ends_with_app (suffix a s : string) :
  ends_with suffix s -> ends_with suffix (a ++ s).
Proof.
  intros [pre ->]. exists (a ++ pre). now rewrite append_assoc.
Qed.

Lemma ends_with_block (h block rest : string) :
  ends_with h block -> ends_with (h ++ rest) (block ++ rest).
Proof.
  intros [pre ->]. exists pre. now rewrite append_assoc.
Qed.

Lemma Ok_inj {A} (a b : A) : Ok a = Ok b -> a = b.
Proof. intros H. now injection H. Qed.

(** ** The priority tier *)

Lemma priority_assessment_tier (errs : list string) :
  priority_assessment errs = tier_line (tier_of_count (length errs)).
Proof.
  destruct errs as [|e1 [|e2 [|e3 errs]]]; reflexivity.
Qed.

Lemma tier_of_count_spec (n : nat) :
  (n = 0%nat -> tier_of_count n = Low) /\
  ((1 <= n <= 2)%nat -> tier_of_count n = Medium) /\
  ((3 <= n)%nat -> tier_of_count n = High).
Proof.
  destruct n as [|[|[|n]]]; simpl; repeat split; intros; try reflexivity; lia.
Qed.

Lemma devops_block_heading :
  ends_with priority_heading
    (nl ++
     "## 🔧 Troubleshooting Steps" ++ nl ++
     nl ++
     "1. **Check connectivity** - Verify network access to the target" ++ nl ++
     "2. **Verify DNS** - Ensure domain resolution is working" ++ nl ++
     "3. **Test ports** - Confirm required ports are open" ++ nl ++
     "4. **Check SSL** - Validate certificate for HTTPS sites" ++ nl ++
     "5. **DNS settings** - Verify DNS resolution" ++ nl ++
     "6. **Service status** - Check if the target service is running" ++ nl ++
     nl ++
     "## 📊 Priority Assessment" ++ nl).
Proof.
  repeat first [apply ends_with_refl | apply ends_with_app].
Qed.

Lemma devops_report_priority (now : string) (data : conn_data) (d : dns_info) :
  dns_resolution data = Some d ->
  exists text,
    DevopsAnalyzer.url_report now data = Ok text /\
    ends_with (priority_section (tier_of_count (length (errors data))) devops_footer) text.
Proof.
  intros Hd. unfold DevopsAnalyzer.url_report. rewrite Hd.
  cbn [get_get bind]. eexists. split; [reflexivity|].
  rewrite priority_assessment_tier.
  do 7 apply ends_with_app.
  apply (ends_with_block priority_heading). exact devops_block_heading.
Qed.

Lemma general_steps_heading (title steps : string) :
  ends_with priority_heading
    (nl ++
     title ++ nl ++
     nl ++
     steps ++ nl ++
     "1. **Check URL spelling** - Ensure the URL is correct" ++ nl ++
     "2. **Network connectivity** - Verify internet connection" ++ nl ++
     "3. **Firewall settings** - Check if ports are blocked" ++ nl ++
     "4. **DNS settings** - Verify DNS resolution" ++ nl ++
     "5. **Service status** - Check if the target service is running" ++ nl ++
     nl ++
     "### Specific Issues" ++ nl ++
     "- **DNS Failures:** Check DNS configuration, try alternative DNS" ++ nl ++
     "- **Port Blocked:** Verify firewall rules, check service listening port" ++ nl ++
     "- **SSL Issues:** Update certificate, check certificate chain" ++ nl ++
     "- **HTTP Errors:** Check service logs, verify configuration" ++ nl ++
     "- **Slow Response:** Check server load, network latency" ++ nl ++
     nl ++
     "## 📊 Priority Assessment" ++ nl).
Proof.
  repeat first [apply ends_with_refl | apply ends_with_app].
Qed.

Lemma analyze_url_report_priority (now url : string) (question : option string)
      (data : conn_data) (text : string) :
  AnalyzeUrl.generate_fallback_analysis now url question data = Ok text ->
  ends_with (priority_section (tier_of_count (length (errors data))) prevention_footer) text.
Proof.
  unfold AnalyzeUrl.generate_fallback_analysis.
  destruct (AnalyzeUrl.checklist data) as [checks|e]; cbn [bind]; [|discriminate].
  match goal with |- context [bind ?m _] => destruct m as [aq|e] end;
    cbn [bind]; [|discriminate].
  intros H. apply Ok_inj in H. subst text.
  rewrite priority_assessment_tier.
  do 4 apply ends_with_app.
  apply (ends_with_block priority_heading). apply general_steps_heading.
Qed.

Lemma web_report_priority (now url : string) (data : conn_data) (text : string) :
  WebInterface.generate_fallback_analysis now url data = Ok text ->
  ends_with (priority_section (tier_of_count (length (errors data))) prevention_footer) text.
Proof.
  unfold WebInterface.generate_fallback_analysis.
  destruct (AnalyzeUrl.checklist data) as [checks|e]; cbn [bind]; [|discriminate].
  intros H. apply Ok_inj in H. subst text.
  rewrite priority_assessment_tier.
  do 3 apply ends_with_app.
  apply (ends_with_block priority_heading). apply general_steps_heading.
Qed.

(** The checklist of analyze_url.py is produced exactly when the three
    outcomes it reads through [.get(key, {})] are dictionaries. *)
Lemma checklist_ok (data : conn_data) :
  dns_resolution data <> None -> ssl_info data <> None -> http_status data <> None ->
  exists checks, AnalyzeUrl.checklist data = Ok checks.
Proof.
  intros Hd Hs Hh. unfold AnalyzeUrl.checklist.
  destruct (dns_resolution data); [|contradiction].
  destruct (ssl_info data); [|contradiction].
  destruct (http_status data); [|contradiction].
  cbn [get_get bind]. eexists. reflexivity.
Qed.

Lemma checklist_raises (data : conn_data) :
  ssl_info data = None -> dns_resolution data <> None ->
  AnalyzeUrl.checklist data = Raise AttributeError_get.
Proof.
  intros Hs Hd. unfold AnalyzeUrl.checklist.
  destruct (dns_resolution data); [|contradiction].
  rewrite Hs. reflexivity.
Qed.

(** C1.  The priority tier that closes the no-question fallback report
    depends on the record only through the length of its errors list: no
    error gives Low, one or two give Medium, three or more give High.
    The report of devops-analyzer.py is produced and ends with the
    priority heading, that tier and the footer for every record whose DNS
    outcome is set (the probe always sets it); the reports of
    analyze_url.py and web_interface.py end the same way whenever they are
    produced, and they are produced for every record whose DNS, TLS and
    HTTP outcomes are set. *)
Theorem priority_tier_from_error_count :
  (forall n : nat,
      (n = 0%nat -> tier_of_count n = Low) /\
      ((1 <= n <= 2)%nat -> tier_of_count n = Medium) /\
      ((3 <= n)%nat -> tier_of_count n = High)) /\
  (forall errs, priority_assessment errs = tier_line (tier_of_count (length errs))) /\
  (forall urlparse now data question,
      truthy_question question = false ->
      dns_resolution data <> None ->
      ends_with (priority_section (tier_of_count (length (errors data))) devops_footer)
                (DevopsAnalyzer._generate_url_fallback urlparse now data question)) /\
  (forall now url data text,
      AnalyzeUrl.generate_fallback_analysis now url None data = Ok text
      \/ WebInterface.generate_fallback_analysis now url data = Ok text ->
      ends_with (priority_section (tier_of_count (length (errors data))) prevention_footer)
                text) /\
  (forall now url data,
      dns_resolution data <> None -> ssl_info data <> None -> http_status data <> None ->
      (exists text, AnalyzeUrl.generate_fallback_analysis now url None data = Ok text) /\
      (exists text, WebInterface.generate_fallback_analysis now url data = Ok text)).
Proof.
  split; [exact tier_of_count_spec|].
  split; [exact priority_assessment_tier|].
  split; [|split].
  - intros urlparse now data question Hq Hd.
    destruct (dns_resolution data) as [d|] eqn:E; [|contradiction].
    destruct (devops_report_priority now data d E) as [text [Ht He]].
    unfold DevopsAnalyzer._generate_url_fallback.
    destruct question as [q|]; simpl in Hq.
    + rewrite Hq, Ht. exact He.
    + rewrite Ht. exact He.
  - intros now url data text [H|H].
    + exact (analyze_url_report_priority _ _ _ _ _ H).
    + exact (web_report_priority _ _ _ _ H).
  - intros now url data Hd Hs Hh.
    destruct (checklist_ok data Hd Hs Hh) as [checks Hc].
    unfold AnalyzeUrl.generate_fallback_analysis, WebInterface.generate_fallback_analysis.
    rewrite Hc. cbn [bind]. split; eexists; reflexivity.
Qed.

Lemma priority_tier_from_error_count_witness :
  ends_with (priority_section Low devops_footer)
            (DevopsAnalyzer._generate_url_fallback example_urlparse clock_1 http_record None)
  /\ exists text,
       AnalyzeUrl.generate_fallback_analysis clock_1 "https://example.com" None
                                             (https_record (120 # 1)) = Ok text
       /\ ends_with (priority_section Low prevention_footer) text.
Proof.
  destruct priority_tier_from_error_count as [_ [_ [Hdev [Hend Hex]]]].
  split.
  - apply (Hdev example_urlparse clock_1 http_record None); [reflexivity | discriminate].
  - destruct (Hex clock_1 "https://example.com" (https_record (120 # 1)))
      as [[text Ht] _]; try discriminate.
    exists text. split; [exact Ht|].
    apply (Hend clock_1 "https://example.com" (https_record (120 # 1)) text).
    left. exact Ht.
Defined.

(** ** Question classification *)

Lemma bucket_matches_asks (ql : string) :
  bucket_matches Availability ql = DevopsAnalyzer.asks_availability ql /\
  bucket_matches Performance ql = DevopsAnalyzer.asks_performance ql /\
  bucket_matches Security ql = DevopsAnalyzer.asks_security ql /\
  bucket_matches Errors ql = DevopsAnalyzer.asks_errors ql /\
  bucket_matches Identity ql = DevopsAnalyzer.asks_identity ql.
Proof.
  unfold bucket_matches, DevopsAnalyzer.asks_availability,
    DevopsAnalyzer.asks_performance, DevopsAnalyzer.asks_security,
    DevopsAnalyzer.asks_errors, DevopsAnalyzer.asks_identity.
  cbn [existsb]. rewrite !orb_false_r, !orb_assoc. repeat split; reflexivity.
Qed.

Lemma answer_body_unfold urlparse (data : conn_data) (question : string) :
  DevopsAnalyzer.answer_body urlparse data question =
  let ql := lower question in
  if DevopsAnalyzer.asks_availability ql then Ok (DevopsAnalyzer.answer_availability data)
  else if DevopsAnalyzer.asks_performance ql then Ok (DevopsAnalyzer.answer_performance data)
  else if DevopsAnalyzer.asks_security ql then Ok (DevopsAnalyzer.answer_security data)
  else if DevopsAnalyzer.asks_errors ql then Ok (DevopsAnalyzer.answer_errors data)
  else if DevopsAnalyzer.asks_identity ql then
    domain <- DevopsAnalyzer.domain_of urlparse data ;;
    Ok (DevopsAnalyzer.answer_identity domain)
  else
    domain <- DevopsAnalyzer.domain_of urlparse data ;;
    DevopsAnalyzer.answer_general domain data.
Proof. reflexivity. Qed.

Lemma classify_unfold (question : string) :
  classify question =
  let ql := lower question in
  if DevopsAnalyzer.asks_availability ql then Availability
  else if DevopsAnalyzer.asks_performance ql then Performance
  else if DevopsAnalyzer.asks_security ql then Security
  else if DevopsAnalyzer.asks_errors ql then Errors
  else if DevopsAnalyzer.asks_identity ql then Identity
  else General.
Proof.
  unfold classify, bucket_order. cbn [find]. cbv zeta.
  destruct (bucket_matches_asks (lower question)) as (-> & -> & -> & -> & ->).
  repeat match goal with |- context [if ?b then _ else _] => destruct b end;
    reflexivity.
Qed.

Lemma answer_body_first_match urlparse (data : conn_data) (question : string) :
  DevopsAnalyzer.answer_body urlparse data question =
  bucket_answer urlparse (classify question) data.
Proof.
  rewrite answer_body_unfold, classify_unfold. cbv zeta.
  repeat match goal with |- context [if ?b then _ else _] => destruct b end;
    reflexivity.
Qed.

Lemma truthy_str_nonempty (q : string) : q <> EmptyString -> truthy_str q = true.
Proof.
  intros H. unfold truthy_str. destruct (String.eqb_spec q EmptyString); [contradiction | reflexivity].
Qed.

Ltac opens_with_literal :=
  cbn [append]; eexists _, _; split; [reflexivity|]; split;
  [reflexivity | discriminate].

Lemma answer_availability_opens (data : conn_data) :
  opens_well (DevopsAnalyzer.answer_availability data).
Proof.
  unfold DevopsAnalyzer.answer_availability, opens_well.
  destruct (Qltb _ _); opens_with_literal.
Qed.

Lemma answer_performance_opens (data : conn_data) :
  opens_well (DevopsAnalyzer.answer_performance data).
Proof.
  unfold DevopsAnalyzer.answer_performance, DevopsAnalyzer.performance_severe,
    DevopsAnalyzer.performance_moderate, DevopsAnalyzer.performance_good,
    DevopsAnalyzer.performance_unmeasured, opens_well.
  repeat match goal with |- context [if Qltb ?x ?y then _ else _] =>
                           destruct (Qltb x y) end;
    opens_with_literal.
Qed.

Lemma answer_security_opens (data : conn_data) :
  opens_well (DevopsAnalyzer.answer_security data).
Proof.
  unfold DevopsAnalyzer.answer_security, opens_well.
  destruct (ssl_info data) as [[c|e]|]; opens_with_literal.
Qed.

Lemma answer_errors_opens (data : conn_data) :
  opens_well (DevopsAnalyzer.answer_errors data).
Proof.
  unfold DevopsAnalyzer.answer_errors, opens_well.
  destruct (truthy_list (errors data)); opens_with_literal.
Qed.

Lemma answer_identity_opens (domain : string) :
  opens_well (DevopsAnalyzer.answer_identity domain).
Proof.
  unfold DevopsAnalyzer.answer_identity, opens_well. cbv zeta.
  repeat match goal with
         | |- context [if ?b then _ else _] => destruct b
         end; opens_with_literal.
Qed.

Lemma answer_general_opens (domain : string) (data : conn_data) (answer : string) :
  DevopsAnalyzer.answer_general domain data = Ok answer -> opens_well answer.
Proof.
  unfold DevopsAnalyzer.answer_general, opens_well.
  destruct (http_status data) as [h|]; cbn [get_get bind]; [|discriminate].
  destruct (response_time data) as [ms|]; cbn [get_get bind]; [|discriminate].
  intros H. apply Ok_inj in H. subst answer.
  destruct (http_status_code h) as [status|];
    [destruct (status =? 200); [|destruct (truthy_Z status)]|];
    (destruct (truthy_Q ms);
     [destruct (Qltb ms (500 # 1)); [|destruct (Qltb ms (1000 # 1))]|]);
    opens_with_literal.
Qed.

Lemma bucket_answer_nonempty urlparse (b : bucket) (data : conn_data)
      (answer : string) :
  bucket_answer urlparse b data = Ok answer -> truthy_str answer = true.
Proof.
  intros H.
  assert (Ho : opens_well answer).
  { destruct b; cbn [bucket_answer] in H.
    - apply Ok_inj in H. subst. apply answer_availability_opens.
    - apply Ok_inj in H. subst. apply answer_performance_opens.
    - apply Ok_inj in H. subst. apply answer_security_opens.
    - apply Ok_inj in H. subst. apply answer_errors_opens.
    - destruct (DevopsAnalyzer.domain_of urlparse data) as [domain|e];
        cbn [bind] in H; [|discriminate H].
      apply Ok_inj in H. subst. apply answer_identity_opens.
    - destruct (DevopsAnalyzer.domain_of urlparse data) as [domain|e];
        cbn [bind] in H; [|discriminate H].
      exact (answer_general_opens domain data answer H). }
  destruct Ho as (c & t & -> & _). reflexivity.
Qed.

(** [_generate_answer_only] hands out the answer of the first matching
    bucket, stripped; an exception inside the bucket becomes the text
    "Error generating answer: ...". *)
Lemma generate_answer_only_first_match urlparse (data : conn_data) (question : string) :
  DevopsAnalyzer._generate_answer_only urlparse data question
  = match bucket_answer urlparse (classify question) data with
    | Ok answer => strip answer
    | Raise e => "Error generating answer: " ++ exn_str e
    end.
Proof.
  unfold DevopsAnalyzer._generate_answer_only. rewrite answer_body_first_match.
  destruct (bucket_answer urlparse (classify question) data) as [answer|e] eqn:E;
    [|reflexivity].
  now rewrite (bucket_answer_nonempty urlparse _ data answer E).
Qed.

(** C3, as stated, fails: a question can contain "slow" and "secure" and
    still not be answered by the performance bucket, because "improve"
    puts it in the availability bucket, which is tried first. *)
Lemma slow_secure_counterexample :
  let question := "How can I improve a slow but secure site?" in
  let data := https_record (2500 # 1) in
  contains "slow" (lower question) = true /\
  contains "secure" (lower question) = true /\
  classify question = Availability /\
  DevopsAnalyzer._generate_answer_only example_urlparse data question
  = strip (DevopsAnalyzer.answer_availability data) /\
  DevopsAnalyzer._generate_answer_only example_urlparse data question
  <> strip (DevopsAnalyzer.answer_performance data).
Proof.
  cbv zeta. split; [reflexivity|]. split; [reflexivity|]. split; [reflexivity|].
  split; [vm_compute; reflexivity|].
  intros H. vm_compute in H. discriminate H.
Qed.

(** C3, amended.  A non-empty question is answered by
    [_generate_answer_only], and its answer is the stripped answer of
    the first bucket, in the order availability, performance, security,
    errors, identity, whose keywords occur in the lower-cased question
    (the general answer when none does; the text "Error generating
    answer: ..." when the bucket raises).  A question that contains both
    "slow" and "secure" is therefore never answered by the security
    bucket: it gets the performance answer, unless a keyword of the
    still earlier availability bucket occurs in it too, and then it gets
    the availability answer. *)
Theorem fallback_buckets_first_match_wins :
  (forall urlparse now data question,
      question <> EmptyString ->
      DevopsAnalyzer._generate_url_fallback urlparse now data (Some question)
      = DevopsAnalyzer._generate_answer_only urlparse data question) /\
  (forall urlparse data question,
      DevopsAnalyzer._generate_answer_only urlparse data question
      = match bucket_answer urlparse (classify question) data with
        | Ok answer => strip answer
        | Raise e => "Error generating answer: " ++ exn_str e
        end) /\
  (forall urlparse data question,
      DevopsAnalyzer.answer_body urlparse data question
      = bucket_answer urlparse (classify question) data) /\
  (forall question,
      contains "slow" (lower question) = true ->
      contains "secure" (lower question) = true ->
      classify question <> Security /\
      classify question
      = (if bucket_matches Availability (lower question)
         then Availability else Performance) /\
      forall urlparse data,
        DevopsAnalyzer._generate_answer_only urlparse data question
        = if bucket_matches Availability (lower question)
          then strip (DevopsAnalyzer.answer_availability data)
          else strip (DevopsAnalyzer.answer_performance data)).
Proof.
  split; [|split; [|split]].
  - intros urlparse now data question Hq.
    unfold DevopsAnalyzer._generate_url_fallback.
    now rewrite (truthy_str_nonempty _ Hq).
  - exact generate_answer_only_first_match.
  - exact answer_body_first_match.
  - intros question Hslow Hsecure.
    assert (Hperf : DevopsAnalyzer.asks_performance (lower question) = true).
    { unfold DevopsAnalyzer.asks_performance. now rewrite Hslow. }
    assert (Hc : classify question
                 = if bucket_matches Availability (lower question)
                   then Availability else Performance).
    { rewrite classify_unfold. cbv zeta.
      destruct (bucket_matches_asks (lower question)) as (-> & _).
      rewrite Hperf. reflexivity. }
    split; [|split; [exact Hc|]].
    + rewrite Hc. destruct (bucket_matches Availability (lower question)); discriminate.
    + intros urlparse data. rewrite generate_answer_only_first_match, Hc.
      destruct (bucket_matches Availability (lower question)); reflexivity.
Qed.

Lemma fallback_buckets_first_match_wins_witness :
  let question := "Is it slow and is it secure?" in
  let data := https_record (2500 # 1) in
  DevopsAnalyzer._generate_url_fallback example_urlparse clock_1 data (Some question)
  = strip (DevopsAnalyzer.answer_performance data) /\
  classify question = Performance.
Proof.
  cbv zeta.
  destruct fallback_buckets_first_match_wins as (H1 & _ & _ & H4).
  destruct (H4 "Is it slow and is it secure?" eq_refl eq_refl) as (_ & Hc & Ha).
  split; [|exact Hc].
  rewrite (H1 example_urlparse clock_1 (https_record (2500 # 1))
              "Is it slow and is it secure?") by discriminate.
  exact (Ha example_urlparse (https_record (2500 # 1))).
Defined.

(** ** The performance answer *)

Lemma Qltb_lt (a b : Q) : Qltb a b = true <-> (a < b)%Q.
Proof.
  unfold Qltb. rewrite negb_true_iff.
  split.
  - intros H. apply Qnot_le_lt. intros Hle.
    apply Qle_bool_iff in Hle. congruence.
  - intros H. destruct (Qle_bool b a) eqn:E; [|reflexivity].
    apply Qle_bool_iff in E. exfalso. exact (Qlt_not_le _ _ H E).
Qed.

Lemma Qltb_ge (a b : Q) : Qltb a b = false <-> (b <= a)%Q.
Proof.
  unfold Qltb. rewrite negb_false_iff. apply Qle_bool_iff.
Qed.

Lemma response_time_ms_positive (data : conn_data) (ms : Q) :
  response_time data = Some ms -> (0 < ms)%Q ->
  DevopsAnalyzer.response_time_ms_of data = ms.
Proof.
  intros Hr Hpos. unfold DevopsAnalyzer.response_time_ms_of. rewrite Hr.
  unfold truthy_Q. destruct (Qnum ms =? 0) eqn:E; [|reflexivity].
  apply Z.eqb_eq in E. unfold Qlt in Hpos. simpl in Hpos. lia.
Qed.

Lemma response_time_ms_not_positive (data : conn_data) (ms : Q) :
  response_time data = Some ms -> (ms <= 0)%Q ->
  Qltb 0 (DevopsAnalyzer.response_time_ms_of data) = false.
Proof.
  intros Hr Hle. unfold DevopsAnalyzer.response_time_ms_of. rewrite Hr.
  destruct (truthy_Q ms); [now apply Qltb_ge | reflexivity].
Qed.

Lemma app_nonempty_r (a b : string) : b <> EmptyString -> a ++ b <> EmptyString.
Proof.
  destruct a; simpl; [trivial | discriminate].
Qed.

(** ** White space *)

Lemma lstrip_plain (c : ascii) (s : string) :
  starts_space c = false -> lstrip (String c s) = String c s.
Proof.
  unfold starts_space. intros H.
  destruct (is_space c) eqn:Hs; [discriminate H|]. cbn [orb] in H.
  repeat (apply orb_false_iff in H; destruct H as [H ?]).
  cbn [lstrip]. rewrite Hs.
  assert (G2 : forall c2, is_space2 c c2 = false).
  { intros c2. unfold is_space2.
    destruct (nat_of_ascii c =? 194)%nat; [discriminate | reflexivity]. }
  assert (G3 : forall c2 c3, is_space3 c c2 c3 = false).
  { intros c2 c3. unfold is_space3.
    destruct (nat_of_ascii c =? 225)%nat; [discriminate|].
    destruct (nat_of_ascii c =? 226)%nat; [discriminate|].
    destruct (nat_of_ascii c =? 227)%nat; [discriminate | reflexivity]. }
  destruct s as [|c2 s2]; [reflexivity|]. rewrite G2.
  destruct s2 as [|c3 s3]; [reflexivity|]. now rewrite G3.
Qed.

Lemma last_byte_cons (c : ascii) (s : string) :
  s <> EmptyString -> last_byte (String c s) = last_byte s.
Proof.
  destruct s; [congruence | reflexivity].
Qed.

Lemma last_byte_app (a b : string) :
  b <> EmptyString -> last_byte (a ++ b) = last_byte b.
Proof.
  intros Hb. induction a as [|c a IH]; [reflexivity|].
  change (String c a ++ b) with (String c (a ++ b)).
  rewrite last_byte_cons; [exact IH | now apply app_nonempty_r].
Qed.

Lemma ends_plain_app (a b : string) : ends_plain b = true -> ends_plain (a ++ b) = true.
Proof.
  unfold ends_plain. intros H. rewrite last_byte_app; [exact H|].
  intros ->. discriminate H.
Qed.

(** A text that [lstrip] empties is white space to its last byte. *)
Lemma lstrip_empty_ends (n : nat) :
  forall s, (String.length s <= n)%nat -> lstrip s = EmptyString ->
            s <> EmptyString -> ends_plain s = false.
Proof.
  induction n as [|n IH]; intros s Hlen Hl Hne.
  - destruct s; [congruence | simpl in Hlen; lia].
  - destruct s as [|c1 s1]; [congruence|].
    assert (Hrec : forall c t, (String.length t <= n)%nat -> lstrip t = EmptyString ->
                               ends_space c = true ->
                               ends_plain (String c t) = false).
    { intros c t Ht Hlt Hc. destruct t as [|c' t'].
      - unfold ends_plain. cbn [last_byte]. now rewrite Hc.
      - unfold ends_plain. rewrite last_byte_cons by discriminate.
        apply (IH (String c' t') Ht Hlt). discriminate. }
    simpl in Hlen. cbn [lstrip] in Hl.
    destruct (is_space c1) eqn:E1.
    { apply Hrec; [lia | exact Hl |]. unfold ends_space. now rewrite E1. }
    destruct s1 as [|c2 s2]; [discriminate Hl|].
    simpl in Hlen.
    destruct (is_space2 c1 c2) eqn:E2.
    { unfold ends_plain. rewrite last_byte_cons by discriminate.
      apply Hrec; [lia | exact Hl |].
      unfold is_space2 in E2. unfold ends_space.
      destruct (nat_of_ascii c1 =? 194)%nat; [|discriminate E2]. cbn [andb] in E2.
      unfold is_space. cbv zeta.
      apply orb_true_iff in E2. destruct E2 as [E2|E2]; apply Nat.eqb_eq in E2;
        rewrite E2; reflexivity. }
    destruct s2 as [|c3 s3]; [discriminate Hl|].
    simpl in Hlen.
    destruct (is_space3 c1 c2 c3) eqn:E3; [|discriminate Hl].
    unfold ends_plain. rewrite !last_byte_cons by discriminate.
    apply Hrec; [lia | exact Hl |].
    unfold is_space3 in E3. unfold ends_space.
    destruct (is_space c3); [reflexivity|]. cbv zeta. cbn [orb].
    destruct ((128 <=? nat_of_ascii c3) && (nat_of_ascii c3 <=? 138))%nat eqn:Er;
      [reflexivity|]. cbn [orb].
    assert (E128 : (nat_of_ascii c3 =? 128)%nat = true ->
                   ((128 <=? nat_of_ascii c3) && (nat_of_ascii c3 <=? 138))%nat = true).
    { intros E. apply Nat.eqb_eq in E. now rewrite E. }
    destruct (nat_of_ascii c3 =? 128)%nat eqn:E0;
      [rewrite (E128 eq_refl) in Er; discriminate Er|].
    destruct (nat_of_ascii c3 =? 159)%nat; [reflexivity|].
    destruct (nat_of_ascii c3 =? 168)%nat; [now rewrite !orb_true_r|].
    destruct (nat_of_ascii c3 =? 169)%nat; [now rewrite !orb_true_r|].
    destruct (nat_of_ascii c3 =? 175)%nat; [now rewrite !orb_true_r|].
    rewrite ?andb_false_r in E3. cbn [orb andb] in E3.
    rewrite ?andb_false_r in E3. discriminate E3.
Qed.

Lemma rstrip_plain (s : string) : ends_plain s = true -> rstrip s = s.
Proof.
  induction s as [|c s IH]; [reflexivity|]. intros H. cbn [rstrip].
  destruct (String.eqb (lstrip (String c s)) EmptyString) eqn:E.
  - apply String.eqb_eq in E.
    rewrite (lstrip_empty_ends _ (String c s) (le_n _) E) in H; discriminate.
  - destruct s as [|c' s']; [reflexivity|].
    rewrite IH; [reflexivity|].
    unfold ends_plain in *. now rewrite last_byte_cons in H by discriminate.
Qed.

(** A text that starts with a letter and ends with a fixed tail that has
    no white space at its end is left alone by [strip]. *)
Lemma strip_template (c : ascii) (a f b : string) :
  starts_space c = false -> ends_plain b = true ->
  strip (String c a ++ f ++ b) = String c a ++ f ++ b.
Proof.
  intros Hc Hb. unfold strip.
  rewrite rstrip_plain by (do 2 apply ends_plain_app; exact Hb).
  change (String c a ++ f ++ b) with (String c (a ++ f ++ b)).
  now apply lstrip_plain.
Qed.

Lemma strip_performance_texts (ms : Q) :
  strip (DevopsAnalyzer.performance_severe ms) = DevopsAnalyzer.performance_severe ms /\
  strip (DevopsAnalyzer.performance_moderate ms) = DevopsAnalyzer.performance_moderate ms /\
  strip (DevopsAnalyzer.performance_good ms) = DevopsAnalyzer.performance_good ms /\
  strip DevopsAnalyzer.performance_unmeasured = DevopsAnalyzer.performance_unmeasured.
Proof.
  split; [|split; [|split]].
  - apply strip_template; reflexivity.
  - apply strip_template; reflexivity.
  - apply strip_template; reflexivity.
  - vm_compute. reflexivity.
Qed.

(** The four texts differ from one another, whatever the numbers. *)
Lemma performance_texts_distinct (a b : Q) :
  DevopsAnalyzer.performance_severe a <> DevopsAnalyzer.performance_moderate b /\
  DevopsAnalyzer.performance_severe a <> DevopsAnalyzer.performance_good b /\
  DevopsAnalyzer.performance_moderate a <> DevopsAnalyzer.performance_good b /\
  DevopsAnalyzer.performance_severe a <> DevopsAnalyzer.performance_unmeasured /\
  DevopsAnalyzer.performance_moderate a <> DevopsAnalyzer.performance_unmeasured /\
  DevopsAnalyzer.performance_good a <> DevopsAnalyzer.performance_unmeasured.
Proof.
  unfold DevopsAnalyzer.performance_severe, DevopsAnalyzer.performance_moderate,
    DevopsAnalyzer.performance_good, DevopsAnalyzer.performance_unmeasured.
  repeat split; intros H; cbn [append] in H; discriminate H.
Qed.

Lemma generate_answer_only_performance urlparse (data : conn_data) (question : string) :
  classify question = Performance ->
  DevopsAnalyzer._generate_answer_only urlparse data question
  = strip (DevopsAnalyzer.answer_performance data).
Proof.
  intros Hc. unfold DevopsAnalyzer._generate_answer_only.
  rewrite answer_body_first_match, Hc. cbn [bucket_answer].
  unfold DevopsAnalyzer.answer_performance.
  repeat match goal with |- context [if Qltb ?x ?y then _ else _] =>
                           destruct (Qltb x y) end;
    reflexivity.
Qed.

(** C4, as stated, fails at the edges of the tiers: a latency of exactly
    1000 ms is answered with the good-performance text, not the moderate
    one, and a recorded latency of 0 ms is answered with the
    possible-timeout text, not the good-performance one. *)
Lemma performance_tiers_counterexample :
  classify "why is this slow?" = Performance /\
  DevopsAnalyzer._generate_answer_only example_urlparse (https_record (1000 # 1))
                                       "why is this slow?"
  = DevopsAnalyzer.performance_good (1000 # 1) /\
  claimed_performance_text (response_time (https_record (1000 # 1)))
  = DevopsAnalyzer.performance_moderate (1000 # 1) /\
  DevopsAnalyzer._generate_answer_only example_urlparse (https_record (0 # 1))
                                       "why is this slow?"
  = DevopsAnalyzer.performance_unmeasured /\
  claimed_performance_text (response_time (https_record (0 # 1)))
  = DevopsAnalyzer.performance_good (0 # 1) /\
  ~ (forall urlparse data question,
        classify question = Performance ->
        DevopsAnalyzer._generate_answer_only urlparse data question
        = claimed_performance_text (response_time data)).
Proof.
  split; [reflexivity|].
  split; [vm_compute; reflexivity|].
  split; [reflexivity|].
  split; [vm_compute; reflexivity|].
  split; [reflexivity|].
  intros H.
  specialize (H example_urlparse (https_record (1000 # 1)) "why is this slow?" eq_refl).
  vm_compute in H. discriminate H.
Qed.

(** C4, amended.  When the question falls in the performance bucket the
    answer is chosen by the recorded latency: above 2000 ms the severe
    text, above 1000 and up to 2000 ms the moderate text, above 0 and up
    to 1000 ms the good-performance text, and the possible-timeout text
    when the latency is absent or not positive.  The four texts are
    pairwise different.  For the record with latency 2500 ms, no errors
    and a valid certificate, the question "why is this slow?" gets the
    severe text, which mentions neither SSL nor certificates. *)
Theorem performance_answer_by_latency :
  (forall urlparse data question,
      classify question = Performance ->
      (response_time data = None ->
       DevopsAnalyzer._generate_answer_only urlparse data question
       = DevopsAnalyzer.performance_unmeasured) /\
      (forall ms, response_time data = Some ms ->
         ((2000 # 1 < ms)%Q ->
          DevopsAnalyzer._generate_answer_only urlparse data question
          = DevopsAnalyzer.performance_severe ms) /\
         ((1000 # 1 < ms)%Q /\ (ms <= 2000 # 1)%Q ->
          DevopsAnalyzer._generate_answer_only urlparse data question
          = DevopsAnalyzer.performance_moderate ms) /\
         ((0 < ms)%Q /\ (ms <= 1000 # 1)%Q ->
          DevopsAnalyzer._generate_answer_only urlparse data question
          = DevopsAnalyzer.performance_good ms) /\
         ((ms <= 0)%Q ->
          DevopsAnalyzer._generate_answer_only urlparse data question
          = DevopsAnalyzer.performance_unmeasured))) /\
  (forall a b,
      DevopsAnalyzer.performance_severe a <> DevopsAnalyzer.performance_moderate b /\
      DevopsAnalyzer.performance_severe a <> DevopsAnalyzer.performance_good b /\
      DevopsAnalyzer.performance_moderate a <> DevopsAnalyzer.performance_good b /\
      DevopsAnalyzer.performance_severe a <> DevopsAnalyzer.performance_unmeasured /\
      DevopsAnalyzer.performance_moderate a <> DevopsAnalyzer.performance_unmeasured /\
      DevopsAnalyzer.performance_good a <> DevopsAnalyzer.performance_unmeasured) /\
  (let text := DevopsAnalyzer._generate_url_fallback
                 example_urlparse clock_1 (https_record (2500 # 1))
                 (Some "why is this slow?") in
   text = DevopsAnalyzer.performance_severe (2500 # 1) /\
   contains "very slow response times (2500ms)" text = true /\
   contains "ssl" (lower text) = false /\
   contains "certificate" (lower text) = false).
Proof.
  split; [|split; [exact performance_texts_distinct|]].
  - intros urlparse data question Hc.
    rewrite (generate_answer_only_performance urlparse data question Hc).
    unfold DevopsAnalyzer.answer_performance.
    destruct (strip_performance_texts 0) as (_ & _ & _ & Hu).
    split.
    + intros Hnone. unfold DevopsAnalyzer.response_time_ms_of. rewrite Hnone.
      exact Hu.
    + intros ms Hsome.
      destruct (strip_performance_texts ms) as (Hs & Hm & Hg & _).
      repeat split.
      * intros H2000.
        assert (Hpos : (0 < ms)%Q) by (eapply Qlt_trans; [|exact H2000]; reflexivity).
        rewrite (response_time_ms_positive data ms Hsome Hpos).
        apply Qltb_lt in Hpos, H2000. now rewrite Hpos, H2000.
      * intros [H1000 H2000].
        assert (Hpos : (0 < ms)%Q) by (eapply Qlt_trans; [|exact H1000]; reflexivity).
        rewrite (response_time_ms_positive data ms Hsome Hpos).
        apply Qltb_lt in Hpos, H1000. apply Qltb_ge in H2000.
        now rewrite Hpos, H2000, H1000.
      * intros [Hpos H1000].
        rewrite (response_time_ms_positive data ms Hsome Hpos).
        assert (H2000 : (ms <= 2000 # 1)%Q)
          by (eapply Qle_trans; [exact H1000 | discriminate]).
        apply Qltb_lt in Hpos. apply Qltb_ge in H1000, H2000.
        now rewrite Hpos, H2000, H1000.
      * intros Hle.
        rewrite (response_time_ms_not_positive data ms Hsome Hle). exact Hu.
  - cbv zeta. repeat split; vm_compute; reflexivity.
Qed.

Lemma performance_answer_by_latency_witness :
  DevopsAnalyzer._generate_answer_only example_urlparse (https_record (2500 # 1))
                                       "why is this slow?"
  = DevopsAnalyzer.performance_severe (2500 # 1) /\
  DevopsAnalyzer._generate_answer_only example_urlparse (https_record (1500 # 1))
                                       "why is this slow?"
  = DevopsAnalyzer.performance_moderate (1500 # 1) /\
  DevopsAnalyzer._generate_answer_only example_urlparse (https_record (1000 # 1))
                                       "why is this slow?"
  = DevopsAnalyzer.performance_good (1000 # 1).
Proof.
  destruct performance_answer_by_latency as [H _].
  split; [|split].
  - destruct (H example_urlparse (https_record (2500 # 1)) "why is this slow?" eq_refl)
      as [_ H1].
    destruct (H1 (2500 # 1) eq_refl) as (Hs & _). apply Hs. reflexivity.
  - destruct (H example_urlparse (https_record (1500 # 1)) "why is this slow?" eq_refl)
      as [_ H1].
    destruct (H1 (1500 # 1) eq_refl) as (_ & Hm & _). apply Hm.
    split; [reflexivity | discriminate].
  - destruct (H example_urlparse (https_record (1000 # 1)) "why is this slow?" eq_refl)
      as [_ H1].
    destruct (H1 (1000 # 1) eq_refl) as (_ & _ & Hg & _). apply Hg.
    split; [reflexivity | discriminate].
Defined.

(** ** The probe *)

(** After a successful parse the probe returns the full record: every
    sub-probe has run and left its outcome, and the errors list is the
    concatenation of the entries of the four sub-probes in the order DNS,
    port, TLS, HTTP. *)
Lemma probe_record urlparse (w : world) (u : string) (parsed : parsed_url)
      (po : option Z) :
  urlparse u = Ok parsed -> p_port parsed = Ok po ->
  let host := p_hostname parsed in
  let prt := port_or_default po (p_scheme parsed) in
  let sch := p_scheme parsed in
  exists r,
    analyze_url_connectivity urlparse w u = Ok (Probed r) /\
    url r = u /\ hostname r = host /\ port r = prt /\ scheme r = sch /\
    errors r = (dns_entries w host ++ port_entries w host prt
                ++ tls_entries w sch host prt ++ http_entries w u)%list /\
    dns_resolution r <> None /\ connectivity_tests_port r <> None /\
    http_status r <> None /\
    (ssl_info r <> None <-> sch = "https") /\
    (dns_failed r = true <-> length (dns_entries w host) = 1%nat) /\
    (tls_failed r = true <-> length (tls_entries w sch host prt) = 1%nat) /\
    (http_failed r = true <-> length (http_entries w u) = 1%nat) /\
    ((exists m, connectivity_tests_port r = Some (PortError m)) <->
     length (port_entries w host prt) = 1%nat).
Proof.
  intros Hparse Hport.
  unfold analyze_url_connectivity, analyze_url_connectivity_body.
  rewrite Hparse. cbn [bind]. rewrite Hport. cbn [bind].
  unfold dns_test, port_test, ssl_test, http_test, dns_entries, port_entries,
    tls_entries, http_entries.
  cbn [hostname port scheme url errors set_dns_resolution append_error
       set_port_test set_ssl_info set_http_status set_response_time].
  cbv zeta.
  set (host := p_hostname parsed).
  set (prt := port_or_default po (p_scheme parsed)).
  destruct (w_gethostbyname w host) as [ip|e1];
    cbn [try_except bind hostname port scheme url errors set_dns_resolution
         append_error];
  (destruct (w_connect_ex w host prt) as [c|e2];
    cbn [try_except bind hostname port scheme url errors set_port_test
         set_dns_resolution append_error]);
  (destruct (String.eqb_spec (p_scheme parsed) "https") as [Hs|Hs];
   [destruct (w_getpeercert w host prt) as [crt|e3]|];
    cbn [try_except bind hostname port scheme url errors set_ssl_info
         set_port_test set_dns_resolution append_error]);
  (destruct (w_requests_get w u) as [resp|e4];
    cbn [try_except bind hostname port scheme url errors set_http_status
         set_response_time set_ssl_info set_port_test set_dns_resolution
         append_error];
   [destruct (400 <=? resp_status_code resp) eqn:E400
   |destruct (exn_is_timeout e4); [|destruct (exn_is_connection e4)]];
    cbn [try_except bind hostname port scheme url errors set_http_status
         set_response_time set_ssl_info set_port_test set_dns_resolution
         append_error]);
  eexists; (split; [reflexivity|]);
  unfold dns_failed, tls_failed, http_failed;
  cbn [hostname port scheme url errors dns_resolution connectivity_tests_port
       ssl_info http_status response_time app length set_http_status
       set_response_time set_ssl_info set_port_test set_dns_resolution
       append_error];
  try rewrite E400;
  repeat split; try reflexivity; try discriminate; try assumption;
  try (intros; congruence); try (intros [m Hm]; discriminate);
  try (intros; eexists; reflexivity).
Qed.

Lemma probe_parse_failure urlparse (w : world) (u : string) :
  (forall e, urlparse u = Raise e ->
     analyze_url_connectivity urlparse w u
     = Ok (AnalysisFailed u ("Analysis failed: " ++ exn_str e) [exn_str e])) /\
  (forall parsed e, urlparse u = Ok parsed -> p_port parsed = Raise e ->
     analyze_url_connectivity urlparse w u
     = Ok (AnalysisFailed u ("Analysis failed: " ++ exn_str e) [exn_str e])).
Proof.
  unfold analyze_url_connectivity, analyze_url_connectivity_body.
  split.
  - intros e ->. reflexivity.
  - intros parsed e -> Hp. cbn [bind]. rewrite Hp. reflexivity.
Qed.

Lemma probe_never_raises urlparse (w : world) (u : string) :
  exists a, analyze_url_connectivity urlparse w u = Ok a.
Proof.
  destruct (urlparse u) as [parsed|e] eqn:Hparse.
  - destruct (p_port parsed) as [po|e] eqn:Hport.
    + destruct (probe_record urlparse w u parsed po Hparse Hport) as (r & Hr & _).
      now exists (Probed r).
    + eexists. exact (proj2 (probe_parse_failure urlparse w u) parsed e Hparse Hport).
  - eexists. exact (proj1 (probe_parse_failure urlparse w u) e Hparse).
Qed.

Lemma entries_at_most_one (w : world) (host : option string) (prt : Z)
      (sch u : string) :
  (length (dns_entries w host) <= 1)%nat /\
  (length (port_entries w host prt) <= 1)%nat /\
  (length (tls_entries w sch host prt) <= 1)%nat /\
  (length (http_entries w u) <= 1)%nat.
Proof.
  unfold dns_entries, port_entries, tls_entries, http_entries.
  repeat split;
    repeat match goal with
           | |- context [match ?x with _ => _ end] => destruct x
           end; simpl; lia.
Qed.

(** C5, as stated, fails for a port that [connect_ex] reports closed: all
    four sub-probes of the run below fail, yet the errors list has three
    entries and none of them comes from the port probe. *)
Lemma errors_one_per_failure_counterexample :
  exists r,
    analyze_url_connectivity example_urlparse world_port_closed "https://example.com"
    = Ok (Probed r) /\
    dns_failed r = true /\ port_failed r = true /\
    tls_failed r = true /\ http_failed r = true /\
    connectivity_tests_port r = Some (PortResult false) /\
    failed_count r = 4%nat /\
    errors r = ["DNS Resolution failed: [Errno -2] Name or service not known";
                "SSL Certificate issue: [Errno -2] Name or service not known";
                "Connection error: Connection refused"] /\
    length (errors r) <> failed_count r.
Proof.
  eexists. split; [vm_compute; reflexivity|].
  repeat split; try reflexivity. vm_compute. discriminate.
Qed.

(** C5, amended.  For every probe run on a URL that parses, the errors
    list is the concatenation of the entries of the DNS, port, TLS and
    HTTP sub-probes in this order.  Each sub-probe contributes at most one
    entry; a failed DNS, TLS or HTTP sub-probe contributes exactly one; the
    port sub-probe contributes one exactly when its connection attempt
    raised (a port that is found closed is recorded without an entry).
    When all four calls raise, the list has four entries, in the order
    DNS, port, TLS, HTTP. *)
Theorem errors_follow_probe_order :
  (forall urlparse w u parsed po,
      urlparse u = Ok parsed -> p_port parsed = Ok po ->
      let host := p_hostname parsed in
      let prt := port_or_default po (p_scheme parsed) in
      let sch := p_scheme parsed in
      exists r,
        analyze_url_connectivity urlparse w u = Ok (Probed r) /\
        errors r = (dns_entries w host ++ port_entries w host prt
                    ++ tls_entries w sch host prt ++ http_entries w u)%list /\
        (length (dns_entries w host) <= 1)%nat /\
        (length (port_entries w host prt) <= 1)%nat /\
        (length (tls_entries w sch host prt) <= 1)%nat /\
        (length (http_entries w u) <= 1)%nat /\
        (dns_failed r = true <-> length (dns_entries w host) = 1%nat) /\
        (tls_failed r = true <-> length (tls_entries w sch host prt) = 1%nat) /\
        (http_failed r = true <-> length (http_entries w u) = 1%nat) /\
        ((exists m, connectivity_tests_port r = Some (PortError m)) <->
         length (port_entries w host prt) = 1%nat)) /\
  (forall urlparse w u parsed po e1 e2 e3 e4,
      urlparse u = Ok parsed -> p_port parsed = Ok po ->
      p_scheme parsed = "https" ->
      w_gethostbyname w (p_hostname parsed) = Raise e1 ->
      w_connect_ex w (p_hostname parsed) (port_or_default po "https") = Raise e2 ->
      w_getpeercert w (p_hostname parsed) (port_or_default po "https") = Raise e3 ->
      w_requests_get w u = Raise e4 ->
      exists r http_entry,
        analyze_url_connectivity urlparse w u = Ok (Probed r) /\
        http_entries w u = [http_entry] /\
        errors r = ["DNS Resolution failed: " ++ exn_str e1;
                    "Port connection failed: " ++ exn_str e2;
                    "SSL Certificate issue: " ++ exn_str e3;
                    http_entry]).
Proof.
  split.
  - intros urlparse w u parsed po Hparse Hport host prt sch.
    destruct (probe_record urlparse w u parsed po Hparse Hport)
      as (r & Hr & _ & _ & _ & _ & He & _ & _ & _ & _ & Hd & Ht & Hh & Hp).
    destruct (entries_at_most_one w host prt sch u) as (L1 & L2 & L3 & L4).
    exists r. repeat split; try assumption; try apply Hd; try apply Ht;
      try apply Hh; try apply Hp.
  - intros urlparse w u parsed po e1 e2 e3 e4 Hparse Hport Hs H1 H2 H3 H4.
    destruct (probe_record urlparse w u parsed po Hparse Hport)
      as (r & Hr & _ & _ & _ & _ & He & _).
    rewrite Hs in He.
    unfold dns_entries, port_entries, tls_entries in He.
    rewrite H1, H2, H3 in He. cbn [String.eqb Ascii.eqb Bool.eqb app] in He.
    unfold http_entries in *. rewrite H4 in *.
    destruct (exn_is_timeout e4); [|destruct (exn_is_connection e4)];
      exists r; eexists; (split; [exact Hr|]); (split; [reflexivity|]); exact He.
Qed.

Lemma errors_follow_probe_order_witness :
  exists r,
    analyze_url_connectivity example_urlparse world_down "https://example.com"
    = Ok (Probed r) /\
    errors r = ["DNS Resolution failed: [Errno -2] Name or service not known";
                "Port connection failed: [Errno -2] Name or service not known";
                "SSL Certificate issue: [Errno -2] Name or service not known";
                "Connection error: Connection refused"].
Proof.
  destruct errors_follow_probe_order as [_ H].
  destruct (H example_urlparse world_down "https://example.com"
              (mkParsed "https" (Some "example.com") (Ok None)) None
              name_not_known name_not_known name_not_known connection_refused
              eq_refl eq_refl eq_refl eq_refl eq_refl eq_refl eq_refl)
    as (r & entry & Hr & Hentry & He).
  exists r. split; [exact Hr|].
  vm_compute in Hentry. injection Hentry as <-. exact He.
Defined.

(** C6.  When the scheme of the parsed URL is not https, the probe
    returns a record whose [ssl_info] is [None], whatever DNS, port and
    HTTP answer, and its errors list holds the DNS, port and HTTP entries
    only (the single parse message when the port of the URL is rejected):
    nothing comes from the TLS step. *)
Theorem plain_http_has_no_tls :
  forall urlparse w u parsed,
    urlparse u = Ok parsed -> p_scheme parsed <> "https" ->
    exists a,
      analyze_url_connectivity urlparse w u = Ok a /\
      analysis_ssl_info a = None /\
      (forall po, p_port parsed = Ok po ->
         let host := p_hostname parsed in
         let prt := port_or_default po (p_scheme parsed) in
         analysis_errors a
         = (dns_entries w host ++ port_entries w host prt ++ http_entries w u)%list) /\
      (forall e, p_port parsed = Raise e -> analysis_errors a = [exn_str e]).
Proof.
  intros urlparse w u parsed Hparse Hs.
  destruct (p_port parsed) as [po|e] eqn:Hport.
  - destruct (probe_record urlparse w u parsed po Hparse Hport)
      as (r & Hr & _ & _ & _ & Hsch & He & _ & _ & _ & Hssl & _).
    exists (Probed r). split; [exact Hr|]. split; [|split].
    + simpl. destruct (ssl_info r) eqn:E; [|reflexivity].
      exfalso. apply Hs. apply Hssl. discriminate.
    + intros po' Hpo. injection Hpo as <-. cbv zeta. simpl.
      rewrite He. unfold tls_entries.
      destruct (String.eqb_spec (p_scheme parsed) "https"); [contradiction|].
      reflexivity.
    + intros e He'. discriminate.
  - exists (AnalysisFailed u ("Analysis failed: " ++ exn_str e) [exn_str e]).
    pose proof (proj2 (probe_parse_failure urlparse w u) parsed e Hparse Hport) as Hf.
    split; [exact Hf|]. split; [reflexivity|]. split.
    + intros po Hpo. discriminate.
    + intros e' He'. injection He' as <-. reflexivity.
Qed.

Lemma plain_http_has_no_tls_witness :
  exists a,
    analyze_url_connectivity example_urlparse world_down "http://example.com" = Ok a /\
    analysis_ssl_info a = None /\
    analysis_errors a
    = ["DNS Resolution failed: [Errno -2] Name or service not known";
       "Port connection failed: [Errno -2] Name or service not known";
       "Connection error: Connection refused"].
Proof.
  destruct (plain_http_has_no_tls example_urlparse world_down "http://example.com"
              (mkParsed "http" (Some "example.com") (Ok None)) eq_refl)
    as (a & Ha & Hssl & He & _).
  - discriminate.
  - exists a. split; [exact Ha|]. split; [exact Hssl|].
    exact (He None eq_refl).
Defined.

(** C7, as stated, fails for a URL that parses without a host name: for
    "https://" nothing raises during parsing, so the probe does not return
    the single parse-failure message; it runs the four sub-probes with the
    host name [None] and records one entry for each. *)
Lemma unusable_hostname_counterexample :
  example_urlparse "https://" = Ok (mkParsed "https" None (Ok None)) /\
  exists r,
    analyze_url_connectivity example_urlparse world_no_host "https://" = Ok (Probed r) /\
    hostname r = None /\
    length (errors r) = 4%nat /\
    ~ (exists a_error message,
          analyze_url_connectivity example_urlparse world_no_host "https://"
          = Ok (AnalysisFailed "https://" a_error [message])).
Proof.
  split; [reflexivity|].
  eexists. split; [vm_compute; reflexivity|].
  split; [reflexivity|]. split; [reflexivity|].
  intros (a_error & message & H). vm_compute in H. discriminate H.
Qed.

(** C7, amended.  The probe never raises to its caller.  When parsing
    raises (in [urlparse] or in the port of the URL) it returns the short
    record with the single message of that exception and no sub-probe
    outcome.  Otherwise it returns the full record: the DNS, port and
    HTTP outcomes are always set, and the TLS outcome exactly for https,
    whichever sub-probes raised, and each exception is recorded as an
    entry of the errors list at its place in the order DNS, port, TLS,
    HTTP.  A URL that parses without a host name takes this second path. *)
Theorem probe_never_raises_and_isolates :
  (forall urlparse w u, exists a, analyze_url_connectivity urlparse w u = Ok a) /\
  (forall urlparse w u e,
      urlparse u = Raise e ->
      analyze_url_connectivity urlparse w u
      = Ok (AnalysisFailed u ("Analysis failed: " ++ exn_str e) [exn_str e])) /\
  (forall urlparse w u parsed e,
      urlparse u = Ok parsed -> p_port parsed = Raise e ->
      analyze_url_connectivity urlparse w u
      = Ok (AnalysisFailed u ("Analysis failed: " ++ exn_str e) [exn_str e])) /\
  (forall urlparse w u parsed po,
      urlparse u = Ok parsed -> p_port parsed = Ok po ->
      let host := p_hostname parsed in
      let prt := port_or_default po (p_scheme parsed) in
      let sch := p_scheme parsed in
      exists r,
        analyze_url_connectivity urlparse w u = Ok (Probed r) /\
        hostname r = host /\
        dns_resolution r <> None /\ connectivity_tests_port r <> None /\
        http_status r <> None /\
        (ssl_info r <> None <-> sch = "https") /\
        errors r = (dns_entries w host ++ port_entries w host prt
                    ++ tls_entries w sch host prt ++ http_entries w u)%list).
Proof.
  split; [exact probe_never_raises|].
  split; [intros urlparse w u; exact (proj1 (probe_parse_failure urlparse w u))|].
  split; [intros urlparse w u; exact (proj2 (probe_parse_failure urlparse w u))|].
  intros urlparse w u parsed po Hparse Hport host prt sch.
  destruct (probe_record urlparse w u parsed po Hparse Hport)
    as (r & Hr & _ & Hh & _ & _ & He & Hd & Hp & Hht & Hssl & _).
  exists r. repeat split; try assumption; apply Hssl.
Qed.

Lemma probe_never_raises_and_isolates_witness :
  analyze_url_connectivity example_urlparse world_down "http://[::1"
  = Ok (AnalysisFailed "http://[::1" "Analysis failed: Invalid IPv6 URL"
                       ["Invalid IPv6 URL"]) /\
  analyze_url_connectivity example_urlparse world_down "http://example.com:99999"
  = Ok (AnalysisFailed "http://example.com:99999"
                       "Analysis failed: Port out of range 0-65535"
                       ["Port out of range 0-65535"]) /\
  exists r,
    analyze_url_connectivity example_urlparse world_down "https://example.com"
    = Ok (Probed r) /\
    dns_resolution r <> None /\ connectivity_tests_port r <> None /\
    http_status r <> None /\ length (errors r) = 4%nat.
Proof.
  destruct probe_never_raises_and_isolates as (_ & H1 & H2 & H3).
  split; [|split].
  - exact (H1 example_urlparse world_down "http://[::1"
              (plain_exn "Invalid IPv6 URL") eq_refl).
  - exact (H2 example_urlparse world_down "http://example.com:99999"
              (mkParsed "http" (Some "example.com")
                        (Raise (plain_exn "Port out of range 0-65535")))
              (plain_exn "Port out of range 0-65535") eq_refl eq_refl).
  - destruct (H3 example_urlparse world_down "https://example.com"
                 (mkParsed "https" (Some "example.com") (Ok None)) None
                 eq_refl eq_refl)
      as (r & Hr & _ & Hd & Hp & Hh & _ & He).
    exists r. repeat split; try assumption.
    rewrite He. reflexivity.
Defined.

(** ** Determinism *)

(** C8, as stated, fails for the full report: two calls on the same
    record without a question, made at different times, return different
    texts, because the report carries the reading of the clock.  The same
    holds for the report of analyze_url.py, with or without a question. *)
Lemma fallback_determinism_counterexample :
  DevopsAnalyzer._generate_url_fallback example_urlparse clock_1
                                        (https_record (120 # 1)) None
  <> DevopsAnalyzer._generate_url_fallback example_urlparse clock_2
                                           (https_record (120 # 1)) None
  /\
  AnalyzeUrl.generate_fallback_analysis clock_1 "https://example.com"
                                        (Some "is it secure?") (https_record (120 # 1))
  <> AnalyzeUrl.generate_fallback_analysis clock_2 "https://example.com"
                                           (Some "is it secure?") (https_record (120 # 1)).
Proof.
  split; intros H.
  - assert (C : contains clock_1
                  (DevopsAnalyzer._generate_url_fallback
                     example_urlparse clock_1 (https_record (120 # 1)) None) = true)
      by (vm_compute; reflexivity).
    rewrite H in C. vm_compute in C. discriminate C.
  - assert (C : match AnalyzeUrl.generate_fallback_analysis
                        clock_1 "https://example.com" (Some "is it secure?")
                        (https_record (120 # 1)) with
                | Ok text => contains clock_1 text
                | Raise _ => false
                end = true)
      by (vm_compute; reflexivity).
    rewrite H in C. vm_compute in C. discriminate C.
Qed.

Lemma devops_report_timestamp (data : conn_data) (question : option string) :
  exists pre post,
    forall now,
      match DevopsAnalyzer.url_report now data with
      | Ok analysis => analysis
      | Raise e => DevopsAnalyzer.url_report_error now data question e
      end = pre ++ now ++ post.
Proof.
  unfold DevopsAnalyzer.url_report.
  destruct (dns_resolution data) as [d|]; cbn [get_get bind].
  - exists (report_head "# URL Analysis Report" (url data)).
    eexists. intros now. unfold report_head.
    rewrite !append_assoc. reflexivity.
  - exists (report_head "# URL Analysis Report - Error" (url data)).
    eexists. intros now. unfold DevopsAnalyzer.url_report_error, report_head.
    rewrite !append_assoc. reflexivity.
Qed.

Lemma analyze_url_report_timestamp (u : string) (question : option string)
      (data : conn_data) :
  (exists e, forall now,
      AnalyzeUrl.generate_fallback_analysis now u question data = Raise e) \/
  (exists pre post, forall now,
      AnalyzeUrl.generate_fallback_analysis now u question data
      = Ok (pre ++ now ++ post)).
Proof.
  unfold AnalyzeUrl.generate_fallback_analysis.
  destruct (AnalyzeUrl.checklist data) as [checks|e]; cbn [bind];
    [|left; exists e; reflexivity].
  match goal with |- context [bind ?m _] => destruct m as [aq|e] end;
    cbn [bind]; [|left; exists e; reflexivity].
  right. exists (report_head "# URL Analysis Report" u). eexists.
  intros now. unfold report_head. rewrite !append_assoc. reflexivity.
Qed.

Lemma web_report_timestamp (u : string) (data : conn_data) :
  (exists e, forall now,
      WebInterface.generate_fallback_analysis now u data = Raise e) \/
  (exists pre post, forall now,
      WebInterface.generate_fallback_analysis now u data = Ok (pre ++ now ++ post)).
Proof.
  unfold WebInterface.generate_fallback_analysis.
  destruct (AnalyzeUrl.checklist data) as [checks|e]; cbn [bind];
    [|left; exists e; reflexivity].
  right. exists (report_head "# URL Issue Analysis Report" u). eexists.
  intros now. unfold report_head. rewrite !append_assoc. reflexivity.
Qed.

(** C8, amended.  The fallback reasoner is a function of the record, the
    question and the reading of the clock.  The answer of
    devops-analyzer.py to a non-empty question does not depend on the
    clock: any two calls with the same record and question return the
    same text.  Every full report depends on the clock only through the
    time stamp of its header: two calls with the same record and question
    return texts that differ at most there, and identical texts when they
    read the same time. *)
Theorem fallback_deterministic_up_to_timestamp :
  (forall urlparse now1 now2 data question,
      question <> EmptyString ->
      DevopsAnalyzer._generate_url_fallback urlparse now1 data (Some question)
      = DevopsAnalyzer._generate_url_fallback urlparse now2 data (Some question)) /\
  (forall urlparse data question,
      truthy_question question = false ->
      exists pre post, forall now,
        DevopsAnalyzer._generate_url_fallback urlparse now data question
        = pre ++ now ++ post) /\
  (forall u question data,
      (exists e, forall now,
          AnalyzeUrl.generate_fallback_analysis now u question data = Raise e) \/
      (exists pre post, forall now,
          AnalyzeUrl.generate_fallback_analysis now u question data
          = Ok (pre ++ now ++ post))) /\
  (forall u data,
      (exists e, forall now,
          WebInterface.generate_fallback_analysis now u data = Raise e) \/
      (exists pre post, forall now,
          WebInterface.generate_fallback_analysis now u data
          = Ok (pre ++ now ++ post))).
Proof.
  split; [|split; [|split]].
  - intros urlparse now1 now2 data question Hq.
    unfold DevopsAnalyzer._generate_url_fallback.
    now rewrite (truthy_str_nonempty _ Hq).
  - intros urlparse data question Hq.
    destruct (devops_report_timestamp data question) as (pre & post & H).
    exists pre, post. intros now.
    unfold DevopsAnalyzer._generate_url_fallback.
    destruct question as [q|]; simpl in Hq; [rewrite Hq|]; apply H.
  - exact analyze_url_report_timestamp.
  - exact web_report_timestamp.
Qed.

Lemma fallback_deterministic_up_to_timestamp_witness :
  DevopsAnalyzer._generate_url_fallback example_urlparse clock_1
                                        (https_record (120 # 1)) (Some "is it secure?")
  = DevopsAnalyzer._generate_url_fallback example_urlparse clock_2
                                          (https_record (120 # 1)) (Some "is it secure?")
  /\ exists pre post, forall now,
       DevopsAnalyzer._generate_url_fallback example_urlparse now
                                             (https_record (120 # 1)) None
       = pre ++ now ++ post.
Proof.
  destruct fallback_deterministic_up_to_timestamp as (H1 & H2 & _).
  split.
  - apply H1. discriminate.
  - apply H2. reflexivity.
Defined.

(** ** The choice between the AI text and the fallback *)

(** In devops-analyzer.py an AI text that contains one of the five
    keywords, in any letter case, is replaced by the fallback for the same
    record and question. *)
Lemma devops_soft_failure_falls_back urlparse (now : string) (data : conn_data)
      (question : option string) (ai_text keyword : string) :
  In keyword DevopsAnalyzer.failure_keywords ->
  contains keyword (lower ai_text) = true ->
  DevopsAnalyzer.choose_analysis urlparse now data question ai_text
  = DevopsAnalyzer.generate_fallback_analysis urlparse now data question.
Proof.
  intros Hin Hc. unfold DevopsAnalyzer.choose_analysis.
  assert (E : existsb (fun k => contains k (lower ai_text))
                      DevopsAnalyzer.failure_keywords = true).
  { apply existsb_exists. exists keyword. split; assumption. }
  now rewrite E.
Qed.

(** C2 fails in analyze_url.py.  The analysis service answers 500; the
    text returned by the AI path contains "api returned status", yet
    [main] shows that text as the analysis instead of the fallback report,
    because its check looks for "timeout" and "failed" only.  On the same
    run devops-analyzer.py shows the fallback. *)
Theorem analyze_url_keeps_failed_ai_text :
  let ai_text := "AI API returned status 500: Internal Server Error" in
  let args := mkArgs "https://example.com" None false in
  analyze_url_connectivity example_urlparse world_ai_500 "https://example.com"
  = Ok (Probed (https_record (120 # 1))) /\
  AnalyzeUrl.get_ai_analysis world_ai_500 "https://example.com" None
                             (https_record (120 # 1)) = ai_text /\
  contains "api returned status" (lower ai_text) = true /\
  AnalyzeUrl.main example_urlparse world_ai_500 clock_1 args
  = Ok (mkRun (Some ai_text) 0) /\
  AnalyzeUrl.generate_fallback_analysis clock_1 "https://example.com" None
                                        (https_record (120 # 1))
  <> Ok ai_text /\
  DevopsAnalyzer.main_url example_urlparse world_ai_500 clock_1 args
  = Ok (mkRun (Some (DevopsAnalyzer.generate_fallback_analysis
                       example_urlparse clock_1 (https_record (120 # 1)) None)) 0).
Proof.
  cbv zeta.
  split; [vm_compute; reflexivity|].
  split; [vm_compute; reflexivity|].
  split; [vm_compute; reflexivity|].
  split; [vm_compute; reflexivity|].
  split; [|vm_compute; reflexivity].
  intros H. vm_compute in H. discriminate H.
Qed.

(** ** Exit codes *)

(** The probe always sets the DNS, port and HTTP outcomes. *)
Lemma probed_outcomes_set urlparse (w : world) (u : string) (r : conn_data) :
  analyze_url_connectivity urlparse w u = Ok (Probed r) ->
  dns_resolution r <> None /\ connectivity_tests_port r <> None /\
  http_status r <> None.
Proof.
  intros H.
  destruct (urlparse u) as [parsed|e] eqn:Hparse.
  - destruct (p_port parsed) as [po|e] eqn:Hport.
    + destruct (probe_record urlparse w u parsed po Hparse Hport)
        as (r' & Hr & _ & _ & _ & _ & _ & Hd & Hp & Hh & _).
      rewrite Hr in H. apply Ok_inj in H. injection H as <-. auto.
    + rewrite (proj2 (probe_parse_failure urlparse w u) parsed e Hparse Hport) in H.
      discriminate H.
  - rewrite (proj1 (probe_parse_failure urlparse w u) e Hparse) in H.
    discriminate H.
Qed.

(** In devops-analyzer.py every [url] run that gets the full record from
    the probe, and a text from the AI path when that is used, ends in
    [return 0]. *)
Lemma devops_main_url_returns_zero urlparse (w : world) (now : string)
      (args : url_args) (r : conn_data) :
  analyze_url_connectivity urlparse w (arg_url args) = Ok (Probed r) ->
  (arg_no_ai args = true \/
   exists text : string,
     DevopsAnalyzer.get_ai_analysis w r (arg_question args) = text) ->
  process_exit_code (DevopsAnalyzer.main_url urlparse w now args) = 0.
Proof.
  intros H Hai. destruct (probed_outcomes_set _ _ _ _ H) as (Hd & _).
  unfold DevopsAnalyzer.main_url. rewrite H. cbn [bind].
  unfold DevopsAnalyzer.basic_results.
  destruct (dns_resolution r); [|contradiction]. cbn [get_get bind].
  destruct Hai as [-> | [text ->]]; [reflexivity|].
  destruct (arg_no_ai args); reflexivity.
Qed.

(** In analyze_url.py a run that reaches the end of [main] returns 1
    exactly when the errors list of the record is not empty. *)
Lemma analyze_url_main_exit_code urlparse (w : world) (now : string)
      (args : url_args) (text : string) (code : Z) :
  AnalyzeUrl.main urlparse w now args = Ok (mkRun (Some text) code) ->
  exists r,
    (code <> 0 <-> errors r <> []) /\
    exists u, analyze_url_connectivity urlparse w u = Ok (Probed r).
Proof.
  unfold AnalyzeUrl.main.
  match goal with |- context [analyze_url_connectivity urlparse w ?u] =>
                    set (u0 := u) end.
  destruct (analyze_url_connectivity urlparse w u0) as [[r|a b c]|e] eqn:E;
    cbn [bind]; try discriminate.
  destruct (AnalyzeUrl.basic_results r) as [shown|e]; cbn [bind]; [|discriminate].
  match goal with |- context [bind ?m _] => destruct m as [t|e] end;
    cbn [bind]; [|discriminate].
  intros H. apply Ok_inj in H. injection H as _ Hc.
  exists r. split; [|now exists u0].
  destruct (errors r); simpl in Hc; subst code; split; intros; congruence.
Qed.

(** C9 fails in devops-analyzer.py.  On a run where all four sub-probes
    fail the errors list has four entries, analyze_url.py exits with 1,
    and devops-analyzer.py exits with 0.  (On a plain http target
    analyze_url.py exits with 1 although the errors list is empty: its
    report raises on the missing TLS outcome and nothing catches it.) *)
Theorem devops_exit_code_ignores_errors :
  let args := mkArgs "https://example.com" None false in
  (exists r,
      analyze_url_connectivity example_urlparse world_down (arg_url args)
      = Ok (Probed r) /\
      length (errors r) = 4%nat /\
      process_exit_code (DevopsAnalyzer.main_url example_urlparse world_down clock_1 args)
      = 0 /\
      process_exit_code (AnalyzeUrl.main example_urlparse world_down clock_1 args) = 1) /\
  (let http_args := mkArgs "http://example.com" None false in
   analyze_url_connectivity example_urlparse world_up (arg_url http_args)
   = Ok (Probed http_record) /\
   errors http_record = [] /\
   AnalyzeUrl.main example_urlparse world_up clock_1 http_args = Raise AttributeError_get /\
   process_exit_code (AnalyzeUrl.main example_urlparse world_up clock_1 http_args) = 1).
Proof.
  cbv zeta. split.
  - eexists. split; [vm_compute; reflexivity|].
    repeat split; vm_compute; reflexivity.
  - repeat split; vm_compute; reflexivity.
Qed.

(** ** The TLS line for a plain http target *)

(** Whenever the TLS outcome of a record is [None], building the summary
    and building the checklist of analyze_url.py and web_interface.py
    raise: [.get('ssl_info', {})] returns the [None] that is stored under
    the key, not the default. *)
Lemma no_tls_outcome_raises (now u : string) (question : option string)
      (data : conn_data) :
  ssl_info data = None -> dns_resolution data <> None ->
  connectivity_summary data = Raise AttributeError_get /\
  AnalyzeUrl.generate_fallback_analysis now u question data = Raise AttributeError_get /\
  WebInterface.generate_fallback_analysis now u data = Raise AttributeError_get /\
  forall w,
    AnalyzeUrl.get_ai_analysis w u question data
    = "AI analysis failed: 'NoneType' object has no attribute 'get'".
Proof.
  intros Hs Hd.
  assert (Hsum : connectivity_summary data = Raise AttributeError_get).
  { unfold connectivity_summary.
    destruct (dns_resolution data); [|contradiction]. rewrite Hs. reflexivity. }
  pose proof (checklist_raises data Hs Hd) as Hc.
  split; [exact Hsum|].
  unfold AnalyzeUrl.generate_fallback_analysis, WebInterface.generate_fallback_analysis,
    AnalyzeUrl.get_ai_analysis.
  rewrite Hc, Hsum. repeat split.
Qed.

(** C10 fails in the code.  For the record of a plain http target the
    summary is not built and the checklists of analyze_url.py and
    web_interface.py are not rendered: each raises AttributeError at the
    TLS line, so no line with a failure marker is produced (the AI path
    returns its "AI analysis failed" text instead of calling the service).
    Only the report of devops-analyzer.py is produced, with the line
    "Not applicable (HTTP)". *)
Theorem plain_http_tls_line_raises :
  analyze_url_connectivity example_urlparse world_up "http://example.com"
  = Ok (Probed http_record) /\
  ssl_info http_record = None /\
  connectivity_summary http_record = Raise AttributeError_get /\
  AnalyzeUrl.get_ai_analysis world_up "http://example.com" None http_record
  = "AI analysis failed: 'NoneType' object has no attribute 'get'" /\
  DevopsAnalyzer.get_ai_analysis world_up http_record None
  = "AI analysis failed: 'NoneType' object has no attribute 'get'" /\
  AnalyzeUrl.generate_fallback_analysis clock_1 "http://example.com" None http_record
  = Raise AttributeError_get /\
  WebInterface.generate_fallback_analysis clock_1 "http://example.com" http_record
  = Raise AttributeError_get /\
  (let report := DevopsAnalyzer._generate_url_fallback
                   example_urlparse clock_1 http_record None in
   contains "⚪ **SSL Certificate:** Not applicable (HTTP)" report = true /\
   contains "❌ **SSL Certificate:** Invalid or expired" report = false).
Proof.
  cbv zeta. repeat split; vm_compute; reflexivity.
Qed.

(** * Further properties of the code *)

(** ** Substrings and letter case *)

Lemma prefix_app (k a b : string) :
  String.prefix k a = true -> String.prefix k (a ++ b) = true.
Proof.
  revert k. induction a as [|y a IH]; intros [|x k]; simpl; try discriminate.
  - intros _. destruct b; reflexivity.
  - reflexivity.
  - destruct (ascii_dec x y); [apply IH | discriminate].
Qed.

Lemma contains_empty (s : string) : contains EmptyString s = true.
Proof. destruct s; reflexivity. Qed.

Lemma contains_app_l (k a b : string) :
  contains k a = true -> contains k (a ++ b) = true.
Proof.
  induction a as [|y a IH]; intros H.
  - destruct k; [apply contains_empty | discriminate H].
  - cbn [contains] in H. apply orb_true_iff in H.
    change (String y a ++ b) with (String y (a ++ b)). cbn [contains].
    apply orb_true_iff. destruct H as [H|H].
    + left. exact (prefix_app k (String y a) b H).
    + right. exact (IH H).
Qed.

Lemma contains_app_r (k a b : string) :
  contains k b = true -> contains k (a ++ b) = true.
Proof.
  intros H. induction a as [|y a IH]; [exact H|].
  change (String y a ++ b) with (String y (a ++ b)). cbn [contains].
  rewrite IH. apply orb_true_r.
Qed.

Lemma lower_app (a b : string) : lower (a ++ b) = lower a ++ lower b.
Proof.
  induction a as [|y a IH]; simpl; [reflexivity | now rewrite IH].
Qed.

(** ** The probe: what the record holds *)

Ltac probe_cases w u parsed host prt :=
  destruct (w_gethostbyname w host) as [?ip|?e1];
    cbn [try_except bind hostname port scheme url errors set_dns_resolution
         append_error];
  (destruct (w_connect_ex w host prt) as [?c|?e2];
    cbn [try_except bind hostname port scheme url errors set_port_test
         set_dns_resolution append_error]);
  (destruct (String.eqb (p_scheme parsed) "https");
   [destruct (w_getpeercert w host prt) as [?crt|?e3]|];
    cbn [try_except bind hostname port scheme url errors set_ssl_info
         set_port_test set_dns_resolution append_error]);
  (destruct (w_requests_get w u) as [?resp|?e4];
    cbn [try_except bind hostname port scheme url errors set_http_status
         set_response_time set_ssl_info set_port_test set_dns_resolution
         append_error];
   [match goal with
    | |- context [400 <=? resp_status_code ?r] =>
        destruct (400 <=? resp_status_code r)
    end
   |match goal with
    | |- context [exn_is_timeout ?e] =>
        destruct (exn_is_timeout e); [|destruct (exn_is_connection e)]
    end];
    cbn [try_except bind hostname port scheme url errors set_http_status
         set_response_time set_ssl_info set_port_test set_dns_resolution
         append_error]).

(** Every field of the record, read off the answers of the world. *)
Lemma probe_fields urlparse (w : world) (u : string) (parsed : parsed_url)
      (po : option Z) :
  urlparse u = Ok parsed -> p_port parsed = Ok po ->
  let host := p_hostname parsed in
  let prt := port_or_default po (p_scheme parsed) in
  exists r,
    analyze_url_connectivity urlparse w u = Ok (Probed r) /\
    url r = u /\ hostname r = host /\ port r = prt /\ scheme r = p_scheme parsed /\
    dns_resolution r
    = Some (match w_gethostbyname w host with
            | Ok ip => DnsOk ip
            | Raise e => DnsFail (exn_str e)
            end) /\
    connectivity_tests_port r
    = Some (match w_connect_ex w host prt with
            | Ok c => PortResult (c =? 0)
            | Raise e => PortError (exn_str e)
            end) /\
    ssl_info r
    = (if String.eqb (p_scheme parsed) "https" then
         Some (match w_getpeercert w host prt with
               | Ok c => SslOk c
               | Raise e => SslFail (exn_str e)
               end)
       else None) /\
    http_status r
    = Some (match w_requests_get w u with
            | Ok resp => HttpStatus (resp_status_code resp) (resp_reason resp)
                                    (resp_history_len resp) (resp_url resp)
            | Raise e =>
                HttpError (if exn_is_timeout e then "Request timeout"
                           else if exn_is_connection e then "Connection error"
                           else exn_str e)
            end) /\
    response_time r
    = match w_requests_get w u with
      | Ok resp => Some (resp_elapsed_ms resp)
      | Raise _ => None
      end.
Proof.
  intros Hparse Hport. cbv zeta.
  unfold analyze_url_connectivity, analyze_url_connectivity_body.
  rewrite Hparse. cbn [bind]. rewrite Hport. cbn [bind].
  unfold dns_test, port_test, ssl_test, http_test.
  cbn [hostname port scheme url errors set_dns_resolution append_error
       set_port_test set_ssl_info set_http_status set_response_time].
  set (host := p_hostname parsed).
  set (prt := port_or_default po (p_scheme parsed)).
  probe_cases w u parsed host prt;
  eexists; (split; [reflexivity|]);
  cbn [hostname port scheme url errors dns_resolution connectivity_tests_port
       ssl_info http_status response_time set_http_status
       set_response_time set_ssl_info set_port_test set_dns_resolution
       append_error];
  repeat split.
Qed.

(** A full record comes from a successful parse. *)
Lemma probed_inv urlparse (w : world) (u : string) (r : conn_data) :
  analyze_url_connectivity urlparse w u = Ok (Probed r) ->
  exists parsed po, urlparse u = Ok parsed /\ p_port parsed = Ok po.
Proof.
  intros H.
  destruct (urlparse u) as [parsed|e] eqn:Hparse.
  - destruct (p_port parsed) as [po|e] eqn:Hport.
    + now exists parsed, po.
    + rewrite (proj2 (probe_parse_failure urlparse w u) parsed e Hparse Hport) in H.
      discriminate H.
  - rewrite (proj1 (probe_parse_failure urlparse w u) e Hparse) in H.
    discriminate H.
Qed.

Lemma port_or_default_nonzero (po : option Z) (sch : string) :
  port_or_default po sch <> 0.
Proof.
  unfold port_or_default, truthy_Z.
  destruct po as [p|]; [destruct (p =? 0) eqn:E|];
    try (destruct (String.eqb sch "https"); discriminate).
  apply Z.eqb_neq in E. exact E.
Qed.

(** X1.  The port of a probed record is never 0: it is the port of the
    URL when that is given and not 0, and otherwise 443 for the scheme
    https and 80 for every other scheme. *)
Theorem probed_port_never_zero :
  forall urlparse w u r,
    analyze_url_connectivity urlparse w u = Ok (Probed r) ->
    port r <> 0 /\
    exists parsed po,
      urlparse u = Ok parsed /\ p_port parsed = Ok po /\
      (forall p, po = Some p -> p <> 0 -> port r = p) /\
      (po = None \/ po = Some 0 ->
       port r = if String.eqb (scheme r) "https" then 443 else 80).
Proof.
  intros urlparse w u r H.
  destruct (probed_inv urlparse w u r H) as (parsed & po & Hparse & Hport).
  destruct (probe_fields urlparse w u parsed po Hparse Hport)
    as (r' & Hr & _ & _ & Hp & Hs & _).
  rewrite Hr in H. apply Ok_inj in H. injection H as ->.
  split; [rewrite Hp; apply port_or_default_nonzero|].
  exists parsed, po. repeat split; try assumption.
  - intros p -> Hnz. rewrite Hp. unfold port_or_default, truthy_Z.
    apply Z.eqb_neq in Hnz. now rewrite Hnz.
  - intros [-> | ->]; rewrite Hp, Hs; reflexivity.
Qed.

Lemma probed_port_never_zero_witness :
  exists r,
    analyze_url_connectivity example_urlparse world_up "http://example.com"
    = Ok (Probed r) /\ port r = 80.
Proof.
  exists http_record. split; [vm_compute; reflexivity|].
  destruct (probed_port_never_zero example_urlparse world_up "http://example.com"
              http_record eq_refl) as (_ & parsed & po & Hparse & Hport & _ & Hd).
  vm_compute in Hparse. apply Ok_inj in Hparse. subst parsed.
  simpl in Hport. apply Ok_inj in Hport. subst po.
  exact (Hd (or_introl eq_refl)).
Defined.

(** X2.  A probed record has a response time exactly when the HTTP
    request returned a response, whatever its status; when the request
    raised, the response time is [None] and the HTTP outcome holds only an
    error text.  A response with status 400 or more leaves its
    "HTTP Error" entry in the errors list although the latency is
    recorded. *)
Theorem latency_iff_http_completed :
  forall urlparse w u r,
    analyze_url_connectivity urlparse w u = Ok (Probed r) ->
    (response_time r <> None <->
     exists c t n f, http_status r = Some (HttpStatus c t n f)) /\
    (response_time r = None <-> exists m, http_status r = Some (HttpError m)) /\
    (forall c t n f,
        http_status r = Some (HttpStatus c t n f) -> 400 <= c ->
        response_time r <> None /\
        In ("HTTP Error " ++ str_of_Z c ++ ": " ++ t) (errors r)).
Proof.
  intros urlparse w u r H.
  destruct (probed_inv urlparse w u r H) as (parsed & po & Hparse & Hport).
  destruct (probe_fields urlparse w u parsed po Hparse Hport)
    as (r' & Hr & _ & _ & _ & _ & _ & _ & _ & Hh & Ht).
  destruct (probe_record urlparse w u parsed po Hparse Hport)
    as (r'' & Hr' & _ & _ & _ & _ & He & _).
  rewrite Hr in H. apply Ok_inj in H. injection H as ->.
  rewrite Hr in Hr'. apply Ok_inj in Hr'. injection Hr' as <-.
  rewrite Hh, Ht. rewrite He. unfold http_entries.
  destruct (w_requests_get w u) as [resp|e].
  - split; [|split].
    + split; [intros _; now eexists _, _, _, _ | discriminate].
    + split; [discriminate | intros [m Hm]; discriminate].
    + intros c t n f Heq Hc. injection Heq as <- <- <- <-.
      split; [discriminate|].
      apply Z.leb_le in Hc. rewrite Hc.
      rewrite !in_app_iff. right. right. right. left. reflexivity.
  - split; [|split].
    + split; [intros Hn; now contradiction Hn | intros (c & t & n & f & Hc); discriminate].
    + split; [intros _; now eexists | reflexivity].
    + intros c t n f Heq. discriminate.
Qed.

Lemma latency_iff_http_completed_witness :
  exists r,
    analyze_url_connectivity example_urlparse world_down "https://example.com"
    = Ok (Probed r) /\
    response_time r = None /\ http_status r = Some (HttpError "Connection error").
Proof.
  eexists. split; [vm_compute; reflexivity|].
  split; [|reflexivity].
  refine (proj2 (proj1 (proj2 (latency_iff_http_completed
                                 example_urlparse world_down "https://example.com" _ _))) _).
  - vm_compute. reflexivity.
  - eexists. reflexivity.
Defined.

Lemma length_le_1_nil {A} (l : list A) :
  (length l <= 1)%nat -> (l = [] <-> length l <> 1%nat).
Proof.
  destruct l as [|x [|y l]]; simpl; intros H; split; intros; try congruence; try lia.
Qed.

(** X3.  The errors list of a probed record has at most four entries,
    and it is empty exactly when DNS resolved, the port check did not
    raise, the TLS handshake did not fail and the HTTP request returned a
    status below 400.  A port that was found closed does not make it
    non-empty. *)
Theorem errors_empty_iff_clean_run :
  forall urlparse w u r,
    analyze_url_connectivity urlparse w u = Ok (Probed r) ->
    (length (errors r) <= 4)%nat /\
    (errors r = [] <->
     dns_failed r = false /\
     (forall m, connectivity_tests_port r <> Some (PortError m)) /\
     tls_failed r = false /\ http_failed r = false).
Proof.
  intros urlparse w u r H.
  destruct (probed_inv urlparse w u r H) as (parsed & po & Hparse & Hport).
  destruct (probe_record urlparse w u parsed po Hparse Hport)
    as (r' & Hr & _ & _ & _ & _ & He & _ & _ & _ & _ & Hd & Ht & Hh & Hp).
  rewrite Hr in H. apply Ok_inj in H. injection H as ->.
  destruct (entries_at_most_one w (p_hostname parsed)
              (port_or_default po (p_scheme parsed)) (p_scheme parsed) u)
    as (L1 & L2 & L3 & L4).
  rewrite He. split.
  - rewrite !length_app. lia.
  - pose proof (length_le_1_nil _ L1) as N1.
    pose proof (length_le_1_nil _ L2) as N2.
    pose proof (length_le_1_nil _ L3) as N3.
    pose proof (length_le_1_nil _ L4) as N4.
    split.
    + intros Happ.
      apply app_eq_nil in Happ. destruct Happ as [E1 Happ].
      apply app_eq_nil in Happ. destruct Happ as [E2 Happ].
      apply app_eq_nil in Happ. destruct Happ as [E3 E4].
      apply N1 in E1. apply N2 in E2. apply N3 in E3. apply N4 in E4.
      repeat split.
      * destruct (dns_failed r); [|reflexivity]. exfalso. apply E1. now apply Hd.
      * intros m Hm. apply E2. apply Hp. now exists m.
      * destruct (tls_failed r); [|reflexivity]. exfalso. apply E3. now apply Ht.
      * destruct (http_failed r); [|reflexivity]. exfalso. apply E4. now apply Hh.
    + intros (F1 & F2 & F3 & F4).
      assert (E1 : dns_entries w (p_hostname parsed) = []).
      { apply N1. intros Hl. apply Hd in Hl. congruence. }
      assert (E2 : port_entries w (p_hostname parsed)
                     (port_or_default po (p_scheme parsed)) = []).
      { apply N2. intros Hl. apply Hp in Hl. destruct Hl as [m Hm]. exact (F2 m Hm). }
      assert (E3 : tls_entries w (p_scheme parsed) (p_hostname parsed)
                     (port_or_default po (p_scheme parsed)) = []).
      { apply N3. intros Hl. apply Ht in Hl. congruence. }
      assert (E4 : http_entries w u = []).
      { apply N4. intros Hl. apply Hh in Hl. congruence. }
      now rewrite E1, E2, E3, E4.
Qed.

Lemma errors_empty_iff_clean_run_witness :
  exists r,
    analyze_url_connectivity example_urlparse world_up "https://example.com"
    = Ok (Probed r) /\ errors r = [].
Proof.
  exists (https_record (120 # 1)). split; [vm_compute; reflexivity|].
  apply (proj2 (errors_empty_iff_clean_run example_urlparse world_up
                  "https://example.com" (https_record (120 # 1)) eq_refl)).
  repeat split. intros m Hm. discriminate Hm.
Defined.

(** ** The AI call and the fallback *)

Lemma ai_call_url (w : world) (data : conn_data) (question : option string) :
  DevopsAnalyzer.get_ai_analysis w data question
  = DevopsInfra.ai_call w "url-analysis" (DevopsAnalyzer._create_url_prompt data question).
Proof. reflexivity. Qed.

Lemma choose_keyword (keyword text fallback : string) :
  In keyword DevopsAnalyzer.failure_keywords ->
  contains keyword (lower text) = true ->
  DevopsInfra.choose text fallback = fallback.
Proof.
  intros Hin Hc. unfold DevopsInfra.choose.
  assert (E : existsb (fun k => contains k (lower text))
                      DevopsAnalyzer.failure_keywords = true).
  { apply existsb_exists. exists keyword. split; assumption. }
  now rewrite E.
Qed.

Ltac keyword_in_text k :=
  apply (choose_keyword k);
  [simpl; tauto
  |first [vm_compute; reflexivity
         |rewrite lower_app; apply contains_app_l; vm_compute; reflexivity]].

Lemma raised_call_falls_back (e : exn) (fallback : string) :
  exists text : string,
    (if exn_is_timeout e then JString "AI API timeout - using fallback analysis"
     else if exn_is_connection e then
            JString ("AI API connection failed - using fallback analysis: " ++ exn_str e)
          else JString ("AI analysis failed: " ++ exn_str e)) = text /\
    DevopsInfra.choose text fallback = fallback.
Proof.
  destruct (exn_is_timeout e); [|destruct (exn_is_connection e)];
    eexists; (split; [reflexivity|]).
  - keyword_in_text "timeout".
  - keyword_in_text "connection".
  - keyword_in_text "failed".
Qed.

(** What [ai_call] returns, by the answer of the service: the value
    that the service hands over, and in every other situation a text
    with a failure keyword. *)
Lemma ai_call_cases (w : world) (context p fallback : string) :
  match service_answer w p context with
  | Some v => DevopsInfra.ai_call w context (Ok p) = v
  | None =>
      exists text : string,
        DevopsInfra.ai_call w context (Ok p) = text /\
        DevopsInfra.choose text fallback = fallback
  end.
Proof.
  unfold service_answer, DevopsInfra.ai_call. cbn [bind].
  destruct (w_requests_post w p context) as [resp|e]; cbn [bind];
    [|apply raised_call_falls_back].
  destruct (post_status_code resp =? 200).
  - destruct (post_json resp) as [j|e]; cbn [bind];
      [|apply raised_call_falls_back].
    destruct (json_in "response" j_response j) as [[|]|e] eqn:Hin; cbn [bind];
      [| |apply raised_call_falls_back].
    + destruct (json_item "response" j_response j) as [v|e]; cbn [bind];
        [reflexivity | apply raised_call_falls_back].
    + destruct (json_in "error" j_error j) as [[|]|e]; cbn [bind];
        [| reflexivity | apply raised_call_falls_back].
      destruct (json_item "error" j_error j) as [v|e]; cbn [bind];
        [|apply raised_call_falls_back].
      eexists. split; [reflexivity|]. keyword_in_text "api error".
  - destruct (post_json resp) as [j|e]; cbn [bind try_except].
    + destruct (json_get "error" j_error (JString (post_text resp)) j) as [v|e];
        cbn [bind try_except]; (eexists; split; [reflexivity|]);
        keyword_in_text "api returned status".
    + eexists. split; [reflexivity|]. keyword_in_text "api returned status".
Qed.

Lemma ai_call_no_prompt (w : world) (context fallback : string) (e : exn) :
  exists text : string,
    DevopsInfra.ai_call w context (Raise e) = text /\
    DevopsInfra.choose text fallback = fallback.
Proof.
  unfold DevopsInfra.ai_call. cbn [bind]. apply raised_call_falls_back.
Qed.

(** X4.  In devops-analyzer.py the answer of the analysis service is kept
    in exactly two situations: the service answered 200 with a JSON body
    that has the key response (the value under the key is returned), or
    one that has neither response nor error (the text is then "No AI
    response available").  In every other situation (the prompt could
    not be built, the request timed out or raised, the status is not
    200, the body is not JSON, the body has only the key error, the body
    is a list or another value that cannot be read by key) what
    [get_ai_analysis] returns is a text that carries one of the failure
    keywords, so [main] replaces it by the fallback. *)
Theorem ai_failure_shows_fallback :
  forall w context prompt fallback,
    (exists p resp j v,
        prompt = Ok p /\ w_requests_post w p context = Ok resp /\
        post_status_code resp = 200 /\ post_json resp = Ok j /\
        ((json_in "response" j_response j = Ok true /\
          json_item "response" j_response j = Ok v) \/
         (json_in "response" j_response j = Ok false /\
          json_in "error" j_error j = Ok false /\
          v = JString "No AI response available")) /\
        DevopsInfra.ai_call w context prompt = v)
    \/ exists text : string,
        DevopsInfra.ai_call w context prompt = text /\
        DevopsInfra.choose text fallback = fallback.
Proof.
  intros w context [p|e] fallback; [|right; apply ai_call_no_prompt].
  pose proof (ai_call_cases w context p fallback) as H.
  unfold service_answer in H.
  destruct (w_requests_post w p context) as [resp|e] eqn:Hpost; [|now right].
  destruct (post_status_code resp =? 200) eqn:Hs; [|now right].
  apply Z.eqb_eq in Hs.
  destruct (post_json resp) as [j|e] eqn:Hj; [|now right].
  destruct (json_in "response" j_response j) as [[|]|e] eqn:Hin; [| |now right].
  - destruct (json_item "response" j_response j) as [v|e] eqn:Hv; [|now right].
    left. exists p, resp, j, v.
    split; [reflexivity|]. split; [exact Hpost|]. split; [exact Hs|].
    split; [exact Hj|]. split; [|exact H]. left. now split.
  - destruct (json_in "error" j_error j) as [[|]|e] eqn:Hie; try (now right).
    left. exists p, resp, j, (JString "No AI response available").
    split; [reflexivity|]. split; [exact Hpost|]. split; [exact Hs|].
    split; [exact Hj|]. split; [|exact H]. right. now repeat split.
Qed.

Lemma summary_needs_tls (data : conn_data) (summary : list string) :
  connectivity_summary data = Ok summary -> ssl_info data <> None.
Proof.
  unfold connectivity_summary.
  destruct (dns_resolution data); cbn [get_get bind]; [|discriminate].
  destruct (ssl_info data); [discriminate|]. cbn [get_get bind]. discriminate.
Qed.

Lemma summary_ok (data : conn_data) :
  dns_resolution data <> None -> ssl_info data <> None -> http_status data <> None ->
  exists summary, connectivity_summary data = Ok summary.
Proof.
  intros Hd Hs Hh. unfold connectivity_summary.
  destruct (dns_resolution data); [|contradiction].
  destruct (ssl_info data); [|contradiction].
  destruct (http_status data); [|contradiction].
  cbn [get_get bind]. now eexists.
Qed.

(** The probe and the prompt make no request to the analysis service. *)
Lemma probe_ignores_service urlparse (w : world)
      (post : string -> string -> result post_response) (u : string) :
  analyze_url_connectivity urlparse (with_requests_post w post) u
  = analyze_url_connectivity urlparse w u.
Proof. reflexivity. Qed.

Lemma no_tls_no_prompt (r : conn_data) (question : option string) :
  dns_resolution r <> None -> ssl_info r = None ->
  DevopsAnalyzer._create_url_prompt r question = Raise AttributeError_get.
Proof.
  intros Hd Hs. unfold DevopsAnalyzer._create_url_prompt, connectivity_summary.
  destruct (dns_resolution r); [|contradiction]. now rewrite Hs.
Qed.

(** The [url] command after the probe, by what the AI path returns. *)
Lemma main_url_by_answer urlparse (w : world) (now : string) (args : url_args)
      (r : conn_data) :
  analyze_url_connectivity urlparse w (arg_url args) = Ok (Probed r) ->
  let fallback :=
    DevopsAnalyzer.generate_fallback_analysis urlparse now r (arg_question args) in
  DevopsAnalyzer.main_url urlparse w now args
  = if arg_no_ai args then Ok (mkRun (Some fallback) 0)
    else
      match DevopsInfra.ai_call w "url-analysis"
              (DevopsAnalyzer._create_url_prompt r (arg_question args)) with
      | JString text => Ok (mkRun (Some (DevopsInfra.choose text fallback)) 0)
      | JOther _ _ _ => Ok (mkRun None 1)
      end.
Proof.
  intros H fallback. destruct (probed_outcomes_set _ _ _ _ H) as (Hd & _).
  unfold DevopsAnalyzer.main_url. rewrite H. cbn [bind].
  unfold DevopsAnalyzer.basic_results.
  destruct (dns_resolution r) as [d|]; [|contradiction].
  cbn [get_get bind]. rewrite ai_call_url.
  destruct (arg_no_ai args); [reflexivity|].
  destruct (DevopsInfra.ai_call _ _ _); reflexivity.
Qed.

(** X5.  The [url] command of devops-analyzer.py, once the probe has
    returned the full record.  With --no-ai, and for every record without
    TLS outcome (a plain http target), it shows the fallback for the
    record and the question and returns 0, whatever the analysis service
    would answer: the service is not asked.  Otherwise the prompt can be
    built, and the outcome follows the one request to the service: a 200
    answer that hands over a text free of failure keywords is shown (exit
    code 0); a text with a failure keyword, and every other outcome of
    the request, gives the fallback (exit code 0); a 200 answer whose
    response value is not a string makes [main] fail in the keyword test
    and return 1. *)
Theorem devops_main_url_outcome :
  forall urlparse w now args r,
    analyze_url_connectivity urlparse w (arg_url args) = Ok (Probed r) ->
    let fallback :=
      DevopsAnalyzer.generate_fallback_analysis urlparse now r (arg_question args) in
    (arg_no_ai args = true \/ ssl_info r = None ->
     forall post,
       DevopsAnalyzer.main_url urlparse (with_requests_post w post) now args
       = Ok (mkRun (Some fallback) 0)) /\
    (arg_no_ai args = false -> ssl_info r <> None ->
     exists prompt,
       DevopsAnalyzer._create_url_prompt r (arg_question args) = Ok prompt /\
       DevopsAnalyzer.main_url urlparse w now args
       = match service_answer w prompt "url-analysis" with
         | Some (JString text) =>
             Ok (mkRun (Some (if existsb (fun keyword => contains keyword (lower text))
                                         DevopsAnalyzer.failure_keywords
                              then fallback else text)) 0)
         | Some (JOther _ _ _) => Ok (mkRun None 1)
         | None => Ok (mkRun (Some fallback) 0)
         end).
Proof.
  intros urlparse w now args r H fallback.
  destruct (probed_outcomes_set _ _ _ _ H) as (Hd & _ & Hh).
  split.
  - intros Hcase post.
    rewrite (main_url_by_answer urlparse (with_requests_post w post) now args r)
      by (rewrite probe_ignores_service; exact H).
    fold fallback. destruct (arg_no_ai args) eqn:Hno; [reflexivity|].
    destruct Hcase as [Hcase|Hs]; [discriminate Hcase|].
    rewrite (no_tls_no_prompt r _ Hd Hs).
    destruct (ai_call_no_prompt (with_requests_post w post) "url-analysis"
                                fallback AttributeError_get) as (text & -> & ->).
    reflexivity.
  - intros Hno Hs.
    destruct (summary_ok r Hd Hs Hh) as [summary Hsum].
    assert (Hp : exists prompt,
               DevopsAnalyzer._create_url_prompt r (arg_question args) = Ok prompt).
    { unfold DevopsAnalyzer._create_url_prompt. rewrite Hsum. cbn [bind].
      destruct (truthy_question (arg_question args)); eexists; reflexivity. }
    destruct Hp as [prompt Hp]. exists prompt. split; [exact Hp|].
    rewrite (main_url_by_answer urlparse w now args r H). fold fallback.
    rewrite Hno, Hp.
    pose proof (ai_call_cases w "url-analysis" prompt fallback) as Hc.
    destruct (service_answer w prompt "url-analysis") as [v|].
    + rewrite Hc. destruct v; reflexivity.
    + destruct Hc as (text & -> & ->). reflexivity.
Qed.

Lemma devops_main_url_outcome_witness :
  DevopsAnalyzer.main_url example_urlparse world_up clock_1
                          (mkArgs "http://example.com" None false)
  = Ok (mkRun (Some (DevopsAnalyzer.generate_fallback_analysis
                       example_urlparse clock_1 http_record None)) 0) /\
  DevopsAnalyzer.main_url example_urlparse world_up clock_1
                          (mkArgs "https://example.com" None false)
  = Ok (mkRun (Some "The endpoint is healthy.") 0) /\
  DevopsAnalyzer.main_url example_urlparse world_ai_500 clock_1
                          (mkArgs "https://example.com" None false)
  = Ok (mkRun (Some (DevopsAnalyzer.generate_fallback_analysis
                       example_urlparse clock_1 (https_record (120 # 1)) None)) 0) /\
  DevopsAnalyzer.main_url example_urlparse world_ai_number clock_1
                          (mkArgs "https://example.com" None false)
  = Ok (mkRun None 1).
Proof.
  split; [|split; [|split]].
  - apply (proj1 (devops_main_url_outcome example_urlparse world_up clock_1
                    (mkArgs "http://example.com" None false) http_record eq_refl)
                 (or_intror eq_refl) (w_requests_post world_up)).
  - destruct (proj2 (devops_main_url_outcome example_urlparse world_up clock_1
                       (mkArgs "https://example.com" None false)
                       (https_record (120 # 1)) eq_refl) eq_refl)
      as (prompt & Hp & Hmain); [discriminate|].
    rewrite Hmain. apply Ok_inj in Hp. subst prompt. vm_compute. reflexivity.
  - destruct (proj2 (devops_main_url_outcome example_urlparse world_ai_500 clock_1
                       (mkArgs "https://example.com" None false)
                       (https_record (120 # 1)) eq_refl) eq_refl)
      as (prompt & Hp & Hmain); [discriminate|].
    rewrite Hmain. apply Ok_inj in Hp. subst prompt. vm_compute. reflexivity.
  - destruct (proj2 (devops_main_url_outcome example_urlparse world_ai_number clock_1
                       (mkArgs "https://example.com" None false)
                       (https_record (120 # 1)) eq_refl) eq_refl)
      as (prompt & Hp & Hmain); [discriminate|].
    rewrite Hmain. apply Ok_inj in Hp. subst prompt. vm_compute. reflexivity.
Defined.

(** ** The answers to a question *)

Lemma rstrip_head (c : ascii) (b : string) :
  starts_space c = false -> exists t, rstrip (String c b) = String c t.
Proof.
  intros Hc. cbn [rstrip]. rewrite (lstrip_plain c b Hc). now eexists.
Qed.

Lemma strip_head (c : ascii) (b : string) :
  starts_space c = false -> exists t, strip (String c b) = String c t.
Proof.
  intros Hc. unfold strip. destruct (rstrip_head c b Hc) as [t ->].
  exists t. now apply lstrip_plain.
Qed.

(** X6.  [_generate_answer_only] never returns the empty text and never
    returns its sentence for an empty answer ("I couldn't provide a
    specific answer ..."): every branch of the question chain produces a
    text, and a caught exception produces "Error generating answer: ...". *)
Theorem answer_is_never_the_default :
  forall urlparse data question,
    DevopsAnalyzer._generate_answer_only urlparse data question <> EmptyString /\
    DevopsAnalyzer._generate_answer_only urlparse data question <> no_answer_sentence /\
    ((exists e,
         DevopsAnalyzer.answer_body urlparse data question = Raise e /\
         DevopsAnalyzer._generate_answer_only urlparse data question
         = "Error generating answer: " ++ exn_str e)
     \/ exists answer,
         DevopsAnalyzer.answer_body urlparse data question = Ok answer /\
         DevopsAnalyzer._generate_answer_only urlparse data question = strip answer).
Proof.
  intros urlparse data question.
  unfold DevopsAnalyzer._generate_answer_only.
  destruct (DevopsAnalyzer.answer_body urlparse data question) as [answer|e] eqn:Hb.
  - assert (Ho : opens_well answer).
    { rewrite answer_body_first_match in Hb.
      destruct (classify question); cbn [bucket_answer] in Hb.
      - apply Ok_inj in Hb. subst. apply answer_availability_opens.
      - apply Ok_inj in Hb. subst. apply answer_performance_opens.
      - apply Ok_inj in Hb. subst. apply answer_security_opens.
      - apply Ok_inj in Hb. subst. apply answer_errors_opens.
      - destruct (DevopsAnalyzer.domain_of urlparse data) as [domain|e];
          cbn [bind] in Hb; [|discriminate Hb].
        apply Ok_inj in Hb. subst. apply answer_identity_opens.
      - destruct (DevopsAnalyzer.domain_of urlparse data) as [domain|e];
          cbn [bind] in Hb; [|discriminate Hb].
        exact (answer_general_opens domain data answer Hb). }
    destruct Ho as (c & b & -> & Hc & HI).
    destruct (strip_head c b Hc) as [t Ht].
    cbn [truthy_str String.eqb negb]. rewrite Ht.
    split; [discriminate|]. split.
    + unfold no_answer_sentence. intros Heq. injection Heq as Heq _. contradiction.
    + right. exists (String c b). split; [reflexivity | symmetry; exact Ht].
  - split; [discriminate|]. split; [discriminate|].
    left. exists e. split; reflexivity.
Qed.

(** X7.  A question that falls in no bucket, asked about a record whose
    HTTP request raised (no response time), is answered with the text of
    the caught AttributeError instead of the general answer. *)
Theorem general_answer_fails_without_latency :
  forall urlparse data question domain,
    classify question = General ->
    DevopsAnalyzer.domain_of urlparse data = Ok domain ->
    http_status data <> None ->
    response_time data = None ->
    DevopsAnalyzer._generate_answer_only urlparse data question
    = "Error generating answer: 'NoneType' object has no attribute 'get'".
Proof.
  intros urlparse data question domain Hc Hd Hh Hr.
  unfold DevopsAnalyzer._generate_answer_only.
  rewrite answer_body_first_match, Hc. cbn [bucket_answer]. rewrite Hd. cbn [bind].
  unfold DevopsAnalyzer.answer_general.
  destruct (http_status data); [|contradiction]. cbn [get_get bind].
  rewrite Hr. reflexivity.
Qed.

Lemma general_answer_fails_without_latency_witness :
  exists r,
    analyze_url_connectivity example_urlparse world_down "https://example.com"
    = Ok (Probed r) /\
    DevopsAnalyzer._generate_answer_only example_urlparse r "tell me more"
    = "Error generating answer: 'NoneType' object has no attribute 'get'".
Proof.
  eexists. split; [vm_compute; reflexivity|].
  apply (general_answer_fails_without_latency example_urlparse _ "tell me more"
                                              "example.com");
    [reflexivity | reflexivity | discriminate | reflexivity].
Defined.

(** X8.  The answers quote a bounded part of the errors list: the answer
    of the errors bucket depends only on its first five entries, and the
    answer of the availability bucket only on its first two. *)
Theorem answers_quote_first_errors :
  forall data errs,
    DevopsAnalyzer.answer_errors (with_errors data errs)
    = DevopsAnalyzer.answer_errors (with_errors data (firstn 5 errs)) /\
    DevopsAnalyzer.answer_availability (with_errors data errs)
    = DevopsAnalyzer.answer_availability (with_errors data (firstn 2 errs)).
Proof.
  intros data errs.
  unfold DevopsAnalyzer.answer_errors, DevopsAnalyzer.answer_availability,
    DevopsAnalyzer.response_time_ms_of, with_errors.
  cbn [errors http_status ssl_info response_time].
  rewrite !firstn_firstn. cbn [Nat.min].
  destruct errs as [|e errs]; split; reflexivity.
Qed.

(** ** analyze_url.py: when the report and [main] raise *)

(** When the report of analyze_url.py can be written. *)
Lemma analyze_url_report_cases :
  forall now u question data,
    dns_resolution data <> None -> http_status data <> None ->
    (ssl_info data = None \/
     (asks_improvement question = true /\ response_time data = None) ->
     AnalyzeUrl.generate_fallback_analysis now u question data
     = Raise AttributeError_get) /\
    (ssl_info data <> None ->
     (asks_improvement question = true -> response_time data <> None) ->
     exists text,
       AnalyzeUrl.generate_fallback_analysis now u question data = Ok text).
Proof.
  intros now u question data Hd Hh.
  unfold AnalyzeUrl.generate_fallback_analysis.
  destruct (ssl_info data) as [s|] eqn:Hs.
  - assert (Hs' : ssl_info data <> None) by (rewrite Hs; discriminate).
    destruct (checklist_ok data Hd Hs' Hh) as [checks Hc].
    rewrite Hc. cbn [bind].
    unfold asks_improvement.
    destruct question as [q|]; [destruct (truthy_str q)|]; cbn [andb].
    + unfold AnalyzeUrl.question_section.
      destruct (contains "improve" (lower q) || contains "optimiz" (lower q)).
      * destruct (response_time data) as [ms|]; cbn [get_get bind].
        -- split; [intros [H|[_ H]]; discriminate H | intros _ _; now eexists].
        -- split; [reflexivity | intros _ H; now contradiction (H eq_refl)].
      * split; [intros [H|[H _]]; discriminate H|]. intros _ _.
        destruct (contains "slow" (lower q) || contains "performance" (lower q));
          [cbn [bind]; now eexists|].
        destruct (contains "secure" (lower q) || contains "security" (lower q));
          [rewrite Hs|]; cbn [get_get bind]; now eexists.
    + split; [intros [H|[H _]]; discriminate H | intros _ _; cbn [bind]; now eexists].
    + split; [intros [H|[H _]]; discriminate H | intros _ _; cbn [bind]; now eexists].
  - rewrite (checklist_raises data Hs Hd). cbn [bind].
    split; [reflexivity | intros H; now contradiction H].
Qed.

(** X9.  For a record whose DNS and HTTP outcomes are set, the fallback
    report of analyze_url.py raises AttributeError in exactly two
    situations: the record has no TLS outcome (plain http), or the
    question asks for improvements ("improve", "optimiz") and the record
    has no response time (the HTTP request raised).  In every other
    situation the report is returned. *)
Theorem analyze_url_report_raises_iff :
  forall now u question data,
    dns_resolution data <> None -> http_status data <> None ->
    (ssl_info data = None \/
     (asks_improvement question = true /\ response_time data = None) ->
     AnalyzeUrl.generate_fallback_analysis now u question data
     = Raise AttributeError_get) /\
    (ssl_info data <> None ->
     (asks_improvement question = true -> response_time data <> None) ->
     exists text,
       AnalyzeUrl.generate_fallback_analysis now u question data = Ok text).
Proof.
  exact analyze_url_report_cases.
Qed.

Lemma analyze_url_report_raises_iff_witness :
  exists r,
    analyze_url_connectivity example_urlparse world_down "https://example.com"
    = Ok (Probed r) /\
    AnalyzeUrl.generate_fallback_analysis clock_1 "https://example.com"
                                          (Some "How can I improve this?") r
    = Raise AttributeError_get /\
    exists text,
      AnalyzeUrl.generate_fallback_analysis clock_1 "https://example.com"
                                            (Some "Is this secure?") r = Ok text.
Proof.
  eexists. split; [vm_compute; reflexivity|].
  split.
  - refine (proj1 (analyze_url_report_raises_iff clock_1 "https://example.com"
                     (Some "How can I improve this?") _ _ _) _);
      [discriminate | discriminate | right; split; reflexivity].
  - refine (proj2 (analyze_url_report_raises_iff clock_1 "https://example.com"
                     (Some "Is this secure?") _ _ _) _ _);
      [discriminate | discriminate | discriminate | intros H; discriminate H].
Defined.

Lemma analyze_url_basic_results (data : conn_data) :
  dns_resolution data <> None -> http_status data <> None ->
  (ssl_info data = None -> AnalyzeUrl.basic_results data = Raise AttributeError_get) /\
  (ssl_info data <> None -> exists shown, AnalyzeUrl.basic_results data = Ok shown).
Proof.
  intros Hd Hh. unfold AnalyzeUrl.basic_results.
  destruct (dns_resolution data); [|contradiction].
  destruct (http_status data); [|contradiction].
  destruct (ssl_info data); cbn [get_get bind]; split; intros H;
    try discriminate; try (now contradiction H); try reflexivity; now eexists.
Qed.

(** X10.  The outcome of [main] of analyze_url.py on a URL that parses
    (after "https://" is put in front of a URL without scheme).  For
    every scheme other than https, [main] raises AttributeError while it
    prints the basic results, whatever the probes found, so the process
    ends with a traceback.  For https and no question, [main] returns
    after showing an analysis, with exit code 1 when the errors list of
    the record is not empty and 0 when it is. *)
Theorem analyze_url_main_outcome :
  forall urlparse w now args parsed po,
    let u := with_scheme (arg_url args) in
    urlparse u = Ok parsed -> p_port parsed = Ok po ->
    (p_scheme parsed <> "https" ->
     AnalyzeUrl.main urlparse w now args = Raise AttributeError_get) /\
    (p_scheme parsed = "https" -> truthy_question (arg_question args) = false ->
     exists r text,
       analyze_url_connectivity urlparse w u = Ok (Probed r) /\
       AnalyzeUrl.main urlparse w now args
       = Ok (mkRun (Some text) (if truthy_list (errors r) then 1 else 0))).
Proof.
  intros urlparse w now args parsed po u Hparse Hport.
  destruct (probe_fields urlparse w u parsed po Hparse Hport)
    as (r & Hr & _ & _ & _ & _ & Hdns & _ & Hssl & Hhttp & _).
  assert (Hd : dns_resolution r <> None) by (rewrite Hdns; discriminate).
  assert (Hh : http_status r <> None) by (rewrite Hhttp; discriminate).
  destruct (analyze_url_basic_results r Hd Hh) as [Hb1 Hb2].
  unfold AnalyzeUrl.main. fold (with_scheme (arg_url args)). fold u.
  rewrite Hr. cbn [bind].
  split.
  - intros Hs.
    destruct (String.eqb_spec (p_scheme parsed) "https"); [contradiction|].
    now rewrite (Hb1 Hssl).
  - intros Hs Hq. rewrite Hs in Hssl. cbn [String.eqb Ascii.eqb Bool.eqb] in Hssl.
    assert (Hs' : ssl_info r <> None) by (rewrite Hssl; discriminate).
    destruct (Hb2 Hs') as [shown Hshown]. rewrite Hshown. cbn [bind].
    assert (Hfb : exists text,
               AnalyzeUrl.generate_fallback_analysis now u (arg_question args) r
               = Ok text).
    { apply (proj2 (analyze_url_report_cases now u (arg_question args) r Hd Hh) Hs').
      unfold asks_improvement. destruct (arg_question args) as [q|]; [|discriminate].
      simpl in Hq. rewrite Hq. discriminate. }
    destruct Hfb as [fb Hfb].
    exists r. rewrite Hfb.
    destruct (arg_no_ai args); cbn [bind try_except].
    + now exists fb.
    + destruct (AnalyzeUrl.get_ai_analysis w u (arg_question args) r)
        as [text|type_name text truthy]; cbn [on_text];
        [destruct (AnalyzeUrl.looks_failed text)|]; cbn [bind try_except]; eexists;
        (split; [reflexivity|]); reflexivity.
Qed.

Lemma analyze_url_main_outcome_witness :
  AnalyzeUrl.main example_urlparse world_down clock_1
                  (mkArgs "http://example.com" None true)
  = Raise AttributeError_get.
Proof.
  refine (proj1 (analyze_url_main_outcome example_urlparse world_down clock_1
                   (mkArgs "http://example.com" None true)
                   (mkParsed "http" (Some "example.com") (Ok None)) None
                   eq_refl eq_refl) _).
  discriminate.
Defined.

(** ** devops-analyzer.py: service names, health and deployment checks *)

Lemma split_slash_nonempty (s : string) : DevopsInfra.split_slash s <> [].
Proof.
  destruct s as [|c s]; simpl; [discriminate|].
  destruct (DevopsInfra.split_slash s); [discriminate|].
  destruct (Ascii.eqb c "/"); discriminate.
Qed.

Lemma split_slash_app (a b : string) :
  DevopsInfra.split_slash (a ++ "/" ++ b)
  = (DevopsInfra.split_slash a ++ DevopsInfra.split_slash b)%list.
Proof.
  induction a as [|c a IH].
  - simpl. destruct (DevopsInfra.split_slash b) eqn:E; [|reflexivity].
    now contradiction (split_slash_nonempty b).
  - change (String c a ++ "/" ++ b) with (String c (a ++ "/" ++ b)).
    cbn [DevopsInfra.split_slash]. rewrite IH.
    destruct (DevopsInfra.split_slash a) as [|seg rest] eqn:E;
      [now contradiction (split_slash_nonempty a)|].
    cbn [app]. destruct (Ascii.eqb c "/"); reflexivity.
Qed.

Lemma split_slash_plain (s : string) :
  contains "/" s = false -> DevopsInfra.split_slash s = [s].
Proof.
  induction s as [|c s IH]; [reflexivity|].
  cbn [contains String.prefix]. intros H. apply orb_false_iff in H.
  destruct H as [H1 H2]. cbn [DevopsInfra.split_slash]. rewrite (IH H2).
  destruct (Ascii.eqb_spec c "/") as [->|_]; [|reflexivity].
  destruct s; discriminate H1.
Qed.

Lemma last_no_slash (l : list string) :
  l <> [] -> Forall (fun seg => contains "/" seg = false) l ->
  contains "/" (last l EmptyString) = false.
Proof.
  induction l as [|x l IH]; [congruence|]. intros _ Hf.
  inversion Hf as [|? ? Hx Hl]; subst.
  destruct l as [|y l]; [exact Hx|].
  apply IH; [discriminate | exact Hl].
Qed.

Lemma split_slash_segments (s : string) :
  Forall (fun seg => contains "/" seg = false) (DevopsInfra.split_slash s).
Proof.
  induction s as [|c s IH]; [repeat constructor|].
  cbn [DevopsInfra.split_slash].
  destruct (DevopsInfra.split_slash s) as [|seg rest]; [repeat constructor|].
  inversion IH as [|? ? Hseg Hrest]; subst.
  destruct (Ascii.eqb_spec c "/") as [->|Hne].
  - constructor; [reflexivity | now constructor].
  - constructor; [|exact Hrest].
    cbn [contains String.prefix]. rewrite Hseg.
    destruct (ascii_dec "/" c) as [E|_]; [now contradiction Hne | reflexivity].
Qed.

(** The last element of [split_slash]. *)
Lemma last_segment_facts :
  (forall s, contains "/" (DevopsInfra.last_segment s) = false) /\
  (forall name, contains "/" name = false -> DevopsInfra.last_segment name = name) /\
  (forall pre name,
      contains "/" name = false ->
      DevopsInfra.last_segment (pre ++ "/" ++ name) = name).
Proof.
  unfold DevopsInfra.last_segment. split; [|split].
  - intros s. apply last_no_slash;
      [apply split_slash_nonempty | apply split_slash_segments].
  - intros name H. now rewrite (split_slash_plain name H).
  - intros pre name H. rewrite split_slash_app, (split_slash_plain name H).
    apply last_last.
Qed.

(** X11.  The service name taken from an ARN ([split('/')[-1]]) is the
    text after the last slash: it never contains a slash, a text without
    slash is its own name, and whatever precedes the last slash is
    dropped. *)
Theorem last_segment_is_text_after_last_slash :
  (forall s, contains "/" (DevopsInfra.last_segment s) = false) /\
  (forall name, contains "/" name = false -> DevopsInfra.last_segment name = name) /\
  (forall pre name,
      contains "/" name = false ->
      DevopsInfra.last_segment (pre ++ "/" ++ name) = name).
Proof.
  exact last_segment_facts.
Qed.

Lemma last_segment_is_text_after_last_slash_witness :
  DevopsInfra.last_segment "arn:aws:ecs:us-east-1:123456789012:service/prod/api" = "api".
Proof.
  exact (proj2 (proj2 last_segment_is_text_after_last_slash)
               "arn:aws:ecs:us-east-1:123456789012:service/prod" "api" eq_refl).
Defined.





Lemma filter_nil_iff {A} (f : A -> bool) (l : list A) :
  filter f l = [] <-> Forall (fun x => f x = false) l.
Proof.
  induction l as [|x l IH]; simpl.
  - split; [constructor | reflexivity].
  - destruct (f x) eqn:E; split; intros H.
    + discriminate H.
    + inversion H; congruence.
    + constructor; [exact E | now apply IH].
    + inversion H; subst. now apply IH.
Qed.

Lemma filter_all_iff {A} (f : A -> bool) (l : list A) :
  length (filter f l) = length l <-> Forall (fun x => f x = true) l.
Proof.
  induction l as [|x l IH]; simpl.
  - split; [constructor | reflexivity].
  - pose proof (filter_length_le f l) as Hle.
    destruct (f x) eqn:E; simpl; split; intros H.
    + constructor; [exact E | apply IH; lia].
    + inversion H; subst. f_equal. now apply IH.
    + lia.
    + inversion H; congruence.
Qed.

(** The result of the pre-deployment check, by the health data. *)
Lemma pre_deployment_check_cases :
  forall a now c service,
    match DevopsInfra.analyze_health a now c service with
    | DevopsInfra.HealthError error =>
        DevopsInfra.pre_deployment_check a now c service
        = DevopsInfra.DeploymentError error
    | DevopsInfra.Health cluster items t =>
        exists status recommendation,
          DevopsInfra.pre_deployment_check a now c service
          = DevopsInfra.PreCheck status
              (filter (fun i => negb (DevopsInfra.h_healthy i)) items)
              recommendation (DevopsInfra.Health cluster items t) /\
          (Forall (fun i => DevopsInfra.h_healthy i = true) items ->
           status = "ready" /\ recommendation = "Safe to deploy") /\
          (~ Forall (fun i => DevopsInfra.h_healthy i = true) items ->
           status = "not_ready" /\
           recommendation = "Fix unhealthy services before deployment")
    end.
Proof.
  intros a now c service. unfold DevopsInfra.pre_deployment_check.
  destruct (DevopsInfra.analyze_health a now c service) as [cluster items t|error];
    [|reflexivity].
  eexists _, _. split; [reflexivity|].
  destruct (filter (fun i => negb (DevopsInfra.h_healthy i)) items) as [|u us] eqn:E;
    cbn [truthy_list negb].
  - split; [now split|]. intros Hn. exfalso. apply Hn.
    apply filter_nil_iff in E. eapply Forall_impl; [|exact E].
    intros i Hi. cbv beta in Hi. now apply negb_false_iff in Hi.
  - split; [|now split]. intros Hall. exfalso.
    assert (Hnil : filter (fun i => negb (DevopsInfra.h_healthy i)) items = []).
    { apply filter_nil_iff. eapply Forall_impl; [|exact Hall].
      intros i Hi. cbv beta in Hi. cbv beta. now rewrite Hi. }
    congruence.
Qed.

(** X13.  The pre-deployment check passes the error of [analyze_health]
    on unchanged.  Otherwise its status is "ready" exactly when every
    service is healthy and "not_ready" otherwise, and it lists exactly
    the unhealthy services, in order; a cluster without services is
    "ready". *)
Theorem pre_check_ready_iff_all_healthy :
  forall a now c service,
    match DevopsInfra.analyze_health a now c service with
    | DevopsInfra.HealthError error =>
        DevopsInfra.pre_deployment_check a now c service
        = DevopsInfra.DeploymentError error
    | DevopsInfra.Health cluster items t =>
        exists status recommendation,
          DevopsInfra.pre_deployment_check a now c service
          = DevopsInfra.PreCheck status
              (filter (fun i => negb (DevopsInfra.h_healthy i)) items)
              recommendation (DevopsInfra.Health cluster items t) /\
          (Forall (fun i => DevopsInfra.h_healthy i = true) items ->
           status = "ready" /\ recommendation = "Safe to deploy") /\
          (~ Forall (fun i => DevopsInfra.h_healthy i = true) items ->
           status = "not_ready" /\
           recommendation = "Fix unhealthy services before deployment")
    end.
Proof.
  exact pre_deployment_check_cases.
Qed.

(** The result of the post-deployment check, by the health data. *)
Lemma post_deployment_check_cases :
  forall a now c service,
    match DevopsInfra.analyze_health a now c service with
    | DevopsInfra.HealthError error =>
        DevopsInfra.post_deployment_check a now c service
        = DevopsInfra.DeploymentError error
    | DevopsInfra.Health cluster [] t =>
        DevopsInfra.post_deployment_check a now c service
        = DevopsInfra.DeploymentError "division by zero" /\
        exists unhealthy recommendation,
          DevopsInfra.pre_deployment_check a now c service
          = DevopsInfra.PreCheck "ready" unhealthy recommendation
                                 (DevopsInfra.Health cluster [] t)
    | DevopsInfra.Health cluster items t =>
        exists status recommendation healthy,
          DevopsInfra.post_deployment_check a now c service
          = DevopsInfra.PostCheck status healthy (length items) recommendation
                                  (DevopsInfra.Health cluster items t) /\
          healthy = length (filter DevopsInfra.h_healthy items) /\
          (healthy <= length items)%nat /\
          (Forall (fun i => DevopsInfra.h_healthy i = true) items ->
           status = "success" /\ recommendation = "Deployment successful") /\
          (~ Forall (fun i => DevopsInfra.h_healthy i = true) items ->
           status = "partial" /\ recommendation = "Some services may need attention")
    end.
Proof.
  intros a now c service.
  unfold DevopsInfra.post_deployment_check, DevopsInfra.pre_deployment_check.
  destruct (DevopsInfra.analyze_health a now c service) as [cluster items t|error];
    [|reflexivity].
  destruct items as [|i items].
  - split; [reflexivity|]. now eexists _, _.
  - set (l := i :: items).
    cbn [DevopsInfra.health_percentage_check length bind].
    change (S (length items)) with (length l).
    eexists _, _, _. split; [reflexivity|]. split; [reflexivity|].
    split; [apply filter_length_le|].
    destruct (Nat.eqb_spec (length (filter (fun s => DevopsInfra.h_healthy s) l))
                           (length l)) as [E|E].
    + split; [now split|]. intros Hn. exfalso. apply Hn.
      now apply filter_all_iff.
    + split; [|now split]. intros Hall. exfalso. apply E.
      now apply filter_all_iff.
Qed.

(** X14.  The post-deployment check passes the error of [analyze_health]
    on unchanged, and for a cluster without services it returns the error
    "division by zero" (where the pre-deployment check says "ready").
    With at least one service its status is "success" exactly when every
    service is healthy and "partial" otherwise; it counts the healthy
    services, never more than the total. *)
Theorem post_check_success_iff_all_healthy :
  forall a now c service,
    match DevopsInfra.analyze_health a now c service with
    | DevopsInfra.HealthError error =>
        DevopsInfra.post_deployment_check a now c service
        = DevopsInfra.DeploymentError error
    | DevopsInfra.Health cluster [] t =>
        DevopsInfra.post_deployment_check a now c service
        = DevopsInfra.DeploymentError "division by zero" /\
        exists unhealthy recommendation,
          DevopsInfra.pre_deployment_check a now c service
          = DevopsInfra.PreCheck "ready" unhealthy recommendation
                                 (DevopsInfra.Health cluster [] t)
    | DevopsInfra.Health cluster items t =>
        exists status recommendation healthy,
          DevopsInfra.post_deployment_check a now c service
          = DevopsInfra.PostCheck status healthy (length items) recommendation
                                  (DevopsInfra.Health cluster items t) /\
          healthy = length (filter DevopsInfra.h_healthy items) /\
          (healthy <= length items)%nat /\
          (Forall (fun i => DevopsInfra.h_healthy i = true) items ->
           status = "success" /\ recommendation = "Deployment successful") /\
          (~ Forall (fun i => DevopsInfra.h_healthy i = true) items ->
           status = "partial" /\ recommendation = "Some services may need attention")
    end.
Proof.
  exact post_deployment_check_cases.
Qed.

(** The keyword test of [main] on what [ai_call] returns, by the answer
    of the service. *)
Lemma keyword_test_cases (w : world) (context p fallback : string) :
  on_text (DevopsInfra.ai_call w context (Ok p))
          (fun ai_text => Ok (DevopsInfra.choose ai_text fallback))
  = match service_answer w p context with
    | Some (JString text) => Ok (DevopsInfra.choose text fallback)
    | Some (JOther type_name _ _) => Raise (AttributeError type_name "lower")
    | None => Ok fallback
    end.
Proof.
  pose proof (ai_call_cases w context p fallback) as Hc.
  destruct (service_answer w p context) as [v|].
  - rewrite Hc. destruct v; reflexivity.
  - destruct Hc as (text & -> & Hf). cbn [on_text]. now rewrite Hf.
Qed.

(** X15.  The command [deploy] of devops-analyzer.py.  When the check
    returned an error dictionary (the health data could not be gathered,
    or the post-check divided by zero) it returns 1.  Otherwise, also
    when the status is "not_ready" or "partial": with --no-ai it shows
    the deployment fallback and returns 0; with the AI enabled a 200
    answer that hands over a text free of failure keywords is shown (exit
    code 0), a text with a failure keyword and every other outcome of the
    request give the fallback (exit code 0), and a 200 answer whose
    response value is not a string makes [main] fail in the keyword test
    and return 1. *)
Theorem main_deploy_outcome :
  forall a w utc_now now args,
    let data :=
      match DevopsInfra.da_action args with
      | DevopsInfra.ActionPreCheck =>
          DevopsInfra.pre_deployment_check a utc_now (DevopsInfra.da_cluster args)
                                           (DevopsInfra.da_service args)
      | DevopsInfra.ActionPostCheck =>
          DevopsInfra.post_deployment_check a utc_now (DevopsInfra.da_cluster args)
                                            (DevopsInfra.da_service args)
      end in
    let fallback := DevopsInfra._generate_deployment_fallback now data in
    let run := DevopsInfra.main_deploy a w utc_now now args in
    (DevopsInfra.deployment_has_error data = true -> run = Ok (mkRun None 1)) /\
    (DevopsInfra.deployment_has_error data = false ->
     (DevopsInfra.da_no_ai args = true -> run = Ok (mkRun (Some fallback) 0)) /\
     (DevopsInfra.da_no_ai args = false ->
      run = match service_answer w (DevopsInfra._create_deployment_prompt data)
                                 "deployment-analysis" with
            | Some (JString text) =>
                Ok (mkRun (Some (if existsb (fun keyword => contains keyword (lower text))
                                            DevopsAnalyzer.failure_keywords
                                 then fallback else text)) 0)
            | Some (JOther _ _ _) => Ok (mkRun None 1)
            | None => Ok (mkRun (Some fallback) 0)
            end)).
Proof.
  intros a w utc_now now args data fallback run. subst run.
  unfold DevopsInfra.main_deploy. fold data. fold fallback.
  split; intros He; rewrite He; cbn [try_except]; [reflexivity|].
  split; intros Hno; rewrite Hno; [reflexivity|].
  rewrite keyword_test_cases.
  destruct (service_answer w _ _) as [[text|type_name text truthy]|]; reflexivity.
Qed.

Lemma main_deploy_outcome_witness :
  let pre := DevopsInfra.mkDeployArgs DevopsInfra.ActionPreCheck "prod" None false in
  let fallback :=
    DevopsInfra._generate_deployment_fallback
      clock_2 (DevopsInfra.pre_deployment_check example_aws clock_1 "prod" None) in
  DevopsInfra.deployment_status
    (DevopsInfra.pre_deployment_check example_aws clock_1 "prod" None) = "not_ready" /\
  DevopsInfra.main_deploy example_aws world_up clock_1 clock_2 pre
  = Ok (mkRun (Some "The endpoint is healthy.") 0) /\
  DevopsInfra.main_deploy example_aws world_down clock_1 clock_2 pre
  = Ok (mkRun (Some fallback) 0) /\
  DevopsInfra.main_deploy example_aws world_ai_number clock_1 clock_2 pre
  = Ok (mkRun None 1) /\
  DevopsInfra.main_deploy empty_aws world_down clock_1 clock_2
    (DevopsInfra.mkDeployArgs DevopsInfra.ActionPostCheck "prod" None false)
  = Ok (mkRun None 1).
Proof.
  cbv zeta. split; [reflexivity|]. split; [|split; [|split]].
  - rewrite (proj2 (proj2 (main_deploy_outcome example_aws world_up clock_1 clock_2
                             (DevopsInfra.mkDeployArgs DevopsInfra.ActionPreCheck "prod"
                                                       None false)) eq_refl) eq_refl).
    vm_compute. reflexivity.
  - rewrite (proj2 (proj2 (main_deploy_outcome example_aws world_down clock_1 clock_2
                             (DevopsInfra.mkDeployArgs DevopsInfra.ActionPreCheck "prod"
                                                       None false)) eq_refl) eq_refl).
    reflexivity.
  - rewrite (proj2 (proj2 (main_deploy_outcome example_aws world_ai_number clock_1 clock_2
                             (DevopsInfra.mkDeployArgs DevopsInfra.ActionPreCheck "prod"
                                                       None false)) eq_refl) eq_refl).
    reflexivity.
  - exact (proj1 (main_deploy_outcome empty_aws world_down clock_1 clock_2
                    (DevopsInfra.mkDeployArgs DevopsInfra.ActionPostCheck "prod"
                                              None false)) eq_refl).
Defined.

Lemma pre_check_ready_iff_all_healthy_witness :
  DevopsInfra.deployment_status
    (DevopsInfra.pre_deployment_check example_aws clock_1 "prod" None) = "not_ready" /\
  DevopsInfra.deployment_status
    (DevopsInfra.pre_deployment_check empty_aws clock_1 "prod" None) = "ready".
Proof.
  split.
  - pose proof (pre_check_ready_iff_all_healthy example_aws clock_1 "prod" None) as H.
    destruct (DevopsInfra.analyze_health example_aws clock_1 "prod" None)
      as [cluster items t|error] eqn:E; vm_compute in E; [|discriminate E].
    injection E as <- <- <-.
    destruct H as (status & recommendation & -> & _ & Hn).
    cbn [DevopsInfra.deployment_status]. apply Hn.
    intros HF. inversion HF as [|? ? _ HF']. inversion HF' as [|? ? Hw _].
    discriminate Hw.
  - pose proof (pre_check_ready_iff_all_healthy empty_aws clock_1 "prod" None) as H.
    destruct (DevopsInfra.analyze_health empty_aws clock_1 "prod" None)
      as [cluster items t|error] eqn:E; vm_compute in E; [|discriminate E].
    injection E as <- <- <-.
    destruct H as (status & recommendation & -> & Hy & _).
    cbn [DevopsInfra.deployment_status]. apply Hy. constructor.
Defined.

Lemma post_check_success_iff_all_healthy_witness :
  DevopsInfra.post_deployment_check empty_aws clock_1 "prod" None
  = DevopsInfra.DeploymentError "division by zero" /\
  DevopsInfra.deployment_status
    (DevopsInfra.post_deployment_check example_aws clock_1 "prod" None) = "partial".
Proof.
  split.
  - pose proof (post_check_success_iff_all_healthy empty_aws clock_1 "prod" None) as H.
    destruct (DevopsInfra.analyze_health empty_aws clock_1 "prod" None)
      as [cluster items t|error] eqn:E; vm_compute in E; [|discriminate E].
    injection E as <- <- <-. exact (proj1 H).
  - pose proof (post_check_success_iff_all_healthy example_aws clock_1 "prod" None) as H.
    destruct (DevopsInfra.analyze_health example_aws clock_1 "prod" None)
      as [cluster items t|error] eqn:E; vm_compute in E; [|discriminate E].
    injection E as <- <- <-.
    destruct H as (status & recommendation & healthy & -> & _ & _ & _ & Hn).
    cbn [DevopsInfra.deployment_status]. apply Hn.
    intros HF. inversion HF as [|? ? _ HF']. inversion HF' as [|? ? Hw _].
    discriminate Hw.
Defined.



(** ** web_interface.py: the replies of /analyze *)

(** The route after the url field is read, for a text that is not
    blank. *)
Lemma web_route_unfold urlparse (w : world)
      (post : string -> string -> result WebRoutes.post_answer)
      (now_reply now_report : string) (url_text : string) :
  strip url_text <> EmptyString ->
  let u := with_scheme (strip url_text) in
  WebRoutes.analyze_url urlparse w post now_reply now_report
                        (Ok (Some (JString url_text)))
  = match
      (connectivity_data <- analyze_url_connectivity urlparse w u ;;
       let ai_result := WebRoutes.get_ai_analysis post u connectivity_data in
       use_ai <-
         (if WebRoutes.truthy_result ai_result then
            error <- WebRoutes.result_get WebRoutes.ad_error py_None ai_result ;;
            Ok (negb (truthy_value error))
          else Ok false) ;;
       if use_ai then
         ai_analysis <-
           WebRoutes.result_get WebRoutes.ad_response
                                (JString "No AI response available") ai_result ;;
         processing_time_ms <-
           WebRoutes.result_get WebRoutes.ad_processing_time_ms py_zero ai_result ;;
         model <- WebRoutes.result_get WebRoutes.ad_model (JString "unknown") ai_result ;;
         Ok (WebRoutes.Reply200 u connectivity_data now_reply ai_analysis
                                (WebRoutes.MetaModel processing_time_ms model))
       else
         fallback <- WebRoutes.fallback_of now_report u connectivity_data ;;
         error <- WebRoutes.result_get WebRoutes.ad_error
                                       (JString "AI analysis unavailable") ai_result ;;
         Ok (WebRoutes.Reply200 u connectivity_data now_reply (JString fallback)
                                (WebRoutes.MetaFallback error)))
    with
    | Ok r => r
    | Raise e => WebRoutes.ReplyError 500 ("Analysis failed: " ++ exn_str e)
    end.
Proof.
  intros Hne u. unfold WebRoutes.analyze_url. cbn [bind].
  rewrite (truthy_str_nonempty _ Hne). reflexivity.
Qed.

(** X17.  The error replies of the route /analyze.  A request whose body
    cannot be read as a JSON object is answered with status 500 and the
    text of the exception, and so is a url that is not a string.  A
    missing or blank url (white space only, also the white space outside
    ASCII) is answered with status 400 before anything is probed.  A URL
    that cannot be parsed is answered with status 500 and the message
    "Analysis failed: 'port'": neither the summary nor the report can read
    the port from the short dictionary of the probe, and the parse
    message is lost.  A URL whose scheme is not https is answered with
    status 500 too, whatever the probes and the analysis service return,
    because the summary and the fallback report both raise on the missing
    TLS outcome. *)
Theorem web_analyze_error_replies :
  forall urlparse w post now_reply now_report,
    let route := WebRoutes.analyze_url urlparse w post now_reply now_report in
    (forall e, route (Raise e) = WebRoutes.ReplyError 500 ("Analysis failed: " ++ exn_str e)) /\
    (forall type_name text truthy,
        route (Ok (Some (JOther type_name text truthy)))
        = WebRoutes.ReplyError 500 ("Analysis failed: '" ++ type_name
                                      ++ "' object has no attribute 'strip'")) /\
    route (Ok None) = WebRoutes.ReplyError 400 "URL is required" /\
    (forall url_text,
        let u0 := strip url_text in
        (u0 = EmptyString ->
         route (Ok (Some (JString url_text))) = WebRoutes.ReplyError 400 "URL is required") /\
        (u0 <> EmptyString ->
         (exists e, urlparse (with_scheme u0) = Raise e) \/
         (exists parsed e, urlparse (with_scheme u0) = Ok parsed /\ p_port parsed = Raise e) ->
         route (Ok (Some (JString url_text)))
         = WebRoutes.ReplyError 500 "Analysis failed: 'port'") /\
        (u0 <> EmptyString ->
         forall parsed po,
           urlparse (with_scheme u0) = Ok parsed -> p_port parsed = Ok po ->
           p_scheme parsed <> "https" ->
           route (Ok (Some (JString url_text)))
           = WebRoutes.ReplyError 500
               "Analysis failed: 'NoneType' object has no attribute 'get'")).
Proof.
  intros urlparse w post now_reply now_report route. subst route. cbv beta.
  split; [reflexivity|]. split; [reflexivity|]. split; [reflexivity|].
  intros url_text u0. split; [|split].
  - intros H. unfold WebRoutes.analyze_url. cbn [bind]. fold u0. rewrite H. reflexivity.
  - intros Hne Hfail.
    rewrite (web_route_unfold urlparse w post now_reply now_report url_text Hne).
    cbv zeta. fold u0.
    assert (Hp : exists e,
               analyze_url_connectivity urlparse w (with_scheme u0)
               = Ok (AnalysisFailed (with_scheme u0) ("Analysis failed: " ++ exn_str e)
                                    [exn_str e])).
    { destruct Hfail as [[e He] | (parsed & e & Hparse & He)]; exists e.
      - exact (proj1 (probe_parse_failure urlparse w _) e He).
      - exact (proj2 (probe_parse_failure urlparse w _) parsed e Hparse He). }
    destruct Hp as [e ->]. reflexivity.
  - intros Hne parsed po Hparse Hport Hs.
    rewrite (web_route_unfold urlparse w post now_reply now_report url_text Hne).
    cbv zeta. fold u0.
    destruct (probe_fields urlparse w (with_scheme u0) parsed po Hparse Hport)
      as (r & Hr & _ & _ & _ & _ & Hdns & _ & Hssl & _).
    rewrite Hr. cbn [bind].
    destruct (String.eqb_spec (p_scheme parsed) "https"); [contradiction|].
    assert (Hd : dns_resolution r <> None) by (rewrite Hdns; discriminate).
    destruct (no_tls_outcome_raises now_report (with_scheme u0) None r Hssl Hd)
      as (Hsum & _ & Hweb & _).
    unfold WebRoutes.get_ai_analysis, WebRoutes.summary_of, WebRoutes.fallback_of.
    rewrite Hsum, Hweb. reflexivity.
Qed.

Lemma web_analyze_error_replies_witness :
  let route := WebRoutes.analyze_url example_urlparse world_up web_service_up
                                     clock_1 clock_2 in
  route (Ok (Some (JString "  http://example.com ")))
  = WebRoutes.ReplyError 500 "Analysis failed: 'NoneType' object has no attribute 'get'"
  /\
  route (Ok (Some (JString "[::1")))
  = WebRoutes.ReplyError 500 "Analysis failed: 'port'"
  /\
  route (Ok (Some (JString (String (ascii_of_nat 194) (String (ascii_of_nat 160) " ")))))
  = WebRoutes.ReplyError 400 "URL is required".
Proof.
  pose proof (web_analyze_error_replies example_urlparse world_up web_service_up
                clock_1 clock_2) as (_ & _ & _ & H).
  cbv zeta. split; [|split].
  - refine (proj2 (proj2 (H "  http://example.com ")) _
                  (mkParsed "http" (Some "example.com") (Ok None)) None _ _ _);
      [discriminate | reflexivity | reflexivity | discriminate].
  - refine (proj1 (proj2 (H "[::1")) _ _);
      [discriminate | left; eexists; reflexivity].
  - exact (proj1 (H (String (ascii_of_nat 194) (String (ascii_of_nat 160) " ")))
                 eq_refl).
Defined.

(** X18.  For a URL that parses with the scheme https the route /analyze
    probes, and both the summary and the fallback report can be written.
    Its reply follows from the one request to the analysis service.  A
    200 answer with a non-empty JSON object without truthy error key
    is passed on unchecked: the analysis is the value under the key
    response and the metadata carry the processing time and the model
    (with the defaults "No AI response available", 0 and "unknown").  A
    200 answer with an empty object or one with a truthy error, another
    status, a time-out, an exception, and a body that is not JSON give
    the fallback report, and the metadata name the error.  A 200 answer
    whose body is JSON but not an object (a list, a string, a number,
    null) is answered with status 500. *)
Theorem web_analyze_https_reply :
  forall urlparse w post now_reply now_report url_text parsed po,
    let u := with_scheme (strip url_text) in
    strip url_text <> EmptyString ->
    urlparse u = Ok parsed -> p_port parsed = Ok po -> p_scheme parsed = "https" ->
    exists r summary fallback,
      analyze_url_connectivity urlparse w u = Ok (Probed r) /\
      connectivity_summary r = Ok summary /\
      WebInterface.generate_fallback_analysis now_report u r = Ok fallback /\
      let failed (error : json_value) :=
        WebRoutes.Reply200 u (Probed r) now_reply (JString fallback)
                           (WebRoutes.MetaFallback error) in
      let raised (e : exn) :=
        failed (if exn_is_timeout e
                then JString "AI API timeout - using fallback analysis"
                else JString ("AI analysis failed: " ++ exn_str e)) in
      WebRoutes.analyze_url urlparse w post now_reply now_report
                            (Ok (Some (JString url_text)))
      = match post (WebRoutes.prompt u summary) "url-troubleshooting" with
        | Raise e => raised e
        | Ok answer =>
            if WebRoutes.pa_status_code answer =? 200 then
              match WebRoutes.pa_json answer with
              | Raise e => raised e
              | Ok (WebRoutes.AiOther v) =>
                  WebRoutes.ReplyError 500
                    ("Analysis failed: '" ++ no_type v
                       ++ "' object has no attribute 'get'")
              | Ok (WebRoutes.AiDict d) =>
                  if WebRoutes.truthy_dict d && negb (WebRoutes.truthy_error d) then
                    WebRoutes.Reply200 u (Probed r) now_reply
                      (match WebRoutes.ad_response d with
                       | Some v => v
                       | None => JString "No AI response available"
                       end)
                      (WebRoutes.MetaModel
                         (match WebRoutes.ad_processing_time_ms d with
                          | Some t => t
                          | None => py_zero
                          end)
                         (match WebRoutes.ad_model d with
                          | Some m => m
                          | None => JString "unknown"
                          end))
                  else
                    failed (match WebRoutes.ad_error d with
                            | Some e => e
                            | None => JString "AI analysis unavailable"
                            end)
              end
            else
              failed (JString ("AI API returned status "
                                 ++ str_of_Z (WebRoutes.pa_status_code answer)))
        end.
Proof.
  intros urlparse w post now_reply now_report url_text parsed po u
         Hne Hparse Hport Hs.
  rewrite (web_route_unfold urlparse w post now_reply now_report url_text Hne).
  cbv zeta. fold u.
  destruct (probe_fields urlparse w u parsed po Hparse Hport)
    as (r & Hr & _ & _ & _ & _ & Hdns & _ & Hssl & Hhttp & _).
  rewrite Hs in Hssl. cbn [String.eqb Ascii.eqb Bool.eqb] in Hssl.
  assert (Hd : dns_resolution r <> None) by (rewrite Hdns; discriminate).
  assert (Hs' : ssl_info r <> None) by (rewrite Hssl; discriminate).
  assert (Hh : http_status r <> None) by (rewrite Hhttp; discriminate).
  destruct (summary_ok r Hd Hs' Hh) as [summary Hsum].
  destruct (checklist_ok r Hd Hs' Hh) as [checks Hc].
  assert (Hfb : exists fb, WebInterface.generate_fallback_analysis now_report u r = Ok fb).
  { unfold WebInterface.generate_fallback_analysis. rewrite Hc. cbn [bind]. now eexists. }
  destruct Hfb as [fb Hfb].
  exists r, summary, fb. rewrite Hr. cbn [bind].
  split; [reflexivity|]. split; [exact Hsum|]. split; [exact Hfb|].
  unfold WebRoutes.get_ai_analysis, WebRoutes.summary_of, WebRoutes.fallback_of.
  rewrite Hsum, Hfb. cbn [bind].
  destruct (post (WebRoutes.prompt u summary) "url-troubleshooting") as [answer|e];
    cbn [bind].
  - destruct (WebRoutes.pa_status_code answer =? 200).
    + destruct (WebRoutes.pa_json answer) as [[d|v]|e].
      * cbn [WebRoutes.truthy_result WebRoutes.result_get bind].
        unfold WebRoutes.truthy_error.
        destruct (WebRoutes.truthy_dict d); cbn [andb bind];
          [|reflexivity].
        destruct (WebRoutes.ad_error d) as [err|]; cbn [truthy_value py_None];
          [destruct (truthy_value err)|]; reflexivity.
      * cbn [WebRoutes.truthy_result WebRoutes.result_get bind].
        destruct (no_truthy v); reflexivity.
      * destruct (exn_is_timeout e); reflexivity.
    + reflexivity.
  - destruct (exn_is_timeout e); reflexivity.
Qed.

Lemma web_analyze_https_reply_witness :
  let route service :=
    WebRoutes.analyze_url example_urlparse world_up service clock_1 clock_2
                          (Ok (Some (JString " example.com "))) in
  route web_service_up
  = WebRoutes.Reply200 "https://example.com" (Probed (https_record (120 # 1))) clock_1
                       (JString "The endpoint is healthy.")
                       (WebRoutes.MetaModel (JOther "int" "1500" true) (JString "llama3")) /\
  (exists fallback,
      WebInterface.generate_fallback_analysis clock_2 "https://example.com"
                                              (https_record (120 # 1)) = Ok fallback /\
      route web_service_down
      = WebRoutes.Reply200 "https://example.com" (Probed (https_record (120 # 1))) clock_1
                           (JString fallback)
                           (WebRoutes.MetaFallback
                              (JString "AI analysis failed: Connection refused"))) /\
  route web_service_list
  = WebRoutes.ReplyError 500 "Analysis failed: 'list' object has no attribute 'get'".
Proof.
  cbv zeta.
  assert (H : forall service,
             exists r summary fallback,
               analyze_url_connectivity example_urlparse world_up "https://example.com"
               = Ok (Probed r) /\ _ /\ _ /\ _)
    by (intros service;
        exact (web_analyze_https_reply example_urlparse world_up service clock_1 clock_2
                 " example.com " (mkParsed "https" (Some "example.com") (Ok None)) None
                 ltac:(discriminate) eq_refl eq_refl eq_refl)).
  split; [|split].
  - destruct (H web_service_up) as (r & summary & fallback & Hr & _ & _ & ->).
    apply Ok_inj in Hr. injection Hr as <-. reflexivity.
  - destruct (H web_service_down) as (r & summary & fallback & Hr & _ & Hfb & ->).
    apply Ok_inj in Hr. injection Hr as <-. exists fallback. split; [exact Hfb|reflexivity].
  - destruct (H web_service_list) as (r & summary & fallback & Hr & _ & _ & ->).
    reflexivity.
Defined.

(** ** The summary sent to the analysis service *)

(** X19.  When the summary of a record can be built it opens with
    exactly one DNS line, one port line and one TLS line, in this order;
    every entry of the errors list appears in it as a bullet line, and
    the heading "Issues detected" is present exactly when the errors
    list is not empty.  It can be built exactly when the DNS, TLS and
    HTTP outcomes of the record are set. *)
Theorem summary_lists_every_error :
  forall data,
    (forall summary,
        connectivity_summary data = Ok summary ->
        (exists l_dns l_port l_ssl rest,
            summary = l_dns :: l_port :: l_ssl :: rest /\
            (l_dns = "❌ DNS resolution failed"
             \/ exists ip, l_dns = "✅ DNS resolves to " ++ ip) /\
            (l_port = "✅ Port " ++ str_of_Z (port data) ++ " is open"
             \/ l_port = "❌ Port " ++ str_of_Z (port data) ++ " is closed or blocked") /\
            (l_ssl = "✅ SSL certificate is valid"
             \/ l_ssl = "❌ SSL certificate issue detected")) /\
        (forall e, In e (errors data) -> In ("   • " ++ e) summary) /\
        (In (nl ++ "🚨 Issues detected:") summary <-> errors data <> [])) /\
    ((exists summary, connectivity_summary data = Ok summary) <->
     dns_resolution data <> None /\ ssl_info data <> None /\ http_status data <> None).
Proof.
  intros data. split.
  - intros summary. unfold connectivity_summary.
    destruct (dns_resolution data) as [d|]; cbn [get_get bind]; [|discriminate].
    destruct (ssl_info data) as [s|]; cbn [get_get bind]; [|discriminate].
    destruct (http_status data) as [h|]; cbn [get_get bind]; [|discriminate].
    intros H. apply Ok_inj in H. subst summary.
    set (s_http := match http_status_code h with Some _ => _ | None => _ end).
    set (s_time := match response_time data with Some _ => _ | None => _ end).
    split; [|split].
    + destruct (dns_success d), (port_success (connectivity_tests_port data)),
        (ssl_success s); cbn [app]; eexists _, _, _, _;
        (split; [reflexivity|]); repeat split;
        first [now left | now right | right; now eexists].
    + intros e He. rewrite !in_app_iff. do 5 right.
      destruct (errors data) as [|e0 errs]; [contradiction|].
      cbn [truthy_list]. right. apply in_map_iff. now exists e.
    + split.
      * intros Hin Hnil. rewrite Hnil in Hin. cbn [truthy_list] in Hin.
        rewrite !in_app_iff in Hin.
        destruct Hin as [Hin|[Hin|[Hin|[Hin|[Hin|[]]]]]].
        -- destruct (dns_success d); destruct Hin as [Hin|[]];
             cbn [append] in Hin; discriminate Hin.
        -- destruct (port_success (connectivity_tests_port data));
             destruct Hin as [Hin|[]]; cbn [append] in Hin; discriminate Hin.
        -- destruct (ssl_success s); destruct Hin as [Hin|[]];
             cbn [append] in Hin; discriminate Hin.
        -- subst s_http. destruct (http_status_code h) as [st|]; [|contradiction].
           destruct (truthy_Z st); [|contradiction].
           destruct ((200 <=? st) && (st <? 300));
             [|destruct ((300 <=? st) && (st <? 400))];
             destruct Hin as [Hin|[]]; cbn [append] in Hin; discriminate Hin.
        -- subst s_time. destruct (response_time data) as [ms|]; [|contradiction].
           destruct (Qltb ms (1000 # 1)); [|destruct (Qltb ms (3000 # 1))];
             destruct Hin as [Hin|[]]; cbn [append] in Hin; discriminate Hin.
      * intros Hne. rewrite !in_app_iff. do 5 right.
        destruct (errors data); [congruence|]. left. reflexivity.
  - split.
    + intros [summary H].
      unfold connectivity_summary in H.
      destruct (dns_resolution data) as [d|]; cbn [get_get bind] in H;
        [|discriminate H].
      destruct (ssl_info data) as [s|]; cbn [get_get bind] in H; [|discriminate H].
      destruct (http_status data) as [h|]; cbn [get_get bind] in H;
        [|discriminate H].
      repeat split; discriminate.
    + intros (Hd & Hs & Hh). exact (summary_ok data Hd Hs Hh).
Qed.

Lemma summary_lists_every_error_witness :
  exists r summary,
    analyze_url_connectivity example_urlparse world_down "https://example.com"
    = Ok (Probed r) /\
    connectivity_summary r = Ok summary /\
    In "   • Connection error: Connection refused" summary.
Proof.
  eexists.
  assert (H : exists summary,
             connectivity_summary
               (mkData "https://example.com" (Some "example.com") 443 "https"
                  (Some (PortError "[Errno -2] Name or service not known"))
                  (Some (DnsFail "[Errno -2] Name or service not known"))
                  (Some (SslFail "[Errno -2] Name or service not known"))
                  (Some (HttpError "Connection error")) None
                  ["DNS Resolution failed: [Errno -2] Name or service not known";
                   "Port connection failed: [Errno -2] Name or service not known";
                   "SSL Certificate issue: [Errno -2] Name or service not known";
                   "Connection error: Connection refused"]) = Ok summary).
  { apply (proj2 (summary_lists_every_error _)). repeat split; discriminate. }
  destruct H as [summary Hsum]. exists summary.
  split; [vm_compute; reflexivity|]. split; [exact Hsum|].
  apply (proj1 (summary_lists_every_error _) summary Hsum).
  cbn [errors]. do 3 right. left. reflexivity.
Defined.

(** ** Reports of devops-analyzer.py *)

(** X20.  For every record that the probe returns, the no-question
    fallback of devops-analyzer.py is the regular report: the text of its
    [except] clause ("URL Analysis Report - Error") is never produced.
    When the record has no TLS outcome the report holds the line
    "Not applicable (HTTP)" between the port line and the HTTP line. *)
Theorem devops_report_never_fails_on_probed_record :
  forall urlparse w u now r,
    analyze_url_connectivity urlparse w u = Ok (Probed r) ->
    exists text,
      DevopsAnalyzer.url_report now r = Ok text /\
      DevopsAnalyzer._generate_url_fallback urlparse now r None = text /\
      (ssl_info r = None ->
       exists before after,
         text = before ++ ("⚪ **SSL Certificate:** Not applicable (HTTP)" ++ nl)
                       ++ after /\
         ends_with ((if port_success (connectivity_tests_port r)
                     then ":** Open" else ":** Closed or blocked") ++ nl) before).
Proof.
  intros urlparse w u now r H.
  destruct (probed_outcomes_set _ _ _ _ H) as (Hd & _).
  unfold DevopsAnalyzer._generate_url_fallback, DevopsAnalyzer.url_report.
  destruct (dns_resolution r) as [d|]; [|contradiction].
  cbn [get_get bind]. eexists. split; [reflexivity|]. split; [reflexivity|].
  intros Hs. rewrite Hs.
  match goal with
  | |- context [?h ++ ?a_dns ++ ?a_port ++ ?a_ssl ++ ?rest] =>
      exists (h ++ a_dns ++ a_port), rest
  end.
  split; [now rewrite !append_assoc|].
  do 2 apply ends_with_app.
  destruct (port_success (connectivity_tests_port r));
    do 2 apply ends_with_app; apply ends_with_refl.
Qed.

Lemma devops_report_never_fails_on_probed_record_witness :
  exists text,
    DevopsAnalyzer.url_report clock_1 http_record = Ok text /\
    DevopsAnalyzer._generate_url_fallback example_urlparse clock_1 http_record None
    = text.
Proof.
  destruct (devops_report_never_fails_on_probed_record
              example_urlparse world_up "http://example.com" clock_1 http_record
              eq_refl) as (text & H1 & H2 & _).
  now exists text.
Defined.

(** The closing lines of the deployment report. *)
Lemma deployment_report_ends (now : string) (data : DevopsInfra.deployment_result)
      (section : string) :
  (if String.eqb (DevopsInfra.deployment_status data) "ready"
   then DevopsInfra.section_safe_to_deploy
   else if String.eqb (DevopsInfra.deployment_status data) "success"
        then DevopsInfra.section_successful
        else DevopsInfra.section_issues) = section ->
  ends_with
    (section ++ nl ++ nl ++ "---" ++ nl ++
     "*Generated automatically - For AI insights ensure analysis service is available.*" ++ nl)
    (DevopsInfra._generate_deployment_fallback now data).
Proof.
  intros <-. unfold DevopsInfra._generate_deployment_fallback.
  apply ends_with_app. apply ends_with_refl.
Qed.

(** X21.  The deployment report closes with the section that fits the
    check: after a pre-deployment check "Safe to Deploy" when every
    service is healthy, after a post-deployment check "Deployment
    Successful" when every service is healthy, and "Deployment Issues
    Detected" in both cases when some service is not.  The three sections
    are different texts. *)
Theorem deployment_report_section :
  forall a utc_now now c service cluster items t,
    DevopsInfra.analyze_health a utc_now c service
    = DevopsInfra.Health cluster items t ->
    let footer :=
      nl ++ nl ++ "---" ++ nl ++
      "*Generated automatically - For AI insights ensure analysis service is available.*" ++ nl in
    let pre := DevopsInfra.pre_deployment_check a utc_now c service in
    let post := DevopsInfra.post_deployment_check a utc_now c service in
    (Forall (fun i => DevopsInfra.h_healthy i = true) items ->
     ends_with (DevopsInfra.section_safe_to_deploy ++ footer)
               (DevopsInfra._generate_deployment_fallback now pre) /\
     (items <> [] ->
      ends_with (DevopsInfra.section_successful ++ footer)
                (DevopsInfra._generate_deployment_fallback now post))) /\
    (~ Forall (fun i => DevopsInfra.h_healthy i = true) items ->
     ends_with (DevopsInfra.section_issues ++ footer)
               (DevopsInfra._generate_deployment_fallback now pre) /\
     ends_with (DevopsInfra.section_issues ++ footer)
               (DevopsInfra._generate_deployment_fallback now post)) /\
    DevopsInfra.section_safe_to_deploy <> DevopsInfra.section_successful /\
    DevopsInfra.section_safe_to_deploy <> DevopsInfra.section_issues /\
    DevopsInfra.section_successful <> DevopsInfra.section_issues.
Proof.
  intros a utc_now now c service cluster items t Hh footer pre post.
  pose proof (pre_deployment_check_cases a utc_now c service) as Hpre.
  pose proof (post_deployment_check_cases a utc_now c service) as Hpost.
  rewrite Hh in Hpre, Hpost.
  destruct Hpre as (s1 & r1 & Epre & Hy1 & Hn1).
  fold pre in Epre. fold post in Hpost.
  split; [|split].
  - intros Hall. split.
    + apply deployment_report_ends. rewrite Epre.
      cbn [DevopsInfra.deployment_status]. now rewrite (proj1 (Hy1 Hall)).
    + intros Hne. destruct items as [|i items]; [congruence|].
      destruct Hpost as (s2 & r2 & h2 & Epost & _ & _ & Hy2 & _).
      apply deployment_report_ends. rewrite Epost.
      cbn [DevopsInfra.deployment_status]. now rewrite (proj1 (Hy2 Hall)).
  - intros Hnot. split.
    + apply deployment_report_ends. rewrite Epre.
      cbn [DevopsInfra.deployment_status]. now rewrite (proj1 (Hn1 Hnot)).
    + destruct items as [|i items]; [exfalso; apply Hnot; constructor|].
      destruct Hpost as (s2 & r2 & h2 & Epost & _ & _ & _ & Hn2).
      apply deployment_report_ends. rewrite Epost.
      cbn [DevopsInfra.deployment_status]. now rewrite (proj1 (Hn2 Hnot)).
  - repeat split; intros H; vm_compute in H; discriminate H.
Qed.

Lemma deployment_report_section_witness :
  ends_with
    (DevopsInfra.section_issues ++ nl ++ nl ++ "---" ++ nl ++
     "*Generated automatically - For AI insights ensure analysis service is available.*" ++ nl)
    (DevopsInfra._generate_deployment_fallback clock_2
       (DevopsInfra.pre_deployment_check example_aws clock_1 "prod" None)).
Proof.
  destruct (DevopsInfra.analyze_health example_aws clock_1 "prod" None)
    as [cluster items t|error] eqn:E; [|vm_compute in E; discriminate E].
  pose proof E as E'. vm_compute in E'. injection E' as <- Hitems <-.
  refine (proj1 (proj1 (proj2 (deployment_report_section example_aws clock_1 clock_2
                                 "prod" None "prod" items clock_1 E)) _)).
  rewrite <- Hitems. intros HF.
  inversion HF as [|? ? _ HF']. inversion HF' as [|? ? Hw _]. discriminate Hw.
Defined.

(** X22.  The command [infrastructure] of devops-analyzer.py.  When the
    data could not be gathered (the architecture or health analysis
    returned its error dictionary) it returns 1.  Otherwise, whatever
    the health of the services: with --no-ai it shows the fallback
    report for the gathered data and returns 0; with the AI enabled a
    200 answer that hands over a text free of failure keywords is shown
    (exit code 0), a text with a failure keyword and every other outcome
    of the request give the fallback (exit code 0), and a 200 answer
    whose response value is not a string makes [main] fail in the
    keyword test and return 1. *)
Theorem main_infrastructure_outcome :
  forall a w utc_now now args,
    let run := DevopsInfra.main_infrastructure a w utc_now now args in
    let outcome (prompt context fallback : string) :=
      if DevopsInfra.ia_no_ai args then run = Ok (mkRun (Some fallback) 0)
      else
        run = match service_answer w prompt context with
              | Some (JString text) =>
                  Ok (mkRun (Some (if existsb (fun keyword => contains keyword (lower text))
                                              DevopsAnalyzer.failure_keywords
                                   then fallback else text)) 0)
              | Some (JOther _ _ _) => Ok (mkRun None 1)
              | None => Ok (mkRun (Some fallback) 0)
              end in
    match DevopsInfra.ia_type args with
    | DevopsInfra.TypeArchitecture =>
        match DevopsInfra.analyze_architecture a utc_now (DevopsInfra.ia_cluster args) with
        | DevopsInfra.ArchitectureError _ => run = Ok (mkRun None 1)
        | DevopsInfra.Architecture cluster services load_balancers _ =>
            outcome (DevopsInfra._create_architecture_prompt cluster services
                                                             load_balancers)
                    "architecture-analysis"
                    (DevopsInfra._generate_architecture_fallback now cluster services)
        end
    | DevopsInfra.TypeHealth =>
        match DevopsInfra.analyze_health a utc_now (DevopsInfra.ia_cluster args)
                                         (DevopsInfra.ia_service args) with
        | DevopsInfra.HealthError _ => run = Ok (mkRun None 1)
        | DevopsInfra.Health cluster services _ =>
            outcome (DevopsInfra._create_health_prompt cluster services)
                    "health-analysis"
                    (DevopsInfra._generate_health_fallback now cluster services)
        end
    end.
Proof.
  intros a w utc_now now args run outcome. subst run outcome. cbv beta.
  unfold DevopsInfra.main_infrastructure.
  destruct (DevopsInfra.ia_type args).
  - destruct (DevopsInfra.analyze_architecture a utc_now (DevopsInfra.ia_cluster args))
      as [cluster services load_balancers t|error]; [|reflexivity].
    destruct (DevopsInfra.ia_no_ai args); [reflexivity|].
    rewrite keyword_test_cases.
    destruct (service_answer w _ _) as [[text|type_name text truthy]|]; reflexivity.
  - destruct (DevopsInfra.analyze_health a utc_now (DevopsInfra.ia_cluster args)
                                         (DevopsInfra.ia_service args))
      as [cluster services t|error]; [|reflexivity].
    destruct (DevopsInfra.ia_no_ai args); [reflexivity|].
    rewrite keyword_test_cases.
    destruct (service_answer w _ _) as [[text|type_name text truthy]|]; reflexivity.
Qed.

Lemma main_infrastructure_outcome_witness :
  let health := DevopsInfra.mkInfraArgs DevopsInfra.TypeHealth "prod" None false in
  DevopsInfra.main_infrastructure example_aws world_up clock_1 clock_2 health
  = Ok (mkRun (Some "The endpoint is healthy.") 0) /\
  DevopsInfra.main_infrastructure example_aws world_ai_number clock_1 clock_2 health
  = Ok (mkRun None 1) /\
  DevopsInfra.main_infrastructure example_aws world_ai_500 clock_1 clock_2
    (DevopsInfra.mkInfraArgs DevopsInfra.TypeArchitecture "prod" None false)
  = Ok (mkRun (Some (DevopsInfra._generate_architecture_fallback
                       clock_2 (DevopsInfra.mkCluster (Some "prod") (Some "ACTIVE"))
                       (map (fun info =>
                               DevopsInfra.mkDetail
                                 (DevopsInfra.svc_serviceName info)
                                 (DevopsInfra.svc_status info)
                                 (DevopsInfra.svc_desiredCount info)
                                 (DevopsInfra.svc_runningCount info)
                                 (DevopsInfra.last_segment
                                    (DevopsInfra.svc_taskDefinition info)))
                            [DevopsInfra.mkService "api" "ACTIVE" 2 2
                               "arn:aws:ecs:us-east-1:123456789012:task-definition/api:7";
                             DevopsInfra.mkService "worker" "ACTIVE" 2 1
                               "arn:aws:ecs:us-east-1:123456789012:task-definition/worker:3"]))) 0).
Proof.
  cbv zeta. split; [|split].
  - exact (main_infrastructure_outcome example_aws world_up clock_1 clock_2
             (DevopsInfra.mkInfraArgs DevopsInfra.TypeHealth "prod" None false)).
  - exact (main_infrastructure_outcome example_aws world_ai_number clock_1 clock_2
             (DevopsInfra.mkInfraArgs DevopsInfra.TypeHealth "prod" None false)).
  - exact (main_infrastructure_outcome example_aws world_ai_500 clock_1 clock_2
             (DevopsInfra.mkInfraArgs DevopsInfra.TypeArchitecture "prod" None false)).
Defined.

Lemma analyze_url_raise_recognised (e : exn) :
  exists text : string,
    (if exn_is_timeout e then JString "AI API timeout - using fallback analysis"
     else JString ("AI analysis failed: " ++ exn_str e)) = text /\
    AnalyzeUrl.looks_failed text = true.
Proof.
  destruct (exn_is_timeout e); eexists; (split; [reflexivity|]).
  - reflexivity.
  - unfold AnalyzeUrl.looks_failed. rewrite lower_app. apply orb_true_iff. right.
    apply contains_app_l. reflexivity.
Qed.

(** X23.  In analyze_url.py what the AI path returns follows from the
    one request of the run.  When the summary cannot be built, the
    request raises or times out, or the body of a 200 answer is not JSON
    or not a JSON object, it is a text that [main] recognises as a
    failure ("timeout" or "failed"), so [main] turns to the fallback
    report.  A 200 answer with a JSON object gives the value under the
    key response, unchecked, or "No AI response available".  An answer
    with another status gives the text "AI API returned status ...",
    which is recognised when the body of the answer contains "timeout"
    or "failed". *)
Theorem analyze_url_ai_failures_recognised :
  forall w u question data,
    let ai := AnalyzeUrl.get_ai_analysis w u question data in
    let recognised :=
      exists text : string, ai = text /\ AnalyzeUrl.looks_failed text = true in
    match connectivity_summary data with
    | Raise _ => recognised
    | Ok summary =>
        match w_requests_post w (AnalyzeUrl.prompt u question summary) "url-analysis" with
        | Raise _ => recognised
        | Ok resp =>
            if post_status_code resp =? 200 then
              match post_json resp with
              | Ok (JsonObject o) =>
                  ai = match j_response o with
                       | Some v => v
                       | None => JString "No AI response available"
                       end
              | Ok (JsonNonObject _) => recognised
              | Raise _ => recognised
              end
            else
              ai = JString ("AI API returned status " ++ str_of_Z (post_status_code resp)
                              ++ ": " ++ post_text resp) /\
              (contains "timeout" (lower (post_text resp))
               || contains "failed" (lower (post_text resp)) = true -> recognised)
        end
    end.
Proof.
  intros w u question data ai recognised. subst ai recognised.
  unfold AnalyzeUrl.get_ai_analysis.
  destruct (connectivity_summary data) as [summary|e]; cbn [bind];
    [|apply analyze_url_raise_recognised].
  destruct (w_requests_post w (AnalyzeUrl.prompt u question summary) "url-analysis")
    as [resp|e]; cbn [bind]; [|apply analyze_url_raise_recognised].
  destruct (post_status_code resp =? 200).
  - destruct (post_json resp) as [[o|v]|e]; cbn [bind json_get];
      [reflexivity | apply analyze_url_raise_recognised
       | apply analyze_url_raise_recognised].
  - split; [reflexivity|]. intros Hk. eexists. split; [reflexivity|].
    unfold AnalyzeUrl.looks_failed. rewrite !lower_app.
    apply orb_true_iff in Hk. apply orb_true_iff.
    destruct Hk as [Hk|Hk]; [left|right]; do 3 apply contains_app_r; exact Hk.
Qed.
